(** * esp32-smart-connect-plug: lifecycle manager (main/esp32-lcm.c) and
      application start-up (main.c)

    A shallow embedding of the restart-counter protocol, the post-reset
    reason kept in RTC memory, the deliberate reboot sequences, the Wi-Fi
    start/stop state machine, the firmware revision and the OTA trigger,
    and of the relay, the LED, the button and the start-up of main.c,
    together with the properties the specification states about them and
    further properties read off the code.

    The C statics become fields of [State]; every function of the source
    is a computation in the monad [M], which threads the state, collects
    the calls made to ESP-IDF as a trace of [event]s, and stops where the
    source calls [esp_restart], which does not return.  Of the diagnostic
    output only [lifecycle_log_step] and the lines the specification
    refers to are kept in the trace; the [log_tag] arguments, which only
    select the tag of a log line, are dropped. *)

From Stdlib Require Import ZArith Lia.
From stdpp Require Import base gmap strings list.

Open Scope Z_scope.

(** ** Constants of the source *)

Definition UINT32_MAX : Z := 4294967295.
Definition k_post_reset_magic : Z := 0xC0DEC0DE.
Definition CONFIG_LCM_RESTART_COUNTER_TIMEOUT_MS : Z := 5000.
Definition k_restart_counter_timeout_us : Z :=
  (CONFIG_LCM_RESTART_COUNTER_TIMEOUT_MS * 1000) mod 2 ^ 64.
Definition k_restart_counter_namespace : string := "lcm".
Definition k_restart_counter_key : string := "restart_count".

(** [lifecycle_post_reset_reason_t] (esp32-lcm.h); a C enum, kept as its
    integer code. *)
Definition LIFECYCLE_POST_RESET_NONE : Z := 0.
Definition LIFECYCLE_POST_RESET_REASON_HOMEKIT : Z := 1.
Definition LIFECYCLE_POST_RESET_REASON_FACTORY : Z := 2.
Definition LIFECYCLE_POST_RESET_REASON_UPDATE : Z := 3.

(** ** ESP-IDF types used by the source *)

(** The error codes the source names.  The source only ever compares an
    [esp_err_t] with one of these constants, so the numeric values (which
    live in ESP-IDF headers) are not needed; [ESP_FAIL] stands for any
    other failure. *)
Inductive esp_err_t :=
| ESP_OK
| ESP_FAIL
| ESP_ERR_NO_MEM
| ESP_ERR_INVALID_ARG
| ESP_ERR_INVALID_STATE
| ESP_ERR_NOT_FOUND
| ESP_ERR_NVS_NOT_INITIALIZED
| ESP_ERR_NVS_NOT_FOUND
| ESP_ERR_NVS_TYPE_MISMATCH
| ESP_ERR_NVS_NO_FREE_PAGES
| ESP_ERR_NVS_NEW_VERSION_FOUND
| ESP_ERR_NVS_INVALID_LENGTH
| ESP_ERR_WIFI_NOT_INIT
| ESP_ERR_WIFI_NOT_STARTED.

#[global] Instance esp_err_eq_dec : EqDecision esp_err_t.
Proof. solve_decision. Defined.

Inductive esp_partition_type_t :=
| ESP_PARTITION_TYPE_APP
| ESP_PARTITION_TYPE_DATA.

#[global] Instance esp_partition_type_eq_dec : EqDecision esp_partition_type_t.
Proof. solve_decision. Defined.

(** [esp_partition_t]: the fields the source reads. *)
Record esp_partition_t := {
  p_type : esp_partition_type_t;
  p_subtype : Z;
  p_address : Z;
  p_size : Z;
  p_label : string;
}.

#[global] Instance esp_partition_eq_dec : EqDecision esp_partition_t.
Proof. solve_decision. Defined.

Inductive nvs_open_mode_t := NVS_READONLY | NVS_READWRITE.

Inductive wifi_auth_mode_t := WIFI_AUTH_OPEN | WIFI_AUTH_WPA2_PSK.

(** Event loop events as (base, id) pairs. *)
Inductive wifi_event_id :=
| WIFI_EVENT_STA_START
| WIFI_EVENT_STA_DISCONNECTED
| WIFI_EVENT_OTHER (id : Z).

Inductive ip_event_id :=
| IP_EVENT_STA_GOT_IP
| IP_EVENT_OTHER (id : Z).

Inductive esp_event :=
| WIFI_EVENT (id : wifi_event_id)
| IP_EVENT (id : ip_event_id).

(** What [esp_event_handler_register] is given as event filter. *)
Inductive handler_filter :=
| WIFI_EVENT_ANY_ID
| IP_EVENT_GOT_IP_ONLY.

(** Values stored in NVS. *)
Inductive nvs_value :=
| NvsU8 (v : Z)
| NvsU32 (v : Z)
| NvsStr (v : string).

(** The ready callback given to [wifi_start]: the application's
    [on_wifi_ready], or some other function. *)
Inductive callback :=
| cb_on_wifi_ready
| cb_other (id : nat).

Inductive gpio_mode_t := GPIO_MODE_OUTPUT.

(** [button_event_t] of the button component; main.c names three of its
    values and sends every other one to the [default] branch. *)
Inductive button_event_t :=
| button_event_single_press
| button_event_double_press
| button_event_long_press
| button_event_other (code : Z).

(** ** esp-homekit types used by the source *)

Inductive homekit_format_t :=
| homekit_format_bool
| homekit_format_string
| homekit_format_other (code : Z).

(** What a [char *] held by a characteristic points to: a string literal,
    or the static buffer [s_fw_revision] of esp32-lcm.c. *)
Inductive string_ptr :=
| string_literal (s : string)
| addr_s_fw_revision.

(** [homekit_value_t]: the members the source uses.  The members of the
    union are kept side by side; the source reaches every value through
    the member of its format only. *)
Record homekit_value_t := {
  format : homekit_format_t;
  is_static : bool;
  bool_value : bool;
  string_value : option string_ptr;
}.

Definition HOMEKIT_BOOL (b : bool) : homekit_value_t :=
  {| format := homekit_format_bool; is_static := false;
     bool_value := b; string_value := None |}.

Definition HOMEKIT_STRING (s : string) : homekit_value_t :=
  {| format := homekit_format_string; is_static := false;
     bool_value := false; string_value := Some (string_literal s) |}.

(** The functions of the source that are stored in a characteristic. *)
Inductive characteristic_fn :=
| fn_relay_on_get
| fn_relay_on_set
| fn_lifecycle_handle_ota_trigger.

(** [homekit_characteristic_t]: the members the source sets. *)
Record homekit_characteristic_t := {
  value : homekit_value_t;
  getter : option characteristic_fn;
  setter : option characteristic_fn;
  setter_ex : option characteristic_fn;
}.

(** The characteristics of main.c that the source passes by address. *)
Inductive characteristic_ptr :=
| addr_revision
| addr_ota_trigger
| addr_relay_on_characteristic.

#[global] Instance gpio_mode_eq_dec : EqDecision gpio_mode_t.
Proof. solve_decision. Defined.
#[global] Instance button_event_eq_dec : EqDecision button_event_t.
Proof. solve_decision. Defined.
#[global] Instance homekit_format_eq_dec : EqDecision homekit_format_t.
Proof. solve_decision. Defined.
#[global] Instance string_ptr_eq_dec : EqDecision string_ptr.
Proof. solve_decision. Defined.
#[global] Instance homekit_value_eq_dec : EqDecision homekit_value_t.
Proof. solve_decision. Defined.
#[global] Instance characteristic_fn_eq_dec : EqDecision characteristic_fn.
Proof. solve_decision. Defined.
#[global] Instance homekit_characteristic_eq_dec : EqDecision homekit_characteristic_t.
Proof. solve_decision. Defined.
#[global] Instance characteristic_ptr_eq_dec : EqDecision characteristic_ptr.
Proof. solve_decision. Defined.

(** ** Calls into ESP-IDF and the trace *)

(** Calls whose result the source can observe.  For [Malloc] and
    [EspNetifCreateDefaultWifiSta], which return a pointer, a result other
    than [ESP_OK] stands for [NULL]; for [ButtonCreate], which returns an
    [int], for a value other than 0.  [NvsGetStr] is given the size of the
    buffer, or [None] with a [NULL] buffer. *)
Inductive idf_call :=
| NvsFlashInit
| NvsFlashErase
| NvsFlashDeinit
| NvsOpen (namespace : string) (mode : nvs_open_mode_t)
| NvsGetU32 (handle key : string)
| NvsGetStr (handle key : string) (length : option Z)
| NvsSetU32 (handle key : string) (v : Z)
| NvsSetU8 (handle key : string) (v : Z)
| NvsSetStr (handle key : string) (v : string)
| NvsEraseKey (handle key : string)
| NvsEraseAll (handle : string)
| NvsCommit (handle : string)
| Malloc (n : Z)
| EspTimerCreate
| EspTimerStop
| EspTimerStartOnce (timeout_us : Z)
| MdnsServiceRemove (service proto : string)
| EspNetifInit
| EspEventLoopCreateDefault
| EspNetifCreateDefaultWifiSta
| EspEventHandlerRegister (f : handler_filter)
| EspEventHandlerUnregister (f : handler_filter)
| EspWifiInit
| EspWifiSetStorage
| EspWifiSetMode
| EspWifiSetConfig (ssid password : string) (authmode : wifi_auth_mode_t)
| EspWifiStart
| EspWifiConnect
| EspWifiDisconnect
| EspWifiStop
| EspWifiDeinit
| EspWifiRestore
| EspOtaSetBootPartition (p : esp_partition_t)
| EspPartitionEraseRange (p : esp_partition_t) (offset size : Z)
| GpioResetPin (pin : Z)
| GpioSetDirection (pin : Z) (mode : gpio_mode_t)
| GpioSetLevel (pin level : Z)
| ButtonCreate (pin max_repeat_presses long_press_time : Z).

(** Calls that return nothing. *)
Inductive idf_proc :=
| NvsClose (handle : string)
| MdnsFree
| HomekitServerReset
| HomekitServerInit
| WifiConfigShutdown
| EspNetifDestroy
| VTaskDelay (ms : Z)
| OtherCallback (id : nat)
| HomekitCharacteristicNotify (ch : characteristic_ptr) (v : homekit_value_t)
| VTaskDelete
| Abort
| EspRestart.

Inductive event :=
| Call (c : idf_call) (r : esp_err_t)
| Do (p : idf_proc)
| LogStep (step : string)
| LogRestartCount (n : Z)
| LogCountdown (i : Z)
| LogPostResetFlag (reason_str : string)
| LogFactoryReset.

#[global] Instance event_eq_dec : EqDecision event.
Proof.
  assert (EqDecision nvs_open_mode_t) by solve_decision.
  assert (EqDecision wifi_auth_mode_t) by solve_decision.
  assert (EqDecision handler_filter) by solve_decision.
  assert (EqDecision idf_call) by solve_decision.
  assert (EqDecision idf_proc) by solve_decision.
  solve_decision.
Defined.

(** ** The board and the program state *)

(** What does not change while the firmware runs: the partition table,
    the version in the application descriptor ([None] if
    [esp_app_get_description] returns [NULL]), whether a provisioning
    component defining [wifi_config_shutdown] is linked in (the symbol is
    weak), the build configuration, and the outcome of every fallible call
    ([idf_fault k] is what the [k]-th call is made to report; [ESP_OK]
    lets the call do its work).  The partition subtype constants belong to
    ESP-IDF's esp_partition.h and the [CONFIG_] values to sdkconfig, which
    are not part of the repository: they are parameters of the board.
    [NDEBUG] decides whether [ESP_ERROR_CHECK] aborts. *)
Record Board := {
  ESP_PARTITION_SUBTYPE_APP_FACTORY : Z;
  ESP_PARTITION_SUBTYPE_APP_OTA_MIN : Z;
  ESP_PARTITION_SUBTYPE_APP_OTA_MAX : Z;
  ESP_PARTITION_SUBTYPE_DATA_OTA : Z;
  CONFIG_ESP_BUTTON_GPIO : Z;
  CONFIG_ESP_RELAY_GPIO : Z;
  CONFIG_ESP_BLUE_LED_GPIO : Z;
  LIFECYCLE_DEFAULT_FW_VERSION : string;
  NDEBUG : bool;
  partition_table : list esp_partition_t;
  running_partition : option esp_partition_t;
  app_description_version : option string;
  wifi_config_shutdown_linked : bool;
  idf_fault : nat → esp_err_t;
}.

(** [s_post_reset_state], placed in RTC memory. *)
Record post_reset_state_t := {
  magic : Z;
  reason : Z;
  restart_count : Z;
}.

(** The statics and globals of esp32-lcm.c and main.c, the contents of
    the NVS partition (namespace, then key) and the number of fallible
    calls made so far. *)
Record State := {
  s_post_reset_state : post_reset_state_t;
  s_wifi_on_ready_cb : option callback;
  s_wifi_started : bool;
  s_wifi_netif : bool;
  s_restart_counter_timer : bool;
  s_nvs_initialized : bool;
  s_fw_revision : string;
  s_fw_revision_initialized : bool;
  homekit_started : bool;
  relay_on : bool;
  revision : homekit_characteristic_t;
  ota_trigger : homekit_characteristic_t;
  relay_on_characteristic : homekit_characteristic_t;
  nvs_flash : gmap string (gmap string nvs_value);
  idf_calls : nat;
}.

Definition set_post_reset_state (v : post_reset_state_t) (s : State) : State :=
  {| s_post_reset_state := v;
     s_wifi_on_ready_cb := s_wifi_on_ready_cb s;
     s_wifi_started := s_wifi_started s;
     s_wifi_netif := s_wifi_netif s;
     s_restart_counter_timer := s_restart_counter_timer s;
     s_nvs_initialized := s_nvs_initialized s;
     s_fw_revision := s_fw_revision s;
     s_fw_revision_initialized := s_fw_revision_initialized s;
     homekit_started := homekit_started s;
     relay_on := relay_on s;
     revision := revision s;
     ota_trigger := ota_trigger s;
     relay_on_characteristic := relay_on_characteristic s;
     nvs_flash := nvs_flash s;
     idf_calls := idf_calls s |}.

Definition set_wifi_on_ready_cb (v : option callback) (s : State) : State :=
  {| s_post_reset_state := s_post_reset_state s;
     s_wifi_on_ready_cb := v;
     s_wifi_started := s_wifi_started s;
     s_wifi_netif := s_wifi_netif s;
     s_restart_counter_timer := s_restart_counter_timer s;
     s_nvs_initialized := s_nvs_initialized s;
     s_fw_revision := s_fw_revision s;
     s_fw_revision_initialized := s_fw_revision_initialized s;
     homekit_started := homekit_started s;
     relay_on := relay_on s;
     revision := revision s;
     ota_trigger := ota_trigger s;
     relay_on_characteristic := relay_on_characteristic s;
     nvs_flash := nvs_flash s;
     idf_calls := idf_calls s |}.

Definition set_wifi_started (v : bool) (s : State) : State :=
  {| s_post_reset_state := s_post_reset_state s;
     s_wifi_on_ready_cb := s_wifi_on_ready_cb s;
     s_wifi_started := v;
     s_wifi_netif := s_wifi_netif s;
     s_restart_counter_timer := s_restart_counter_timer s;
     s_nvs_initialized := s_nvs_initialized s;
     s_fw_revision := s_fw_revision s;
     s_fw_revision_initialized := s_fw_revision_initialized s;
     homekit_started := homekit_started s;
     relay_on := relay_on s;
     revision := revision s;
     ota_trigger := ota_trigger s;
     relay_on_characteristic := relay_on_characteristic s;
     nvs_flash := nvs_flash s;
     idf_calls := idf_calls s |}.

Definition set_wifi_netif (v : bool) (s : State) : State :=
  {| s_post_reset_state := s_post_reset_state s;
     s_wifi_on_ready_cb := s_wifi_on_ready_cb s;
     s_wifi_started := s_wifi_started s;
     s_wifi_netif := v;
     s_restart_counter_timer := s_restart_counter_timer s;
     s_nvs_initialized := s_nvs_initialized s;
     s_fw_revision := s_fw_revision s;
     s_fw_revision_initialized := s_fw_revision_initialized s;
     homekit_started := homekit_started s;
     relay_on := relay_on s;
     revision := revision s;
     ota_trigger := ota_trigger s;
     relay_on_characteristic := relay_on_characteristic s;
     nvs_flash := nvs_flash s;
     idf_calls := idf_calls s |}.

Definition set_restart_counter_timer (v : bool) (s : State) : State :=
  {| s_post_reset_state := s_post_reset_state s;
     s_wifi_on_ready_cb := s_wifi_on_ready_cb s;
     s_wifi_started := s_wifi_started s;
     s_wifi_netif := s_wifi_netif s;
     s_restart_counter_timer := v;
     s_nvs_initialized := s_nvs_initialized s;
     s_fw_revision := s_fw_revision s;
     s_fw_revision_initialized := s_fw_revision_initialized s;
     homekit_started := homekit_started s;
     relay_on := relay_on s;
     revision := revision s;
     ota_trigger := ota_trigger s;
     relay_on_characteristic := relay_on_characteristic s;
     nvs_flash := nvs_flash s;
     idf_calls := idf_calls s |}.

Definition set_nvs_initialized (v : bool) (s : State) : State :=
  {| s_post_reset_state := s_post_reset_state s;
     s_wifi_on_ready_cb := s_wifi_on_ready_cb s;
     s_wifi_started := s_wifi_started s;
     s_wifi_netif := s_wifi_netif s;
     s_restart_counter_timer := s_restart_counter_timer s;
     s_nvs_initialized := v;
     s_fw_revision := s_fw_revision s;
     s_fw_revision_initialized := s_fw_revision_initialized s;
     homekit_started := homekit_started s;
     relay_on := relay_on s;
     revision := revision s;
     ota_trigger := ota_trigger s;
     relay_on_characteristic := relay_on_characteristic s;
     nvs_flash := nvs_flash s;
     idf_calls := idf_calls s |}.

Definition set_fw_revision (v : string) (s : State) : State :=
  {| s_post_reset_state := s_post_reset_state s;
     s_wifi_on_ready_cb := s_wifi_on_ready_cb s;
     s_wifi_started := s_wifi_started s;
     s_wifi_netif := s_wifi_netif s;
     s_restart_counter_timer := s_restart_counter_timer s;
     s_nvs_initialized := s_nvs_initialized s;
     s_fw_revision := v;
     s_fw_revision_initialized := s_fw_revision_initialized s;
     homekit_started := homekit_started s;
     relay_on := relay_on s;
     revision := revision s;
     ota_trigger := ota_trigger s;
     relay_on_characteristic := relay_on_characteristic s;
     nvs_flash := nvs_flash s;
     idf_calls := idf_calls s |}.

Definition set_fw_revision_initialized (v : bool) (s : State) : State :=
  {| s_post_reset_state := s_post_reset_state s;
     s_wifi_on_ready_cb := s_wifi_on_ready_cb s;
     s_wifi_started := s_wifi_started s;
     s_wifi_netif := s_wifi_netif s;
     s_restart_counter_timer := s_restart_counter_timer s;
     s_nvs_initialized := s_nvs_initialized s;
     s_fw_revision := s_fw_revision s;
     s_fw_revision_initialized := v;
     homekit_started := homekit_started s;
     relay_on := relay_on s;
     revision := revision s;
     ota_trigger := ota_trigger s;
     relay_on_characteristic := relay_on_characteristic s;
     nvs_flash := nvs_flash s;
     idf_calls := idf_calls s |}.

Definition set_homekit_started (v : bool) (s : State) : State :=
  {| s_post_reset_state := s_post_reset_state s;
     s_wifi_on_ready_cb := s_wifi_on_ready_cb s;
     s_wifi_started := s_wifi_started s;
     s_wifi_netif := s_wifi_netif s;
     s_restart_counter_timer := s_restart_counter_timer s;
     s_nvs_initialized := s_nvs_initialized s;
     s_fw_revision := s_fw_revision s;
     s_fw_revision_initialized := s_fw_revision_initialized s;
     homekit_started := v;
     relay_on := relay_on s;
     revision := revision s;
     ota_trigger := ota_trigger s;
     relay_on_characteristic := relay_on_characteristic s;
     nvs_flash := nvs_flash s;
     idf_calls := idf_calls s |}.

Definition set_relay_on (v : bool) (s : State) : State :=
  {| s_post_reset_state := s_post_reset_state s;
     s_wifi_on_ready_cb := s_wifi_on_ready_cb s;
     s_wifi_started := s_wifi_started s;
     s_wifi_netif := s_wifi_netif s;
     s_restart_counter_timer := s_restart_counter_timer s;
     s_nvs_initialized := s_nvs_initialized s;
     s_fw_revision := s_fw_revision s;
     s_fw_revision_initialized := s_fw_revision_initialized s;
     homekit_started := homekit_started s;
     relay_on := v;
     revision := revision s;
     ota_trigger := ota_trigger s;
     relay_on_characteristic := relay_on_characteristic s;
     nvs_flash := nvs_flash s;
     idf_calls := idf_calls s |}.

Definition set_revision (v : homekit_characteristic_t) (s : State) : State :=
  {| s_post_reset_state := s_post_reset_state s;
     s_wifi_on_ready_cb := s_wifi_on_ready_cb s;
     s_wifi_started := s_wifi_started s;
     s_wifi_netif := s_wifi_netif s;
     s_restart_counter_timer := s_restart_counter_timer s;
     s_nvs_initialized := s_nvs_initialized s;
     s_fw_revision := s_fw_revision s;
     s_fw_revision_initialized := s_fw_revision_initialized s;
     homekit_started := homekit_started s;
     relay_on := relay_on s;
     revision := v;
     ota_trigger := ota_trigger s;
     relay_on_characteristic := relay_on_characteristic s;
     nvs_flash := nvs_flash s;
     idf_calls := idf_calls s |}.

Definition set_ota_trigger (v : homekit_characteristic_t) (s : State) : State :=
  {| s_post_reset_state := s_post_reset_state s;
     s_wifi_on_ready_cb := s_wifi_on_ready_cb s;
     s_wifi_started := s_wifi_started s;
     s_wifi_netif := s_wifi_netif s;
     s_restart_counter_timer := s_restart_counter_timer s;
     s_nvs_initialized := s_nvs_initialized s;
     s_fw_revision := s_fw_revision s;
     s_fw_revision_initialized := s_fw_revision_initialized s;
     homekit_started := homekit_started s;
     relay_on := relay_on s;
     revision := revision s;
     ota_trigger := v;
     relay_on_characteristic := relay_on_characteristic s;
     nvs_flash := nvs_flash s;
     idf_calls := idf_calls s |}.

Definition set_relay_on_characteristic (v : homekit_characteristic_t) (s : State) : State :=
  {| s_post_reset_state := s_post_reset_state s;
     s_wifi_on_ready_cb := s_wifi_on_ready_cb s;
     s_wifi_started := s_wifi_started s;
     s_wifi_netif := s_wifi_netif s;
     s_restart_counter_timer := s_restart_counter_timer s;
     s_nvs_initialized := s_nvs_initialized s;
     s_fw_revision := s_fw_revision s;
     s_fw_revision_initialized := s_fw_revision_initialized s;
     homekit_started := homekit_started s;
     relay_on := relay_on s;
     revision := revision s;
     ota_trigger := ota_trigger s;
     relay_on_characteristic := v;
     nvs_flash := nvs_flash s;
     idf_calls := idf_calls s |}.

(** The effect of one fallible call on the platform: the new NVS contents
    and one more call made. *)
Definition called (flash : gmap string (gmap string nvs_value)) (s : State) : State :=
  {| s_post_reset_state := s_post_reset_state s;
     s_wifi_on_ready_cb := s_wifi_on_ready_cb s;
     s_wifi_started := s_wifi_started s;
     s_wifi_netif := s_wifi_netif s;
     s_restart_counter_timer := s_restart_counter_timer s;
     s_nvs_initialized := s_nvs_initialized s;
     s_fw_revision := s_fw_revision s;
     s_fw_revision_initialized := s_fw_revision_initialized s;
     homekit_started := homekit_started s;
     relay_on := relay_on s;
     revision := revision s;
     ota_trigger := ota_trigger s;
     relay_on_characteristic := relay_on_characteristic s;
     nvs_flash := flash;
     idf_calls := S (idf_calls s) |}.

(** ** The monad: state, trace, and no return after a restart *)

Definition M (A : Type) : Type := State → option A * State * list event.

Definition pure {A} (a : A) : M A := λ s, (Some a, s, []).

Definition bind {A B} (m : M A) (f : A → M B) : M B := λ s,
  let '(oa, s1, t1) := m s in
  match oa with
  | None => (None, s1, t1)
  | Some a => let '(ob, s2, t2) := f a s1 in (ob, s2, t1 ++ t2)
  end.

Declare Scope M_scope.
Delimit Scope M_scope with M.
Bind Scope M_scope with M.
Notation "x ← y ; z" := (bind y (λ x, z)) (only parsing) : M_scope.
Notation "' x ← y ; z" := (bind y (λ x, z)) (only parsing) : M_scope.
Notation "x ;; z" := (bind x (λ _, z)) (only parsing) : M_scope.
Open Scope M_scope.

Definition gets {A} (f : State → A) : M A := λ s, (Some (f s), s, []).
Definition modify (f : State → State) : M unit := λ s, (Some tt, f s, []).
Definition emit (e : event) : M unit := λ s, (Some tt, s, [e]).
Definition proc (p : idf_proc) : M unit := emit (Do p).

(** [esp_restart()]: the call is made and control never comes back. *)
Definition esp_restart {A} : M A := λ s, (None, s, [Do EspRestart]).

(** ** The NVS partition *)

Definition nvs_entry (flash : gmap string (gmap string nvs_value))
    (handle key : string) : option nvs_value :=
  flash !! handle ≫= λ ns, ns !! key.

Definition nvs_write (flash : gmap string (gmap string nvs_value))
    (handle key : string) (v : nvs_value) : gmap string (gmap string nvs_value) :=
  <[handle := <[key := v]> (default ∅ (flash !! handle))]> flash.

Definition nvs_u32_value (flash : gmap string (gmap string nvs_value))
    (handle key : string) : Z :=
  match nvs_entry flash handle key with Some (NvsU32 v) => v | _ => 0 end.

Definition nvs_str_value (flash : gmap string (gmap string nvs_value))
    (handle key : string) : string :=
  match nvs_entry flash handle key with Some (NvsStr v) => v | _ => "" end.

(** What a call does when it is not made to fail.  Writes reach the
    partition at once ([nvs_commit] then has nothing left to do), a
    read-only open of a namespace that does not exist reports
    [ESP_ERR_NVS_NOT_FOUND], a read-write open creates it, and a string
    that does not fit the buffer it is read into (terminator included)
    reports [ESP_ERR_NVS_INVALID_LENGTH]. *)
Definition idf_sem (c : idf_call) (flash : gmap string (gmap string nvs_value))
    : esp_err_t * gmap string (gmap string nvs_value) :=
  match c with
  | NvsFlashErase => (ESP_OK, ∅)
  | NvsOpen ns NVS_READONLY =>
      match flash !! ns with
      | Some _ => (ESP_OK, flash)
      | None => (ESP_ERR_NVS_NOT_FOUND, flash)
      end
  | NvsOpen ns NVS_READWRITE =>
      match flash !! ns with
      | Some _ => (ESP_OK, flash)
      | None => (ESP_OK, <[ns := ∅]> flash)
      end
  | NvsGetU32 h k =>
      match nvs_entry flash h k with
      | Some (NvsU32 _) => (ESP_OK, flash)
      | Some _ => (ESP_ERR_NVS_TYPE_MISMATCH, flash)
      | None => (ESP_ERR_NVS_NOT_FOUND, flash)
      end
  | NvsGetStr h k length =>
      match nvs_entry flash h k with
      | Some (NvsStr v) =>
          match length with
          | Some n =>
              if decide (n < Z.of_nat (String.length v) + 1)
              then (ESP_ERR_NVS_INVALID_LENGTH, flash)
              else (ESP_OK, flash)
          | None => (ESP_OK, flash)
          end
      | Some _ => (ESP_ERR_NVS_TYPE_MISMATCH, flash)
      | None => (ESP_ERR_NVS_NOT_FOUND, flash)
      end
  | NvsSetU32 h k v => (ESP_OK, nvs_write flash h k (NvsU32 v))
  | NvsSetU8 h k v => (ESP_OK, nvs_write flash h k (NvsU8 v))
  | NvsSetStr h k v => (ESP_OK, nvs_write flash h k (NvsStr v))
  | NvsEraseKey h k =>
      match nvs_entry flash h k with
      | Some _ => (ESP_OK, <[h := delete k (default ∅ (flash !! h))]> flash)
      | None => (ESP_ERR_NVS_NOT_FOUND, flash)
      end
  | NvsEraseAll h => (ESP_OK, <[h := ∅]> flash)
  | _ => (ESP_OK, flash)
  end.

(** [strncmp(a, b, n) == 0] on NUL-terminated strings. *)
Fixpoint strncmp_eq (a b : string) (n : nat) : bool :=
  match n with
  | O => true
  | S n' =>
      match a, b with
      | EmptyString, EmptyString => true
      | String x a', String y b' =>
          if Ascii.eqb x y then strncmp_eq a' b' n' else false
      | _, _ => false
      end
  end.

(** [sizeof(part->label)]: esp_partition_t declares [char label[17]]. *)
Definition sizeof_label : nat := 17.

(** [strncpy] into the zeroed [wifi_config_t] fields ([ssid] has 32 bytes
    and [password] 64, one is left for the terminator). *)
Definition strncpy (src : string) (n : nat) : string := String.substring 0 n src.

(** [strlcpy(dst, src, size)]: what is left in [dst]. *)
Definition strlcpy (src : string) (size : nat) : string :=
  String.substring 0 (size - 1) src.

Definition LIFECYCLE_FW_REVISION_MAX_LEN : nat := 32.

(** [sizeof(s_fw_revision)]. *)
Definition sizeof_s_fw_revision : nat := LIFECYCLE_FW_REVISION_MAX_LEN.

(** [for (int i = 0; i < n; i++) body], for a body that does not use [i]. *)
Fixpoint repeat_times (n : nat) (body : M unit) : M unit :=
  match n with
  | O => pure tt
  | S n' => body;; repeat_times n' body
  end.

(** The characteristic behind a pointer, and writing through it. *)
Definition deref (p : characteristic_ptr) (s : State) : homekit_characteristic_t :=
  match p with
  | addr_revision => revision s
  | addr_ota_trigger => ota_trigger s
  | addr_relay_on_characteristic => relay_on_characteristic s
  end.

Definition store (p : characteristic_ptr) (c : homekit_characteristic_t) (s : State)
    : State :=
  match p with
  | addr_revision => set_revision c s
  | addr_ota_trigger => set_ota_trigger c s
  | addr_relay_on_characteristic => set_relay_on_characteristic c s
  end.

(** What a [char *] points to. *)
Definition read_string (p : string_ptr) (s : State) : string :=
  match p with
  | string_literal v => v
  | addr_s_fw_revision => s_fw_revision s
  end.

(** [for (int i = from; i >= 0; --i) body(i)]. *)
Fixpoint for_down_to_zero (from : nat) (body : Z → M unit) : M unit :=
  match from with
  | O => body 0
  | S i => body (Z.of_nat from);; for_down_to_zero i body
  end.

Section Firmware.
Context (board : Board).

(** ** ESP-IDF as the source calls it *)

(** A fallible call: the board decides whether it is made to fail; if not
    it does its work on the NVS partition. *)
Definition call (c : idf_call) : M esp_err_t := λ s,
  let e := idf_fault board (idf_calls s) in
  if decide (e = ESP_OK) then
    let '(r, flash) := idf_sem c (nvs_flash s) in
    (Some r, called flash s, [Call c r])
  else (Some e, called (nvs_flash s) s, [Call c e]).

Definition nvs_flash_init : M esp_err_t := call NvsFlashInit.
Definition nvs_flash_erase : M esp_err_t := call NvsFlashErase.
Definition nvs_flash_deinit : M esp_err_t := call NvsFlashDeinit.
(** The handle of an open namespace is the name of the namespace. *)
Definition nvs_open (namespace : string) (mode : nvs_open_mode_t) : M esp_err_t :=
  call (NvsOpen namespace mode).
Definition nvs_close (handle : string) : M unit := proc (NvsClose handle).
(** [nvs_get_u32(handle, key, &out)]: [out] is written on success only. *)
Definition nvs_get_u32 (handle key : string) (out : Z) : M (esp_err_t * Z) :=
  err ← call (NvsGetU32 handle key);
  flash ← gets nvs_flash;
  pure (err, if decide (err = ESP_OK) then nvs_u32_value flash handle key else out).
(** [nvs_get_str(handle, key, NULL, &len)]: the size needed, terminator
    included. *)
Definition nvs_get_str_size (handle key : string) (len : Z) : M (esp_err_t * Z) :=
  err ← call (NvsGetStr handle key None);
  flash ← gets nvs_flash;
  pure (err, if decide (err = ESP_OK)
             then Z.of_nat (String.length (nvs_str_value flash handle key)) + 1
             else len).
(** [nvs_get_str(handle, key, buf, &len)] with a buffer of [len] bytes:
    the result and what is left in the buffer. *)
Definition nvs_get_str (handle key : string) (buf : string) (len : Z)
    : M (esp_err_t * string) :=
  err ← call (NvsGetStr handle key (Some len));
  flash ← gets nvs_flash;
  pure (err, if decide (err = ESP_OK) then nvs_str_value flash handle key else buf).
Definition nvs_set_str (handle key : string) (v : string) : M esp_err_t :=
  call (NvsSetStr handle key v).
Definition nvs_set_u32 (handle key : string) (v : Z) : M esp_err_t :=
  call (NvsSetU32 handle key v).
Definition nvs_set_u8 (handle key : string) (v : Z) : M esp_err_t :=
  call (NvsSetU8 handle key v).
Definition nvs_erase_key (handle key : string) : M esp_err_t :=
  call (NvsEraseKey handle key).
Definition nvs_erase_all (handle : string) : M esp_err_t := call (NvsEraseAll handle).
Definition nvs_commit (handle : string) : M esp_err_t := call (NvsCommit handle).
(** [malloc(n) != NULL]. *)
Definition malloc (n : Z) : M bool :=
  r ← call (Malloc n); pure (bool_decide (r = ESP_OK)).
Definition esp_timer_create : M esp_err_t := call EspTimerCreate.
Definition esp_timer_stop : M esp_err_t := call EspTimerStop.
Definition esp_timer_start_once (timeout_us : Z) : M esp_err_t :=
  call (EspTimerStartOnce timeout_us).
Definition mdns_service_remove (service proto : string) : M esp_err_t :=
  call (MdnsServiceRemove service proto).
Definition mdns_free : M unit := proc MdnsFree.
Definition homekit_server_reset : M unit := proc HomekitServerReset.
Definition homekit_server_init : M unit := proc HomekitServerInit.
Definition wifi_config_shutdown : M unit := proc WifiConfigShutdown.
(** [vTaskDelay(pdMS_TO_TICKS(ms))]. *)
Definition vTaskDelay (ms : Z) : M unit := proc (VTaskDelay ms).
Definition esp_netif_init : M esp_err_t := call EspNetifInit.
Definition esp_event_loop_create_default : M esp_err_t := call EspEventLoopCreateDefault.
(** [esp_netif_create_default_wifi_sta() != NULL]. *)
Definition esp_netif_create_default_wifi_sta : M bool :=
  r ← call EspNetifCreateDefaultWifiSta; pure (bool_decide (r = ESP_OK)).
Definition esp_netif_destroy : M unit := proc EspNetifDestroy.
Definition esp_event_handler_register (f : handler_filter) : M esp_err_t :=
  call (EspEventHandlerRegister f).
Definition esp_event_handler_unregister (f : handler_filter) : M esp_err_t :=
  call (EspEventHandlerUnregister f).
Definition esp_wifi_init : M esp_err_t := call EspWifiInit.
Definition esp_wifi_set_storage : M esp_err_t := call EspWifiSetStorage.
Definition esp_wifi_set_mode : M esp_err_t := call EspWifiSetMode.
Definition esp_wifi_set_config (ssid password : string) (authmode : wifi_auth_mode_t)
    : M esp_err_t := call (EspWifiSetConfig ssid password authmode).
Definition esp_wifi_start : M esp_err_t := call EspWifiStart.
Definition esp_wifi_connect : M esp_err_t := call EspWifiConnect.
Definition esp_wifi_disconnect : M esp_err_t := call EspWifiDisconnect.
Definition esp_wifi_stop : M esp_err_t := call EspWifiStop.
Definition esp_wifi_deinit : M esp_err_t := call EspWifiDeinit.
Definition esp_wifi_restore : M esp_err_t := call EspWifiRestore.
Definition esp_ota_set_boot_partition (p : esp_partition_t) : M esp_err_t :=
  call (EspOtaSetBootPartition p).
Definition esp_partition_erase_range (p : esp_partition_t) (offset size : Z)
    : M esp_err_t := call (EspPartitionEraseRange p offset size).
Definition gpio_reset_pin (pin : Z) : M esp_err_t := call (GpioResetPin pin).
Definition gpio_set_direction (pin : Z) (mode : gpio_mode_t) : M esp_err_t :=
  call (GpioSetDirection pin mode).
Definition gpio_set_level (pin level : Z) : M esp_err_t := call (GpioSetLevel pin level).
(** [button_create(pin, cfg, button_callback, NULL)] for the configuration
    [button_config_default(button_active_low)] with the two members
    main.c sets. *)
Definition button_create (pin max_repeat_presses long_press_time : Z) : M esp_err_t :=
  call (ButtonCreate pin max_repeat_presses long_press_time).
Definition homekit_characteristic_notify (ch : characteristic_ptr) (v : homekit_value_t)
    : M unit := proc (HomekitCharacteristicNotify ch v).
(** [vTaskDelete(NULL)]: the calling task ends here. *)
Definition vTaskDelete {A} : M A := λ s, (None, s, [Do VTaskDelete]).
Definition abort {A} : M A := λ s, (None, s, [Do Abort]).
(** [ESP_ERROR_CHECK(x)] of esp_err.h. *)
Definition ESP_ERROR_CHECK (x : M esp_err_t) : M unit :=
  err_rc_ ← x;
  if NDEBUG board then pure tt
  else if decide (err_rc_ ≠ ESP_OK) then abort
  else pure tt.

(** [esp_partition_find_first(type, subtype, NULL)]. *)
Definition esp_partition_find_first (type : esp_partition_type_t) (subtype : Z)
    : option esp_partition_t :=
  head (filter (λ p, p_type p = type ∧ p_subtype p = subtype) (partition_table board)).

(** [esp_partition_find(type, ESP_PARTITION_SUBTYPE_ANY, NULL)], as the
    list the iterator walks through. *)
Definition esp_partition_find_any (type : esp_partition_type_t) : list esp_partition_t :=
  filter (λ p, p_type p = type) (partition_table board).

Definition esp_ota_get_running_partition : option esp_partition_t :=
  running_partition board.

(** [esp_app_get_description()], as the [version] of the descriptor. *)
Definition esp_app_get_description : option string := app_description_version board.

(** ** main/esp32-lcm.c *)

Definition lifecycle_log_step (step : string) : M unit := emit (LogStep step).

Definition lifecycle_mark_post_reset (reason : Z) : M unit :=
  modify (λ s, set_post_reset_state
    {| magic := k_post_reset_magic;
       reason := reason mod 2 ^ 32;
       restart_count := restart_count (s_post_reset_state s) |} s).

Definition lifecycle_peek_post_reset_reason : M Z :=
  st ← gets s_post_reset_state;
  if decide (magic st ≠ k_post_reset_magic) then pure LIFECYCLE_POST_RESET_NONE
  else
    let reason := reason st in
    if decide (reason < LIFECYCLE_POST_RESET_NONE ∨
               reason > LIFECYCLE_POST_RESET_REASON_UPDATE)
    then pure LIFECYCLE_POST_RESET_NONE
    else pure reason.

Definition lifecycle_clear_post_reset_state : M unit :=
  modify (λ s, set_post_reset_state
    {| magic := 0;
       reason := LIFECYCLE_POST_RESET_NONE;
       restart_count := restart_count (s_post_reset_state s) |} s).

Definition lifecycle_ensure_nvs_initialized : M esp_err_t :=
  initialized ← gets s_nvs_initialized;
  if initialized then pure ESP_OK
  else
    let finish (ret : esp_err_t) : M esp_err_t :=
      if decide (ret ≠ ESP_OK) then pure ret
      else modify (set_nvs_initialized true);; pure ESP_OK in
    ret ← nvs_flash_init;
    if decide (ret = ESP_ERR_NVS_NO_FREE_PAGES ∨ ret = ESP_ERR_NVS_NEW_VERSION_FOUND)
    then
      erase_err ← nvs_flash_erase;
      if decide (erase_err ≠ ESP_OK) then pure erase_err
      else ret ← nvs_flash_init; finish ret
    else finish ret.

(** The result and what is left in [*out_value]. *)
Definition load_restart_counter_from_nvs : M (esp_err_t * Z) :=
  let value := 0 in
  init_err ← lifecycle_ensure_nvs_initialized;
  if decide (init_err ≠ ESP_OK) then pure (init_err, 0)
  else
    let handle := k_restart_counter_namespace in
    err ← nvs_open k_restart_counter_namespace NVS_READWRITE;
    if decide (err ≠ ESP_OK) then pure (err, 0)
    else
      '(err, value) ← nvs_get_u32 handle k_restart_counter_key value;
      let '(err, value) :=
        if decide (err = ESP_ERR_NVS_NOT_FOUND) then (ESP_OK, 0) else (err, value) in
      nvs_close handle;;
      pure (err, value).

Definition save_restart_counter_to_nvs (value : Z) : M esp_err_t :=
  init_err ← lifecycle_ensure_nvs_initialized;
  if decide (init_err ≠ ESP_OK) then pure init_err
  else
    let handle := k_restart_counter_namespace in
    err ← nvs_open k_restart_counter_namespace NVS_READWRITE;
    if decide (err ≠ ESP_OK) then pure err
    else
      err ← nvs_set_u32 handle k_restart_counter_key value;
      if decide (err ≠ ESP_OK) then nvs_close handle;; pure err
      else
        commit_err ← nvs_commit handle;
        let err := if decide (commit_err ≠ ESP_OK) then commit_err else err in
        nvs_close handle;;
        pure err.

Definition set_restart_count (v : Z) (s : State) : State :=
  set_post_reset_state
    {| magic := magic (s_post_reset_state s);
       reason := reason (s_post_reset_state s);
       restart_count := v |} s.

Definition lifecycle_increment_restart_counter : M Z :=
  count ← gets (λ s, restart_count (s_post_reset_state s));
  (if decide (count = UINT32_MAX) then modify (set_restart_count 0) else pure tt);;
  modify (λ s, set_restart_count
                 ((restart_count (s_post_reset_state s) + 1) mod 2 ^ 32) s);;
  gets (λ s, restart_count (s_post_reset_state s)).

Definition lifecycle_reset_restart_counter : M unit :=
  modify (set_restart_count 0);;
  err ← save_restart_counter_to_nvs 0;
  pure tt.

(** The callback of the restart-counter timer. *)
Definition lifecycle_restart_counter_timeout : M unit :=
  lifecycle_reset_restart_counter.

Definition lifecycle_schedule_restart_counter_timeout : M unit :=
  let arm : M unit :=
    err ← esp_timer_stop;
    err ← esp_timer_start_once k_restart_counter_timeout_us;
    pure tt in
  timer ← gets s_restart_counter_timer;
  if timer then arm
  else
    err ← esp_timer_create;
    if decide (err ≠ ESP_OK) then pure tt
    else modify (set_restart_counter_timer true);; arm.

(** The result, and what is left in [*out_ssid] and [*out_pass] (the
    strings behind the two pointers; both stay as they were unless the
    function succeeds). *)
Definition nvs_load_wifi (out_ssid out_pass : string)
    : M (esp_err_t * string * string) :=
  init_err ← lifecycle_ensure_nvs_initialized;
  if decide (init_err ≠ ESP_OK) then pure (init_err, out_ssid, out_pass)
  else
    let handle := "wifi_cfg" in
    err ← nvs_open "wifi_cfg" NVS_READONLY;
    if decide (err ≠ ESP_OK) then pure (err, out_ssid, out_pass)
    else
      '(err, len_ssid) ← nvs_get_str_size handle "wifi_ssid" 0;
      if decide (err ≠ ESP_OK) then
        nvs_close handle;; pure (err, out_ssid, out_pass)
      else
        '(err, len_pass) ← nvs_get_str_size handle "wifi_password" 0;
        let after_sizes (len_pass : Z) : M (esp_err_t * string * string) :=
          ssid ← malloc len_ssid;
          pass ← malloc len_pass;
          if negb ssid || negb pass then
            nvs_close handle;; pure (ESP_ERR_NO_MEM, out_ssid, out_pass)
          else
            '(err, ssid) ← nvs_get_str handle "wifi_ssid" "" len_ssid;
            if decide (err ≠ ESP_OK) then
              nvs_close handle;; pure (err, out_ssid, out_pass)
            else if decide (len_pass = 1) then
              nvs_close handle;; pure (ESP_OK, ssid, "")
            else
              '(err, pass) ← nvs_get_str handle "wifi_password" "" len_pass;
              if decide (err ≠ ESP_OK) then
                nvs_close handle;; pure (err, out_ssid, out_pass)
              else nvs_close handle;; pure (ESP_OK, ssid, pass) in
        if decide (err = ESP_ERR_NVS_NOT_FOUND) then after_sizes 1
        else if decide (err ≠ ESP_OK) then
          nvs_close handle;; pure (err, out_ssid, out_pass)
        else after_sizes len_pass.

(** ** main.c: the ready callback of the application *)

Definition on_wifi_ready : M unit :=
  started ← gets homekit_started;
  if started then pure tt
  else
    homekit_server_init;;
    modify (set_homekit_started true).

(** Calling through the stored function pointer. *)
Definition invoke (cb : callback) : M unit :=
  match cb with
  | cb_on_wifi_ready => on_wifi_ready
  | cb_other id => proc (OtherCallback id)
  end.

(** ** main/esp32-lcm.c, continued *)

Definition wifi_event_handler (ev : esp_event) : M unit :=
  match ev with
  | WIFI_EVENT id =>
      match id with
      | WIFI_EVENT_STA_START => esp_wifi_connect;; pure tt
      | WIFI_EVENT_STA_DISCONNECTED => esp_wifi_connect;; pure tt
      | WIFI_EVENT_OTHER _ => pure tt
      end
  | IP_EVENT IP_EVENT_STA_GOT_IP =>
      cb ← gets s_wifi_on_ready_cb;
      match cb with
      | Some f => invoke f
      | None => pure tt
      end
  | IP_EVENT (IP_EVENT_OTHER _) => pure tt
  end.

Definition lifecycle_shutdown_homekit (reset_store : bool) : M unit :=
  lifecycle_log_step "stop_homekit";;
  lifecycle_log_step "wait_hap_clients";;
  vTaskDelay 100;;
  lifecycle_log_step "stop_mdns";;
  mdns_err ← mdns_service_remove "_hap" "_tcp";
  mdns_free;;
  if reset_store then
    lifecycle_log_step "reset_homekit_store";;
    homekit_server_reset
  else pure tt.

Definition lifecycle_stop_provisioning_servers : M unit :=
  if wifi_config_shutdown_linked board then
    lifecycle_log_step "stop_provisioning";;
    wifi_config_shutdown
  else pure tt.

(** [WIFI_CHECK(call)]: return the error of a failed call at once. *)
Definition WIFI_CHECK (c : M esp_err_t) (k : M esp_err_t) : M esp_err_t :=
  __wifi_err ← c;
  if decide (__wifi_err ≠ ESP_OK) then pure __wifi_err else k.

Definition wifi_start (on_ready : option callback) : M esp_err_t :=
  started ← gets s_wifi_started;
  if started then
    modify (set_wifi_on_ready_cb on_ready);;
    pure ESP_OK
  else
    '(err, ssid, pass) ← nvs_load_wifi "" "";
    if decide (err = ESP_ERR_NVS_NOT_FOUND) then pure err
    else if decide (err ≠ ESP_OK) then pure err
    else
      let pass_empty := bool_decide (pass = "") in
      let wc_ssid := strncpy ssid (32 - 1) in
      let wc_password := strncpy pass (64 - 1) in
      let authmode := if pass_empty then WIFI_AUTH_OPEN else WIFI_AUTH_WPA2_PSK in
      err ← esp_netif_init;
      if decide (err ≠ ESP_OK ∧ err ≠ ESP_ERR_INVALID_STATE) then pure err
      else
        err ← esp_event_loop_create_default;
        if decide (err ≠ ESP_OK ∧ err ≠ ESP_ERR_INVALID_STATE) then pure err
        else
          let rest : M esp_err_t :=
            WIFI_CHECK (esp_event_handler_register WIFI_EVENT_ANY_ID) (
            WIFI_CHECK (esp_event_handler_register IP_EVENT_GOT_IP_ONLY) (
            WIFI_CHECK esp_wifi_init (
            WIFI_CHECK esp_wifi_set_storage (
            WIFI_CHECK esp_wifi_set_mode (
            WIFI_CHECK (esp_wifi_set_config wc_ssid wc_password authmode) (
            WIFI_CHECK esp_wifi_start (
              modify (set_wifi_on_ready_cb on_ready);;
              modify (set_wifi_started true);;
              pure ESP_OK))))))) in
          netif ← gets s_wifi_netif;
          if netif then rest
          else
            created ← esp_netif_create_default_wifi_sta;
            if negb created then pure ESP_ERR_NO_MEM
            else modify (set_wifi_netif true);; rest.

Definition wifi_stop : M esp_err_t :=
  started ← gets s_wifi_started;
  if negb started then pure ESP_OK
  else
    let result := ESP_OK in
    disconnect_err ← esp_wifi_disconnect;
    let result :=
      if decide (disconnect_err ≠ ESP_OK ∧ disconnect_err ≠ ESP_ERR_WIFI_NOT_STARTED ∧
                 disconnect_err ≠ ESP_ERR_WIFI_NOT_INIT)
      then (if decide (result = ESP_OK) then disconnect_err else result)
      else result in
    stop_err ← esp_wifi_stop;
    let result :=
      if decide (stop_err ≠ ESP_OK ∧ stop_err ≠ ESP_ERR_WIFI_NOT_INIT)
      then (if decide (result = ESP_OK) then stop_err else result)
      else result in
    unregister_wifi ← esp_event_handler_unregister WIFI_EVENT_ANY_ID;
    let result :=
      if decide (unregister_wifi ≠ ESP_OK ∧ unregister_wifi ≠ ESP_ERR_INVALID_STATE)
      then (if decide (result = ESP_OK) then unregister_wifi else result)
      else result in
    unregister_ip ← esp_event_handler_unregister IP_EVENT_GOT_IP_ONLY;
    let result :=
      if decide (unregister_ip ≠ ESP_OK ∧ unregister_ip ≠ ESP_ERR_INVALID_STATE)
      then (if decide (result = ESP_OK) then unregister_ip else result)
      else result in
    deinit_err ← esp_wifi_deinit;
    let result :=
      if decide (deinit_err ≠ ESP_OK ∧ deinit_err ≠ ESP_ERR_WIFI_NOT_INIT)
      then (if decide (result = ESP_OK) then deinit_err else result)
      else result in
    netif ← gets s_wifi_netif;
    (if netif then esp_netif_destroy;; modify (set_wifi_netif false) else pure tt);;
    modify (set_wifi_started false);;
    modify (set_wifi_on_ready_cb None);;
    pure result.

Definition lifecycle_perform_common_shutdown (reset_homekit_store : bool) : M unit :=
  lifecycle_shutdown_homekit reset_homekit_store;;
  lifecycle_stop_provisioning_servers;;
  lifecycle_log_step "stop_wifi";;
  stop_err ← wifi_stop;
  pure tt.

Definition lifecycle_nvs_init : M esp_err_t := lifecycle_ensure_nvs_initialized.

Definition lifecycle_init_firmware_revision (revision : option characteristic_ptr)
    (fallback_version : option string) : M esp_err_t :=
  match revision, fallback_version with
  | Some revision, Some fallback_version =>
      let current_version :=
        match esp_app_get_description with
        | Some version =>
            if decide (Z.of_nat (String.length version) > 0) then version
            else fallback_version
        | None => fallback_version
        end in
      let current_version :=
        if decide (current_version = "") then "0.0.0" else current_version in
      modify (set_fw_revision (strlcpy current_version sizeof_s_fw_revision));;
      modify (set_fw_revision_initialized true);;
      let status := ESP_OK in
      init_err ← lifecycle_ensure_nvs_initialized;
      if decide (init_err ≠ ESP_OK) then pure init_err
      else
        let handle := "fwcfg" in
        err ← nvs_open "fwcfg" NVS_READWRITE;
        status ←
          (if decide (err = ESP_OK) then
             let required := Z.of_nat sizeof_s_fw_revision in
             buf ← gets s_fw_revision;
             '(err, buf) ← nvs_get_str handle "installed_ver" buf required;
             modify (set_fw_revision buf);;
             status ←
               (if decide (err = ESP_OK ∧ buf ≠ "") then pure status
                else if decide (err = ESP_ERR_NVS_NOT_FOUND ∨ buf = "") then
                  modify (set_fw_revision (strlcpy current_version sizeof_s_fw_revision));;
                  stored ← gets s_fw_revision;
                  set_err ← nvs_set_str handle "installed_ver" stored;
                  if decide (set_err ≠ ESP_OK) then pure set_err
                  else
                    commit_err ← nvs_commit handle;
                    if decide (commit_err ≠ ESP_OK) then pure commit_err
                    else pure status
                else
                  modify (set_fw_revision (strlcpy current_version sizeof_s_fw_revision));;
                  pure status);
             nvs_close handle;;
             pure status
           else pure err);
        modify (λ s, store revision
          {| value := {| format := format (value (deref revision s));
                         is_static := true;
                         bool_value := bool_value (value (deref revision s));
                         string_value := Some addr_s_fw_revision |};
             getter := getter (deref revision s);
             setter := setter (deref revision s);
             setter_ex := setter_ex (deref revision s) |} s);;
        pure status
  | _, _ => pure ESP_ERR_INVALID_ARG
  end.

(** The string behind the pointer that is returned, [None] for [NULL]. *)
Definition lifecycle_get_firmware_revision_string : M (option string) :=
  initialized ← gets s_fw_revision_initialized;
  fw_revision ← gets s_fw_revision;
  if initialized && bool_decide (fw_revision ≠ "") then pure (Some fw_revision)
  else
    match esp_app_get_description with
    | Some version =>
        if decide (version ≠ "") then pure (Some version) else pure None
    | None => pure None
    end.

Definition lifecycle_request_update_and_reboot : M unit :=
  let handle := "lcm" in
  err ← nvs_open "lcm" NVS_READWRITE;
  (if decide (err ≠ ESP_OK) then pure tt
   else
     err ← nvs_set_u8 handle "do_update" 1;
     (if decide (err ≠ ESP_OK) then pure tt
      else err ← nvs_commit handle; pure tt);;
     nvs_close handle);;
  (match esp_partition_find_first ESP_PARTITION_TYPE_APP
           (ESP_PARTITION_SUBTYPE_APP_FACTORY board) with
   | None => pure tt
   | Some factory =>
       lifecycle_log_step "set_boot=factory";;
       err ← esp_ota_set_boot_partition factory;
       if decide (err ≠ ESP_OK) then pure tt
       else
         lifecycle_log_step "set_post_reset_flag=update";;
         lifecycle_mark_post_reset LIFECYCLE_POST_RESET_REASON_UPDATE
   end);;
  lifecycle_perform_common_shutdown false;;
  lifecycle_log_step "delay_before_reset";;
  vTaskDelay 100;;
  lifecycle_log_step "reboot";;
  esp_restart.


Definition lifecycle_configure_homekit (revision ota_trigger : option characteristic_ptr)
    : M esp_err_t :=
  match revision with
  | None => pure ESP_ERR_INVALID_ARG
  | Some _ =>
      let fallback_version := LIFECYCLE_DEFAULT_FW_VERSION board in
      rev_err ← lifecycle_init_firmware_revision revision (Some fallback_version);
      resolved_version ← lifecycle_get_firmware_revision_string;
      (match ota_trigger with
       | Some ota_trigger =>
           modify (λ s, store ota_trigger
             {| value := {| format := format (value (deref ota_trigger s));
                            is_static := is_static (value (deref ota_trigger s));
                            bool_value := false;
                            string_value := string_value (value (deref ota_trigger s)) |};
                getter := getter (deref ota_trigger s);
                setter := None;
                setter_ex := Some fn_lifecycle_handle_ota_trigger |} s)
       | None => pure tt
       end);;
      pure rev_err
  end.

Definition lifecycle_reset_homekit_and_reboot : M unit :=
  (match esp_ota_get_running_partition with
   | Some running =>
       lifecycle_log_step "set_boot=current";;
       err ← esp_ota_set_boot_partition running;
       pure tt
   | None => pure tt
   end);;
  lifecycle_log_step "set_post_reset_flag=homekit";;
  lifecycle_mark_post_reset LIFECYCLE_POST_RESET_REASON_HOMEKIT;;
  lifecycle_perform_common_shutdown true;;
  lifecycle_log_step "delay_before_reset";;
  vTaskDelay 100;;
  lifecycle_log_step "reboot";;
  esp_restart.

Definition erase_wifi_credentials : M unit :=
  init_err ← lifecycle_ensure_nvs_initialized;
  if decide (init_err ≠ ESP_OK) then pure tt
  else
    let handle := "wifi_cfg" in
    err ← nvs_open "wifi_cfg" NVS_READWRITE;
    if decide (err ≠ ESP_OK) then pure tt
    else
      erase_err ← nvs_erase_key handle "wifi_ssid";
      erase_err ← nvs_erase_key handle "wifi_password";
      err ← nvs_commit handle;
      nvs_close handle.

Definition erase_nvs_partition : M unit :=
  lifecycle_log_step "erase_nvs_partition";;
  err ← nvs_flash_deinit;
  modify (set_nvs_initialized false);;
  err ← nvs_flash_erase;
  pure tt.

Definition clear_nvs_namespace (namespace : string) : M unit :=
  init_err ← lifecycle_ensure_nvs_initialized;
  if decide (init_err ≠ ESP_OK) then pure tt
  else
    let handle := namespace in
    err ← nvs_open namespace NVS_READWRITE;
    if decide (err ≠ ESP_OK) then pure tt
    else
      err ← nvs_erase_all handle;
      (if decide (err ≠ ESP_OK) then pure tt
       else err ← nvs_commit handle; pure tt);;
      nvs_close handle.

Definition clear_lcm_namespace : M unit := clear_nvs_namespace "lcm".
Definition clear_fwcfg_namespace : M unit := clear_nvs_namespace "fwcfg".

Definition erase_otadata_partition : M unit :=
  match esp_partition_find_first ESP_PARTITION_TYPE_DATA
          (ESP_PARTITION_SUBTYPE_DATA_OTA board) with
  | None => pure tt
  | Some otadata =>
      err ← esp_partition_erase_range otadata 0 (p_size otadata);
      pure tt
  end.

(** The [while (it != NULL)] loop of [erase_ota_partition_by_label], over
    the partitions the iterator still has to visit. *)
Fixpoint erase_ota_partition_loop (label : string) (it : list esp_partition_t)
    (erased : bool) : M bool :=
  match it with
  | [] => pure erased
  | part :: next =>
      erased ←
        (if strncmp_eq (p_label part) label sizeof_label then
           if decide (p_subtype part >= ESP_PARTITION_SUBTYPE_APP_OTA_MIN board ∧
                      p_subtype part <= ESP_PARTITION_SUBTYPE_APP_OTA_MAX board)
           then
             err ← esp_partition_erase_range part 0 (p_size part);
             if decide (err ≠ ESP_OK) then pure erased else pure true
           else pure erased
         else pure erased);
      erase_ota_partition_loop label next erased
  end.

Definition erase_ota_partition_by_label (label : string) : M bool :=
  erase_ota_partition_loop label (esp_partition_find_any ESP_PARTITION_TYPE_APP) false.

Definition ota_labels : list string := ["ota_1"; "ota_2"; "ota_0"].

(** The [for] loop of [erase_ota_app_partitions] over [labels]. *)
Fixpoint erase_ota_app_loop (labels : list string) (any_erased : bool) : M bool :=
  match labels with
  | [] => pure any_erased
  | label :: rest =>
      erased ← erase_ota_partition_by_label label;
      erase_ota_app_loop rest (any_erased || erased)
  end.

Definition erase_ota_app_partitions : M unit :=
  any_erased ← erase_ota_app_loop ota_labels false;
  pure tt.

Definition lifecycle_factory_reset_and_reboot : M unit :=
  emit LogFactoryReset;;
  lifecycle_reset_restart_counter;;
  (match esp_partition_find_first ESP_PARTITION_TYPE_APP
           (ESP_PARTITION_SUBTYPE_APP_FACTORY board) with
   | None => pure tt
   | Some factory =>
       lifecycle_log_step "set_boot=factory";;
       boot_err ← esp_ota_set_boot_partition factory;
       if decide (boot_err ≠ ESP_OK) then pure tt
       else
         lifecycle_log_step "set_post_reset_flag=factory";;
         lifecycle_mark_post_reset LIFECYCLE_POST_RESET_REASON_FACTORY
   end);;
  lifecycle_log_step "reset_homekit_store";;
  homekit_server_reset;;
  lifecycle_perform_common_shutdown false;;
  lifecycle_log_step "erase_wifi_credentials";;
  erase_wifi_credentials;;
  lifecycle_log_step "clear_fw_config";;
  clear_fwcfg_namespace;;
  lifecycle_log_step "clear_lcm_state";;
  clear_lcm_namespace;;
  lifecycle_log_step "erase_otadata";;
  erase_otadata_partition;;
  lifecycle_log_step "erase_ota_apps";;
  erase_ota_app_partitions;;
  lifecycle_log_step "restore_wifi_defaults";;
  wifi_restore_err ← esp_wifi_restore;
  erase_nvs_partition;;
  lifecycle_log_step "delay_before_reset";;
  vTaskDelay 100;;
  lifecycle_log_step "reboot";;
  esp_restart.

Definition reason_string (reason : Z) : string :=
  if decide (reason = LIFECYCLE_POST_RESET_NONE) then "none"
  else if decide (reason = LIFECYCLE_POST_RESET_REASON_HOMEKIT) then "homekit"
  else if decide (reason = LIFECYCLE_POST_RESET_REASON_FACTORY) then "factory"
  else if decide (reason = LIFECYCLE_POST_RESET_REASON_UPDATE) then "update"
  else "unknown".

Definition lifecycle_log_post_reset_state : M unit :=
  '(load_err, persisted_count) ← load_restart_counter_from_nvs;
  (if decide (load_err = ESP_OK) then
     count ← gets (λ s, restart_count (s_post_reset_state s));
     if decide (persisted_count > count)
     then modify (set_restart_count persisted_count)
     else pure tt
   else pure tt);;
  restart_count ← lifecycle_increment_restart_counter;
  save_err ← save_restart_counter_to_nvs restart_count;
  emit (LogRestartCount restart_count);;
  lifecycle_schedule_restart_counter_timeout;;
  if decide (restart_count >= 10) then
    for_down_to_zero 10 (λ i, emit (LogCountdown i);; vTaskDelay 1000);;
    lifecycle_reset_restart_counter;;
    lifecycle_factory_reset_and_reboot;;
    pure tt
  else
    reason ← lifecycle_peek_post_reset_reason;
    let reason_str := reason_string reason in
    emit (LogPostResetFlag reason_str);;
    lifecycle_clear_post_reset_state.

(** ** main.c *)

Definition relay_write (on : bool) : M unit :=
  err ← gpio_set_level (CONFIG_ESP_RELAY_GPIO board) (if on then 1 else 0);
  pure tt.

Definition blue_led_write (on : bool) : M unit :=
  err ← gpio_set_level (CONFIG_ESP_BLUE_LED_GPIO board) (if on then 1 else 0);
  pure tt.

Definition relay_apply_state : M unit :=
  on ← gets relay_on;
  relay_write on;;
  on ← gets relay_on;
  blue_led_write on.

Definition gpio_init : M unit :=
  err ← gpio_reset_pin (CONFIG_ESP_RELAY_GPIO board);
  err ← gpio_set_direction (CONFIG_ESP_RELAY_GPIO board) GPIO_MODE_OUTPUT;
  err ← gpio_reset_pin (CONFIG_ESP_BLUE_LED_GPIO board);
  err ← gpio_set_direction (CONFIG_ESP_BLUE_LED_GPIO board) GPIO_MODE_OUTPUT;
  modify (set_relay_on false);;
  relay_apply_state.

Definition accessory_identify_task : M unit :=
  previous_led_state ← gets relay_on;
  repeat_times 3 (
    repeat_times 2 (
      blue_led_write true;;
      vTaskDelay 100;;
      blue_led_write false;;
      vTaskDelay 100);;
    vTaskDelay 250);;
  blue_led_write previous_led_state;;
  vTaskDelete.

Definition relay_on_get : M homekit_value_t :=
  on ← gets relay_on;
  pure (HOMEKIT_BOOL on).

Definition relay_on_set (v : homekit_value_t) : M unit :=
  if decide (format v ≠ homekit_format_bool) then pure tt
  else
    modify (set_relay_on (bool_value v));;
    relay_apply_state.

Definition button_callback (event : button_event_t) : M unit :=
  match event with
  | button_event_single_press =>
      on ← gets relay_on;
      let new_state := negb on in
      let new_value := HOMEKIT_BOOL new_state in
      relay_on_set new_value;;
      homekit_characteristic_notify addr_relay_on_characteristic new_value
  | button_event_double_press => pure tt
  | button_event_long_press => lifecycle_factory_reset_and_reboot
  | button_event_other _ => pure tt
  end.

Definition app_main : M unit :=
  ESP_ERROR_CHECK lifecycle_nvs_init;;
  lifecycle_log_post_reset_state;;
  ESP_ERROR_CHECK
    (lifecycle_configure_homekit (Some addr_revision) (Some addr_ota_trigger));;
  gpio_init;;
  let max_repeat_presses := 3 in
  let long_press_time := 10000 in
  created ← button_create (CONFIG_ESP_BUTTON_GPIO board) max_repeat_presses
              long_press_time;
  wifi_err ← wifi_start (Some cb_on_wifi_ready);
  pure tt.

End Firmware.

(** ** Resets and boots *)

(** The initialisers of the characteristics in main.c. *)
Definition revision_initializer (board : Board) : homekit_characteristic_t :=
  {| value := HOMEKIT_STRING (LIFECYCLE_DEFAULT_FW_VERSION board);
     getter := None; setter := None; setter_ex := None |}.

(** [API_OTA_TRIGGER] of esp32-lcm.h. *)
Definition API_OTA_TRIGGER : homekit_characteristic_t :=
  {| value := HOMEKIT_BOOL false; getter := None; setter := None; setter_ex := None |}.

Definition relay_on_characteristic_initializer : homekit_characteristic_t :=
  {| value := HOMEKIT_BOOL false;
     getter := Some fn_relay_on_get;
     setter := Some fn_relay_on_set;
     setter_ex := None |}.

(** A warm reset ([esp_restart], [abort], a crash): RTC memory and the NVS
    partition are kept, every other static starts from its initialiser. *)
Definition warm_reboot (board : Board) (s : State) : State :=
  {| s_post_reset_state := s_post_reset_state s;
     s_wifi_on_ready_cb := None;
     s_wifi_started := false;
     s_wifi_netif := false;
     s_restart_counter_timer := false;
     s_nvs_initialized := false;
     s_fw_revision := "";
     s_fw_revision_initialized := false;
     homekit_started := false;
     relay_on := false;
     revision := revision_initializer board;
     ota_trigger := API_OTA_TRIGGER;
     relay_on_characteristic := relay_on_characteristic_initializer;
     nvs_flash := nvs_flash s;
     idf_calls := idf_calls s |}.

(** [n] boots in a row, each one a warm reset followed by the boot
    protocol [lifecycle_log_post_reset_state]; the restart-counter timer
    never gets to fire.  The state after the last boot and everything
    that was traced. *)
Fixpoint consecutive_boots (board : Board) (n : nat) (s : State) : State * list event :=
  match n with
  | O => (s, [])
  | S n' =>
      let '(_, s1, t1) := lifecycle_log_post_reset_state board (warm_reboot board s) in
      let '(s2, t2) := consecutive_boots board n' s1 in
      (s2, t1 ++ t2)
  end.

(** The events [wifi_event_handler] is called with, one after the other. *)
Fixpoint dispatch_events (board : Board) (evs : list esp_event) : M unit :=
  match evs with
  | [] => pure tt
  | ev :: rest => wifi_event_handler board ev;; dispatch_events board rest
  end.

(** [n] calls of the ready callback. *)
Fixpoint on_wifi_ready_times (n : nat) : M unit :=
  match n with
  | O => pure tt
  | S n' => on_wifi_ready;; on_wifi_ready_times n'
  end.

(** ** Reading a trace *)

(** The part of a trace the properties below talk about: the log lines,
    the delays, the partition erases and the restart. *)
Definition visible_event (e : event) : bool :=
  match e with
  | Call (EspPartitionEraseRange _ _ _) _ => true
  | Call _ _ => false
  | Do (VTaskDelay _) => true
  | Do EspRestart => true
  | Do _ => false
  | _ => true
  end.

Definition visible (t : list event) : list event := List.filter visible_event t.

Definition log_steps (t : list event) : list string :=
  omap (λ e, match e with LogStep step => Some step | _ => None end) t.

Definition restart_counts (t : list event) : list Z :=
  omap (λ e, match e with LogRestartCount n => Some n | _ => None end) t.

Definition reported_reasons (t : list event) : list string :=
  omap (λ e, match e with LogPostResetFlag r => Some r | _ => None end) t.

Definition erased_partitions (t : list event) : list esp_partition_t :=
  omap (λ e, match e with
             | Call (EspPartitionEraseRange p _ _) _ => Some p
             | _ => None
             end) t.

Definition count_event (e : event) (t : list event) : nat :=
  length (List.filter (λ e', bool_decide (e' = e)) t).

(** The countdown lines with the delay after each. *)
Definition countdown_lines (t : list event) : list event :=
  List.filter (λ e, match e with
                    | LogCountdown _ | Do (VTaskDelay 1000) => true
                    | _ => false
                    end) t.

(** Calls to the NVS library (and the allocator), nothing else. *)
Definition nvs_event (e : event) : bool :=
  match e with
  | Call (NvsFlashInit | NvsFlashErase | NvsFlashDeinit | NvsOpen _ _ | NvsGetU32 _ _
         | NvsGetStr _ _ _ | NvsSetU32 _ _ _ | NvsSetU8 _ _ _ | NvsSetStr _ _ _
         | NvsEraseKey _ _ | NvsEraseAll _ | NvsCommit _ | Malloc _) _ => true
  | Do (NvsClose _) => true
  | _ => false
  end.

(** The levels written to the GPIO pins, in order, as (pin, level). *)
Definition gpio_levels (t : list event) : list (Z * Z) :=
  omap (λ e, match e with
             | Call (GpioSetLevel pin level) _ => Some (pin, level)
             | _ => None
             end) t.

(** The delays of a trace, in milliseconds. *)
Definition delays (t : list event) : list Z :=
  omap (λ e, match e with Do (VTaskDelay ms) => Some ms | _ => None end) t.

(** The level a boolean is written as. *)
Definition level_of (on : bool) : Z := if on then 1 else 0.

(** The restart counter in the durable store. *)
Definition durable_restart_count (s : State) : option nvs_value :=
  nvs_entry (nvs_flash s) k_restart_counter_namespace k_restart_counter_key.

(** The board reports no failure of its own. *)
Definition fault_free (board : Board) : Prop := ∀ k, idf_fault board k = ESP_OK.

(** The board fails none of the [n] calls made from [s] on. *)
Definition no_fault_for (board : Board) (n : nat) (s : State) : Prop :=
  ∀ k, (idf_calls s ≤ k < idf_calls s + n)%nat → idf_fault board k = ESP_OK.

(** ** Runs and their specifications *)

(** What a run of [m] from [s] returns ([None]: control never comes
    back), the state it leaves, and its trace. *)
Definition result_of {A} (m : M A) (s : State) : option A := (m s).1.1.
Definition state_after {A} (m : M A) (s : State) : State := (m s).1.2.
Definition trace_of {A} (m : M A) (s : State) : list event := (m s).2.

(** What a run from [s] yields satisfies [Q]. *)
Definition wp {A} (m : M A) (s : State)
    (Q : option A → State → list event → Prop) : Prop :=
  Q (result_of m s) (state_after m s) (trace_of m s).

(** The run returns, and [R] holds of what it returns. *)
Definition post {A} (R : A → State → list event → Prop)
    : option A → State → list event → Prop :=
  λ oa s' t, ∃ a, oa = Some a ∧ R a s' t.

(** [s] with another NVS partition, call count and [s_nvs_initialized]:
    what the NVS helpers may change. *)
Definition platform (flash : gmap string (gmap string nvs_value)) (n : nat)
    (initialized : bool) (s : State) : State :=
  {| s_post_reset_state := s_post_reset_state s;
     s_wifi_on_ready_cb := s_wifi_on_ready_cb s;
     s_wifi_started := s_wifi_started s;
     s_wifi_netif := s_wifi_netif s;
     s_restart_counter_timer := s_restart_counter_timer s;
     s_nvs_initialized := initialized;
     s_fw_revision := s_fw_revision s;
     s_fw_revision_initialized := s_fw_revision_initialized s;
     homekit_started := homekit_started s;
     relay_on := relay_on s;
     revision := revision s;
     ota_trigger := ota_trigger s;
     relay_on_characteristic := relay_on_characteristic s;
     nvs_flash := flash;
     idf_calls := n |}.

(** What one fallible call can do: fail as the board says, leaving the
    NVS partition alone, or do its work. *)
Definition call_result (board : Board) (c : idf_call) (s : State)
    (r : esp_err_t) (s' : State) : Prop :=
  (idf_fault board (idf_calls s) ≠ ESP_OK ∧ r ≠ ESP_OK ∧
   s' = called (nvs_flash s) s) ∨
  (idf_fault board (idf_calls s) = ESP_OK ∧
   ∃ flash, idf_sem c (nvs_flash s) = (r, flash) ∧ s' = called flash s).

(** The stored restart counter, if there is one, lies in [lo, hi]. *)
Definition stored_in (lo hi : Z) (flash : gmap string (gmap string nvs_value)) : Prop :=
  match nvs_entry flash k_restart_counter_namespace k_restart_counter_key with
  | Some (NvsU32 v) => lo ≤ v ≤ hi
  | _ => True
  end.

(** The steps [lifecycle_perform_common_shutdown] logs, with its delay. *)
Definition shutdown_steps (board : Board) (reset_store : bool) : list event :=
  [LogStep "stop_homekit"; LogStep "wait_hap_clients"; Do (VTaskDelay 100);
   LogStep "stop_mdns"] ++
  (if reset_store then [LogStep "reset_homekit_store"] else []) ++
  (if wifi_config_shutdown_linked board then [LogStep "stop_provisioning"] else []) ++
  [LogStep "stop_wifi"].

(** What [lifecycle_increment_restart_counter] makes of a counter [m]. *)
Definition incremented (m : Z) : Z :=
  ((if decide (m = UINT32_MAX) then 0 else m) + 1) mod 2 ^ 32.

(** The counter the boot protocol goes on with, given what the durable
    store reported and the counter in RTC memory. *)
Definition reconciled (load_err : esp_err_t) (persisted count : Z) : Z :=
  if decide (load_err = ESP_OK) then
    if decide (persisted > count) then persisted else count
  else count.

(** A trace that consists of partition erases only, each of a partition
    satisfying [P]. *)
Definition erases (P : esp_partition_t → Prop) (t : list event) : Prop :=
  Forall (λ e, ∃ p offset size r,
            e = Call (EspPartitionEraseRange p offset size) r ∧ P p) t.

(** The OTA data partition of the partition table. *)
Definition is_otadata (board : Board) (p : esp_partition_t) : Prop :=
  p ∈ partition_table board ∧
  p_type p = ESP_PARTITION_TYPE_DATA ∧
  p_subtype p = ESP_PARTITION_SUBTYPE_DATA_OTA board.

(** An application partition of the table whose subtype is one of the OTA
    subtypes and whose label compares equal to [label]. *)
Definition is_ota_app (board : Board) (label : string) (p : esp_partition_t) : Prop :=
  p ∈ partition_table board ∧
  p_type p = ESP_PARTITION_TYPE_APP ∧
  ESP_PARTITION_SUBTYPE_APP_OTA_MIN board ≤ p_subtype p
    ≤ ESP_PARTITION_SUBTYPE_APP_OTA_MAX board ∧
  strncmp_eq (p_label p) label sizeof_label = true.

(** The factory application partition(s). *)
Definition is_factory_app (board : Board) (p : esp_partition_t) : Prop :=
  p_type p = ESP_PARTITION_TYPE_APP ∧
  p_subtype p = ESP_PARTITION_SUBTYPE_APP_FACTORY board.

(** The lines of the crash-loop countdown with the delay after each. *)
Definition countdown : list event :=
  flat_map (λ i, [LogCountdown i; Do (VTaskDelay 1000)])
    [10; 9; 8; 7; 6; 5; 4; 3; 2; 1; 0].

(** What selecting the boot partition may log, for [kind] one of
    "factory" and "update". *)
Definition boot_selection (kind : string) (sel : list event) : Prop :=
  sel = [] ∨
  sel = [LogStep "set_boot=factory"] ∨
  sel = [LogStep "set_boot=factory"; LogStep ("set_post_reset_flag=" +:+ kind)].

(** The visible part of a factory reset: [sel] is what the selection of
    the boot partition logged, [e1] and [e2] are the erases of the OTA
    data partition and of the OTA application partitions. *)
Definition factory_reset_visible (board : Board) (sel e1 e2 : list event) : list event :=
  [LogFactoryReset] ++ sel ++ [LogStep "reset_homekit_store"] ++
  shutdown_steps board false ++
  [LogStep "erase_wifi_credentials"; LogStep "clear_fw_config";
   LogStep "clear_lcm_state"; LogStep "erase_otadata"] ++ e1 ++
  [LogStep "erase_ota_apps"] ++ e2 ++
  [LogStep "restore_wifi_defaults"; LogStep "erase_nvs_partition";
   LogStep "delay_before_reset"; Do (VTaskDelay 100); LogStep "reboot";
   Do EspRestart].

(** The numbers of the countdown lines of a trace. *)
Definition countdown_values (t : list event) : list Z :=
  omap (λ e, match e with LogCountdown i => Some i | _ => None end) t.

(** Marking [reason] and going through a warm reset. *)
Definition reboot_marked (board : Board) (reason : Z) (s : State) : State :=
  warm_reboot board (state_after (lifecycle_mark_post_reset reason) s).

(** ** A board and a start state to run the model on *)

Definition partition (type : esp_partition_type_t) (subtype address size : Z)
    (label : string) : esp_partition_t :=
  {| p_type := type; p_subtype := subtype; p_address := address;
     p_size := size; p_label := label |}.

(** A 4 MB layout with a factory image and two OTA slots, with the
    subtype values of ESP-IDF, running from the first OTA slot. *)
Definition devkit : Board :=
  {| ESP_PARTITION_SUBTYPE_APP_FACTORY := 0x00;
     ESP_PARTITION_SUBTYPE_APP_OTA_MIN := 0x10;
     ESP_PARTITION_SUBTYPE_APP_OTA_MAX := 0x20;
     ESP_PARTITION_SUBTYPE_DATA_OTA := 0x00;
     CONFIG_ESP_BUTTON_GPIO := 0;
     CONFIG_ESP_RELAY_GPIO := 12;
     CONFIG_ESP_BLUE_LED_GPIO := 2;
     LIFECYCLE_DEFAULT_FW_VERSION := "0.0.1";
     NDEBUG := false;
     partition_table :=
       [partition ESP_PARTITION_TYPE_DATA 0x02 0x9000 0x6000 "nvs";
        partition ESP_PARTITION_TYPE_DATA 0x00 0xf000 0x2000 "otadata";
        partition ESP_PARTITION_TYPE_APP 0x00 0x20000 0x100000 "factory";
        partition ESP_PARTITION_TYPE_APP 0x10 0x120000 0x160000 "ota_0";
        partition ESP_PARTITION_TYPE_APP 0x11 0x280000 0x160000 "ota_1"];
     running_partition :=
       Some (partition ESP_PARTITION_TYPE_APP 0x10 0x120000 0x160000 "ota_0");
     app_description_version := Some "1.2.0";
     wifi_config_shutdown_linked := true;
     idf_fault := λ _, ESP_OK |}.

(** The same board with every fallible call made to fail. *)
Definition failing (board : Board) : Board :=
  {| ESP_PARTITION_SUBTYPE_APP_FACTORY := ESP_PARTITION_SUBTYPE_APP_FACTORY board;
     ESP_PARTITION_SUBTYPE_APP_OTA_MIN := ESP_PARTITION_SUBTYPE_APP_OTA_MIN board;
     ESP_PARTITION_SUBTYPE_APP_OTA_MAX := ESP_PARTITION_SUBTYPE_APP_OTA_MAX board;
     ESP_PARTITION_SUBTYPE_DATA_OTA := ESP_PARTITION_SUBTYPE_DATA_OTA board;
     CONFIG_ESP_BUTTON_GPIO := CONFIG_ESP_BUTTON_GPIO board;
     CONFIG_ESP_RELAY_GPIO := CONFIG_ESP_RELAY_GPIO board;
     CONFIG_ESP_BLUE_LED_GPIO := CONFIG_ESP_BLUE_LED_GPIO board;
     LIFECYCLE_DEFAULT_FW_VERSION := LIFECYCLE_DEFAULT_FW_VERSION board;
     NDEBUG := NDEBUG board;
     partition_table := partition_table board;
     running_partition := running_partition board;
     app_description_version := app_description_version board;
     wifi_config_shutdown_linked := wifi_config_shutdown_linked board;
     idf_fault := λ _, ESP_FAIL |}.

(** [board] with its calls failed as [fault] says. *)
Definition with_faults (board : Board) (fault : nat → esp_err_t) : Board :=
  {| ESP_PARTITION_SUBTYPE_APP_FACTORY := ESP_PARTITION_SUBTYPE_APP_FACTORY board;
     ESP_PARTITION_SUBTYPE_APP_OTA_MIN := ESP_PARTITION_SUBTYPE_APP_OTA_MIN board;
     ESP_PARTITION_SUBTYPE_APP_OTA_MAX := ESP_PARTITION_SUBTYPE_APP_OTA_MAX board;
     ESP_PARTITION_SUBTYPE_DATA_OTA := ESP_PARTITION_SUBTYPE_DATA_OTA board;
     CONFIG_ESP_BUTTON_GPIO := CONFIG_ESP_BUTTON_GPIO board;
     CONFIG_ESP_RELAY_GPIO := CONFIG_ESP_RELAY_GPIO board;
     CONFIG_ESP_BLUE_LED_GPIO := CONFIG_ESP_BLUE_LED_GPIO board;
     LIFECYCLE_DEFAULT_FW_VERSION := LIFECYCLE_DEFAULT_FW_VERSION board;
     NDEBUG := NDEBUG board;
     partition_table := partition_table board;
     running_partition := running_partition board;
     app_description_version := app_description_version board;
     wifi_config_shutdown_linked := wifi_config_shutdown_linked board;
     idf_fault := fault |}.

(** [devkit] with an NVS partition that has no free page left: the first
    call, which is the [nvs_flash_init] of the first NVS access, reports
    [ESP_ERR_NVS_NO_FREE_PAGES]; no other call fails. *)
Definition devkit_nvs_full : Board :=
  with_faults devkit
    (λ k, if decide (k = 0%nat) then ESP_ERR_NVS_NO_FREE_PAGES else ESP_OK).

(** Power-on with the NVS partition holding [flash]: RTC memory is
    zeroed and every static holds its initialiser. *)
Definition power_on (board : Board) (flash : gmap string (gmap string nvs_value))
    : State :=
  {| s_post_reset_state := {| magic := 0; reason := 0; restart_count := 0 |};
     s_wifi_on_ready_cb := None;
     s_wifi_started := false;
     s_wifi_netif := false;
     s_restart_counter_timer := false;
     s_nvs_initialized := false;
     s_fw_revision := "";
     s_fw_revision_initialized := false;
     homekit_started := false;
     relay_on := false;
     revision := revision_initializer board;
     ota_trigger := API_OTA_TRIGGER;
     relay_on_characteristic := relay_on_characteristic_initializer;
     nvs_flash := flash;
     idf_calls := 0 |}.

(** How every deliberate reboot ends. *)
Definition reboot_steps : list event :=
  [LogStep "delay_before_reset"; Do (VTaskDelay 100); LogStep "reboot"; Do EspRestart].

(** [s_post_reset_state] after [lifecycle_mark_post_reset reason]. *)
Definition marked (reason : Z) (st : post_reset_state_t) : post_reset_state_t :=
  {| magic := k_post_reset_magic; reason := reason;
     restart_count := restart_count st |}.


(** ** The outline of a factory reset *)

(** Every call is failed, with [ESP_FAIL]. *)
Definition all_fail (board : Board) : Prop := ∀ k, idf_fault board k = ESP_FAIL.

(** [p] erased as a whole, with result [r]. *)
Definition whole_erase (p : esp_partition_t) (r : esp_err_t) : event :=
  Call (EspPartitionEraseRange p 0 (p_size p)) r.

(** [t] erases the partitions [ps] in turn and does nothing else, each
    as a whole, whatever the erases report. *)
Definition erases_in_turn (ps : list esp_partition_t) (t : list event) : Prop :=
  Forall2 (λ p e, ∃ r, e = whole_erase p r) ps t.

(** The application partitions with an OTA subtype whose label compares
    equal to [label], in the order of the partition table. *)
Definition ota_partitions_labelled (board : Board) (label : string)
    : list esp_partition_t :=
  filter (λ p, strncmp_eq (p_label p) label sizeof_label = true ∧
               ESP_PARTITION_SUBTYPE_APP_OTA_MIN board ≤ p_subtype p
                 ≤ ESP_PARTITION_SUBTYPE_APP_OTA_MAX board)
         (esp_partition_find_any board ESP_PARTITION_TYPE_APP).

(** Those for "ota_1", then for "ota_2", then for "ota_0". *)
Definition ota_app_partitions (board : Board) : list esp_partition_t :=
  ota_partitions_labelled board "ota_1" ++ ota_partitions_labelled board "ota_2" ++
  ota_partitions_labelled board "ota_0".








(** The result of a teardown that goes on after a failure: the first
    error among [results] that is not one of those tolerated for its
    call, [ESP_OK] if there is none. *)
Definition first_error (results : list (esp_err_t * list esp_err_t)) : esp_err_t :=
  foldl (λ result '(err, tolerated),
           if decide (result = ESP_OK)
           then (if decide (err = ESP_OK ∨ err ∈ tolerated) then ESP_OK else err)
           else result)
        ESP_OK results.

(** [s] after a completed [wifi_stop]: what changed besides the number
    of calls made. *)
Definition wifi_stopped (s : State) : State :=
  set_wifi_on_ready_cb None (set_wifi_started false (set_wifi_netif false s)).

(** One more call made that did not touch the NVS partition, and [n] of
    them. *)
Definition counted (s : State) : State := called (nvs_flash s) s.

Definition calls_made (n : nat) (s : State) : State := Nat.iter n counted s.

(** * Reasoning about runs *)

Section Runs.
Context {A B : Type}.
Implicit Types (m : M A) (k : A → M B) (s : State).

Lemma run_eq m s : m s = (result_of m s, state_after m s, trace_of m s).
Proof. unfold result_of, state_after, trace_of. by destruct (m s) as [[??]?]. Qed.

Lemma wp_run m s Q : wp m s Q ↔ ∃ oa s' t, m s = (oa, s', t) ∧ Q oa s' t.
Proof.
  unfold wp. rewrite (run_eq m s). split.
  - eauto.
  - intros (oa & s' & t & [= -> -> ->] & H). exact H.
Qed.

Lemma wp_mono m s (Q Q' : option A → State → list event → Prop) :
  wp m s Q → (∀ oa s' t, Q oa s' t → Q' oa s' t) → wp m s Q'.
Proof. unfold wp. auto. Qed.

Lemma wp_bind m k s (Q : option B → State → list event → Prop) :
  wp m s (λ oa s1 t1,
    match oa with
    | None => Q None s1 t1
    | Some a => wp (k a) s1 (λ ob s2 t2, Q ob s2 (t1 ++ t2))
    end) →
  wp (bind m k) s Q.
Proof.
  unfold wp, result_of, state_after, trace_of, bind.
  destruct (m s) as [[[a|] s1] t1]; simpl; [|auto].
  destruct (k a s1) as [[ob s2] t2]. auto.
Qed.

Lemma wp_pure (a : A) s (Q : option A → State → list event → Prop) :
  Q (Some a) s [] → wp (pure a) s Q.
Proof. auto. Qed.

Lemma wp_gets (f : State → A) s (Q : option A → State → list event → Prop) :
  Q (Some (f s)) s [] → wp (gets f) s Q.
Proof. auto. Qed.

Lemma wp_esp_restart s (Q : option A → State → list event → Prop) :
  Q None s [Do EspRestart] → wp esp_restart s Q.
Proof. auto. Qed.

Lemma wp_vTaskDelete s (Q : option A → State → list event → Prop) :
  Q None s [Do VTaskDelete] → wp vTaskDelete s Q.
Proof. auto. Qed.

Lemma wp_abort s (Q : option A → State → list event → Prop) :
  Q None s [Do Abort] → wp abort s Q.
Proof. auto. Qed.
End Runs.

Lemma wp_modify f s (Q : option unit → State → list event → Prop) :
  Q (Some tt) (f s) [] → wp (modify f) s Q.
Proof. auto. Qed.

Lemma wp_emit e s (Q : option unit → State → list event → Prop) :
  Q (Some tt) s [e] → wp (emit e) s Q.
Proof. auto. Qed.

Lemma wp_proc p s (Q : option unit → State → list event → Prop) :
  Q (Some tt) s [Do p] → wp (proc p) s Q.
Proof. auto. Qed.

Lemma wp_call board c s (Q : option esp_err_t → State → list event → Prop) :
  (∀ r s', call_result board c s r s' → Q (Some r) s' [Call c r]) →
  wp (call board c) s Q.
Proof.
  intros H. unfold wp, result_of, state_after, trace_of, call.
  destruct (decide (idf_fault board (idf_calls s) = ESP_OK)) as [Hf|Hf].
  - destruct (idf_sem c (nvs_flash s)) as [r flash] eqn:E. simpl.
    apply H. right. eauto.
  - simpl. apply H. left. auto.
Qed.

(** The same, forgetting what the call did to the NVS partition. *)
Lemma wp_call_any board c s (Q : option esp_err_t → State → list event → Prop) :
  (∀ r flash, Q (Some r) (called flash s) [Call c r]) →
  wp (call board c) s Q.
Proof.
  intros H. apply wp_call. intros r s' [(_ & _ & ->)|(_ & ? & _ & ->)]; apply H.
Qed.

(** Unfolding that leaves every [let] of the source in place. *)
Tactic Notation "wp_unfold" reference(f) := cbv beta delta [f].

Ltac unfold_idf :=
  cbv beta delta [nvs_flash_init nvs_flash_erase nvs_flash_deinit nvs_open nvs_close
    nvs_get_u32 nvs_get_str_size nvs_get_str nvs_set_u32 nvs_set_u8 nvs_set_str
    nvs_erase_key nvs_erase_all nvs_commit malloc esp_timer_create esp_timer_stop
    esp_timer_start_once mdns_service_remove mdns_free homekit_server_reset
    homekit_server_init wifi_config_shutdown vTaskDelay esp_netif_init
    esp_event_loop_create_default esp_netif_create_default_wifi_sta esp_netif_destroy
    esp_event_handler_register esp_event_handler_unregister esp_wifi_init
    esp_wifi_set_storage esp_wifi_set_mode esp_wifi_set_config esp_wifi_start
    esp_wifi_connect esp_wifi_disconnect esp_wifi_stop esp_wifi_deinit esp_wifi_restore
    esp_ota_set_boot_partition esp_partition_erase_range gpio_reset_pin
    gpio_set_direction gpio_set_level button_create homekit_characteristic_notify
    lifecycle_log_step].

Ltac wp_simp := cbv beta iota.

(** A [let] of the source becomes a local definition. *)
Ltac wp_let :=
  lazymatch goal with
  | |- wp (let x := ?v in @?k x) ?s ?Q =>
      let y := fresh x in
      pose (y := v); change (wp (k y) s Q); cbv beta
  end.

Ltac head_of m :=
  lazymatch m with
  | ?f _ => head_of f
  | _ => m
  end.

Ltac wp_prim :=
  lazymatch goal with
  | |- wp (pure _) _ _ => apply wp_pure
  | |- wp (gets _) _ _ => apply wp_gets
  | |- wp (modify _) _ _ => apply wp_modify
  | |- wp (emit _) _ _ => apply wp_emit
  | |- wp (proc _) _ _ => apply wp_proc
  | |- wp esp_restart _ _ => apply wp_esp_restart
  | |- wp vTaskDelete _ _ => apply wp_vTaskDelete
  | |- wp abort _ _ => apply wp_abort
  end.

(** Go to the computation that runs first. *)
Ltac wp_focus tac :=
  lazymatch goal with
  | |- wp (bind _ _) _ _ => apply wp_bind; wp_focus tac
  | |- wp (let _ := _ in _) _ _ => wp_let; wp_focus tac
  | |- wp ?m _ _ =>
      let h := head_of m in
      tryif is_var h then (unfold h; cbv beta; wp_focus tac) else tac
  end.

Ltac wp_destruct x :=
  lazymatch x with
  | if ?c then _ else _ => wp_destruct c
  | match ?y with _ => _ end => wp_destruct y
  | decide _ => destruct x
  | _ => tryif is_var x then destruct x else destruct x eqn:?
  end.

Ltac wp_leaf call_tac :=
  lazymatch goal with
  | |- wp (call _ _) _ _ => call_tac
  | |- wp (if ?c then _ else _) _ _ => wp_destruct c
  | |- wp (match ?x with _ => _ end) _ _ => wp_destruct x
  | |- wp _ _ _ => wp_prim
  end.

(** When the call has a fixed result, put it in place. *)
Ltac sem_simpl H :=
  try (let H' := fresh in
       pose proof H as H'; unfold idf_sem in H';
       lazymatch type of H' with
       | (_, _) = (_, _) => clear H; simplify_eq
       end).

Ltac wp_call_cases :=
  idtac; apply wp_call;
  let r := fresh "r" in let s' := fresh "s" in
  let Hf := fresh "Hfault" in let Hr := fresh "Hr" in
  let flash := fresh "flash" in let Hsem := fresh "Hsem" in
  intros r s' [(Hf & Hr & ->)|(Hf & flash & Hsem & ->)]; [|sem_simpl Hsem].

Ltac wp_call_frame :=
  idtac; apply wp_call_any; intros ? ?.

Ltac wp_step call_tac := wp_focus ltac:(idtac; wp_leaf call_tac); wp_simp.

Ltac wp_steps := repeat (wp_step ltac:(idtac; wp_call_cases)).
Ltac wp_steps_frame := repeat (wp_step ltac:(idtac; wp_call_frame)).

(** Use the specification [L] of the computation that runs first. *)
Ltac wp_apply L :=
  wp_focus ltac:(eapply wp_mono; [apply L|]);
  let oa := fresh "oa" in let s' := fresh "s" in let t := fresh "t" in
  let a := fresh "a" in let H := fresh "H" in
  intros oa s' t (a & -> & H); wp_simp.

(** The same for a specification with premises, which [tac] proves. *)
Ltac wp_apply_by L tac :=
  wp_focus ltac:(eapply wp_mono; [apply L; tac|]);
  let oa := fresh "oa" in let s' := fresh "s" in let t := fresh "t" in
  let a := fresh "a" in let H := fresh "H" in
  intros oa s' t (a & -> & H); wp_simp.

(** ** Traces *)

Lemma visible_app t1 t2 : visible (t1 ++ t2) = visible t1 ++ visible t2.
Proof. apply List.filter_app. Qed.

Lemma Forall_nvs_visible t : Forall (λ e, nvs_event e = true) t → visible t = [].
Proof.
  induction 1 as [|e t He _ IH]; [done|].
  unfold visible in *. simpl. rewrite IH.
  destruct e as [[] ?|[]| | | | |]; simpl in *; congruence.
Qed.

(** A projection that only looks at visible events does not see the
    difference between a trace and its visible part. *)
Lemma omap_visible {B} (f : event → option B) t :
  (∀ e, visible_event e = false → f e = None) →
  omap f (visible t) = omap f t.
Proof.
  intros Hf. unfold visible. induction t as [|e t IH]; [done|].
  simpl. destruct (visible_event e) eqn:He; simpl.
  - destruct (f e); [f_equal|]; exact IH.
  - rewrite (Hf e He). exact IH.
Qed.

Ltac invisible :=
  let e := fresh "e" in
  intros e; destruct e as [[] ?|[]| | | | |]; simpl; congruence.

Lemma log_steps_visible t : log_steps (visible t) = log_steps t.
Proof. apply omap_visible. invisible. Qed.

Lemma restart_counts_visible t : restart_counts (visible t) = restart_counts t.
Proof. apply omap_visible. invisible. Qed.

Lemma reported_reasons_visible t : reported_reasons (visible t) = reported_reasons t.
Proof. apply omap_visible. invisible. Qed.

Lemma erased_partitions_visible t : erased_partitions (visible t) = erased_partitions t.
Proof. apply omap_visible. invisible. Qed.

Lemma countdown_values_visible t : countdown_values (visible t) = countdown_values t.
Proof. apply omap_visible. invisible. Qed.

Lemma count_event_visible e t :
  visible_event e = true → count_event e (visible t) = count_event e t.
Proof.
  intros He. unfold count_event, visible.
  induction t as [|e' t IH]; [done|]. simpl.
  destruct (visible_event e') eqn:He'; simpl.
  - case_bool_decide; simpl; by rewrite IH.
  - rewrite IH. case_bool_decide; [congruence|done].
Qed.

Lemma count_event_app e t1 t2 :
  count_event e (t1 ++ t2) = (count_event e t1 + count_event e t2)%nat.
Proof. unfold count_event. by rewrite List.filter_app, length_app. Qed.


Lemma restart_counts_app t1 t2 :
  restart_counts (t1 ++ t2) = restart_counts t1 ++ restart_counts t2.
Proof. apply omap_app. Qed.

Lemma reported_reasons_app t1 t2 :
  reported_reasons (t1 ++ t2) = reported_reasons t1 ++ reported_reasons t2.
Proof. apply omap_app. Qed.

Lemma erased_partitions_app t1 t2 :
  erased_partitions (t1 ++ t2) = erased_partitions t1 ++ erased_partitions t2.
Proof. apply omap_app. Qed.

Lemma countdown_values_app t1 t2 :
  countdown_values (t1 ++ t2) = countdown_values t1 ++ countdown_values t2.
Proof. apply omap_app. Qed.

(** ** The NVS partition *)

Lemma nvs_entry_empty h k : nvs_entry ∅ h k = None.
Proof. unfold nvs_entry. by rewrite lookup_empty. Qed.

Lemma nvs_entry_open ns mode flash r flash' h k :
  idf_sem (NvsOpen ns mode) flash = (r, flash') →
  nvs_entry flash' h k = nvs_entry flash h k.
Proof.
  unfold nvs_entry. destruct mode; simpl; destruct (flash !! ns) eqn:E;
    intros; simplify_eq; try done.
  destruct (decide (ns = h)) as [->|Hne].
  - by rewrite lookup_insert_eq, E.
  - by rewrite lookup_insert_ne.
Qed.

Lemma nvs_entry_write flash h k v : nvs_entry (nvs_write flash h k v) h k = Some v.
Proof.
  unfold nvs_entry, nvs_write. rewrite lookup_insert_eq. simpl.
  by rewrite lookup_insert_eq.
Qed.

Lemma stored_in_empty lo hi : stored_in lo hi ∅.
Proof. unfold stored_in. by rewrite nvs_entry_empty. Qed.

Lemma stored_in_open lo hi ns mode flash r flash' :
  idf_sem (NvsOpen ns mode) flash = (r, flash') →
  stored_in lo hi flash → stored_in lo hi flash'.
Proof. unfold stored_in. intros H. by rewrite (nvs_entry_open _ _ _ _ _ _ _ H). Qed.

Lemma idf_sem_get_u32 h k flash r flash' :
  idf_sem (NvsGetU32 h k) flash = (r, flash') → flash' = flash.
Proof. simpl. destruct (nvs_entry flash h k) as [[]|]; intros; by simplify_eq. Qed.

Lemma idf_sem_open_rw ns flash r flash' :
  idf_sem (NvsOpen ns NVS_READWRITE) flash = (r, flash') → r = ESP_OK.
Proof. unfold idf_sem. destruct (flash !! ns); intros; by simplify_eq. Qed.

#[global] Arguments idf_sem : simpl never.
#[global] Arguments nvs_entry : simpl never.
#[global] Arguments nvs_write : simpl never.
#[global] Arguments nvs_u32_value : simpl never.
#[global] Arguments nvs_str_value : simpl never.
#[global] Arguments stored_in : simpl never.

Lemma stored_in_value lo hi flash :
  stored_in lo hi flash → lo ≤ 0 ≤ hi →
  lo ≤ nvs_u32_value flash k_restart_counter_namespace k_restart_counter_key ≤ hi.
Proof.
  unfold stored_in, nvs_u32_value.
  destruct (nvs_entry _ _ _) as [[]|]; auto.
Qed.

Lemma stored_in_write lo hi flash v :
  lo ≤ v ≤ hi →
  stored_in lo hi (nvs_write flash k_restart_counter_namespace k_restart_counter_key (NvsU32 v)).
Proof. intros H. unfold stored_in. by rewrite nvs_entry_write. Qed.

Ltac fault_contra :=
  match goal with
  | Hff : fault_free _, H : idf_fault _ _ ≠ ESP_OK |- _ => exfalso; apply H, Hff
  end.

Ltac subst_lets := repeat match goal with x := _ |- _ => subst x end.

Ltac wp_close :=
  subst_lets; cbn in *; subst;
  first [ solve [exfalso; intuition congruence]
        | unfold post; eexists; split; [reflexivity|]; cbn ].

Ltac Forall_nvs :=
  repeat first [ assumption | apply Forall_nil_2
               | apply Forall_app; split | apply Forall_cons; split; [reflexivity|] ].

Lemma platform_eta s :
  s = platform (nvs_flash s) (idf_calls s) (s_nvs_initialized s) s.
Proof. by destruct s. Qed.

Section Proofs.
Context (board : Board).

Lemma ensure_spec s :
  wp (lifecycle_ensure_nvs_initialized board) s (post (λ r s' t,
    ∃ flash n b, s' = platform flash n b s ∧
      (flash = nvs_flash s ∨ flash = ∅) ∧
      Forall (λ e, nvs_event e = true) t ∧
      (r = ESP_OK → b = true) ∧
      (fault_free board → r = ESP_OK ∧ flash = nvs_flash s) ∧
      (flash ≠ nvs_flash s → Call NvsFlashErase ESP_OK ∈ t))).
Proof.
  wp_unfold lifecycle_ensure_nvs_initialized. unfold_idf.
  wp_steps.
  all: wp_close.
  all: do 3 eexists; split; [first [reflexivity|apply platform_eta]|]; cbn.
  all: split_and!;
    [ auto | repeat constructor | try done | intros Hff; try fault_contra; auto
    | intros Hne; try done;
      repeat first [apply list_elem_of_here | apply list_elem_of_further] ].
Qed.

Lemma load_spec s :
  wp (load_restart_counter_from_nvs board) s (post (λ r s' t,
    ∃ flash n b, s' = platform flash n b s ∧
      Forall (λ e, nvs_event e = true) t ∧
      ∀ lo hi, stored_in lo hi (nvs_flash s) → lo ≤ 0 ≤ hi →
        lo ≤ r.2 ≤ hi ∧ stored_in lo hi flash)).
Proof.
  wp_unfold load_restart_counter_from_nvs. unfold_idf.
  wp_apply ensure_spec. destruct H as (flash & n & b & -> & Hflash & Ht & _).
  assert (Hin : ∀ lo hi, stored_in lo hi (nvs_flash s) → stored_in lo hi flash).
  { intros lo hi H. destruct Hflash as [->| ->]; [done|apply stored_in_empty]. }
  wp_steps.
  all: wp_close.
  all: do 3 eexists; split; [reflexivity|]; cbn.
  all: split; [Forall_nvs|].
  all: intros lo hi Hs Hlh; apply Hin in Hs.
  all: repeat match goal with
       | H : idf_sem (NvsOpen _ _) _ = _ |- _ =>
           apply (stored_in_open lo hi) in H; [|assumption]
       | H : idf_sem (NvsGetU32 _ _) _ = _ |- _ => apply idf_sem_get_u32 in H; subst
       end.
  all: try case_decide; auto using stored_in_value.
Qed.

Lemma save_spec v s :
  wp (save_restart_counter_to_nvs board v) s (post (λ r s' t,
    ∃ flash n b, s' = platform flash n b s ∧
      Forall (λ e, nvs_event e = true) t ∧
      (∀ lo hi, stored_in lo hi (nvs_flash s) → lo ≤ v ≤ hi → stored_in lo hi flash) ∧
      (r = ESP_OK →
         nvs_entry flash k_restart_counter_namespace k_restart_counter_key
         = Some (NvsU32 v)) ∧
      (fault_free board → r = ESP_OK))).
Proof.
  wp_unfold save_restart_counter_to_nvs. unfold_idf.
  wp_apply ensure_spec. destruct H as (flash & n & b & -> & Hflash & Ht & _ & Hok & _).
  assert (Hin : ∀ lo hi, stored_in lo hi (nvs_flash s) → stored_in lo hi flash).
  { intros lo hi H. destruct Hflash as [->| ->]; [done|apply stored_in_empty]. }
  wp_steps.
  all: wp_close.
  all: do 3 eexists; split; [reflexivity|]; cbn.
  all: split; [Forall_nvs|].
  all: split_and!;
    [ intros lo hi Hs Hlh; apply Hin in Hs;
      repeat match goal with
      | H : idf_sem (NvsOpen _ _) _ = _ |- _ =>
          apply (stored_in_open lo hi) in H; [|assumption]
      end; auto using stored_in_write
    | intros; simplify_eq; auto using nvs_entry_write
    | intros Hff; try fault_contra;
      repeat match goal with
      | H : idf_sem (NvsOpen _ NVS_READWRITE) _ = _ |- _ =>
          apply idf_sem_open_rw in H
      end; destruct (Hok Hff); try case_decide; congruence ].
Qed.

Lemma schedule_spec s :
  wp (lifecycle_schedule_restart_counter_timeout board) s (post (λ _ s' t,
    s_post_reset_state s' = s_post_reset_state s ∧
    nvs_flash s' = nvs_flash s ∧
    visible t = [])).
Proof.
  wp_unfold lifecycle_schedule_restart_counter_timeout. unfold_idf.
  wp_steps.
  all: wp_close; auto.
Qed.

Lemma reset_counter_spec s :
  wp (lifecycle_reset_restart_counter board) s (post (λ _ s' t,
    ∃ flash n b, s' = platform flash n b (set_restart_count 0 s) ∧
      Forall (λ e, nvs_event e = true) t)).
Proof.
  wp_unfold lifecycle_reset_restart_counter.
  wp_step idtac. wp_apply save_spec.
  destruct H as (flash & n & b & -> & Ht & _).
  wp_steps. wp_close. do 3 eexists; split; [reflexivity|]. Forall_nvs.
Qed.

Lemma wifi_stop_spec s :
  wp (wifi_stop board) s (post (λ _ s' t,
    s_post_reset_state s' = s_post_reset_state s ∧ visible t = [])).
Proof.
  wp_unfold wifi_stop. unfold_idf.
  wp_steps_frame.
  all: unfold post; eexists; (split; [reflexivity|]); split; reflexivity.
Qed.

Lemma common_shutdown_spec reset_store s :
  wp (lifecycle_perform_common_shutdown board reset_store) s (post (λ _ s' t,
    s_post_reset_state s' = s_post_reset_state s ∧
    visible t = shutdown_steps board reset_store)).
Proof.
  wp_unfold lifecycle_perform_common_shutdown. wp_unfold lifecycle_shutdown_homekit.
  wp_unfold lifecycle_stop_provisioning_servers. unfold shutdown_steps.
  unfold_idf.
  destruct reset_store, (wifi_config_shutdown_linked board).
  all: repeat wp_step ltac:(idtac; wp_call_frame).
  all: wp_apply wifi_stop_spec; destruct H as [Hrtc Hvis].
  all: wp_steps; unfold post; eexists; split; [reflexivity|].
  all: split; [exact Hrtc|].
  all: rewrite ?visible_app, Hvis; reflexivity.
Qed.
End Proofs.

Lemma wp_bind_run {A B} (m : M A) (k : A → M B) s
    (Q : option B → State → list event → Prop) :
  (∀ oa s1 t1, m s = (oa, s1, t1) →
     match oa with
     | None => Q None s1 t1
     | Some a => wp (k a) s1 (λ ob s2 t2, Q ob s2 (t1 ++ t2))
     end) →
  wp (bind m k) s Q.
Proof. intros H. apply wp_bind. apply wp_run. do 3 eexists. split; [apply run_eq|]. apply H, run_eq. Qed.

Lemma erases_nil P : erases P [].
Proof. constructor. Qed.

Lemma erases_app P t1 t2 : erases P t1 → erases P t2 → erases P (t1 ++ t2).
Proof. unfold erases. intros. by apply Forall_app. Qed.

Lemma erases_one (P : esp_partition_t → Prop) p offset size r :
  P p → erases P [Call (EspPartitionEraseRange p offset size) r].
Proof. intros H. constructor; [|constructor]. eauto 6. Qed.

Lemma erases_mono (P P' : esp_partition_t → Prop) t :
  (∀ p, P p → P' p) → erases P t → erases P' t.
Proof.
  intros HP Ht. eapply Forall_impl; [exact Ht|].
  intros e (p & o & sz & r & -> & H). eauto 8.
Qed.

Lemma erases_visible P t : erases P t → visible t = t.
Proof.
  induction 1 as [|e t (p & o & sz & r & -> & _) _ IH]; [done|].
  unfold visible in *. simpl. by rewrite IH.
Qed.

Lemma erases_erased P t p : erases P t → p ∈ erased_partitions t → P p.
Proof.
  induction 1 as [|e t (q & o & sz & r & -> & Hq) _ IH]; simpl.
  - by intros ?%elem_of_nil.
  - unfold erased_partitions. simpl. intros [->|?]%elem_of_cons; auto.
Qed.

Section Proofs.
Context (board : Board).
Implicit Types s : State.

Lemma erase_wifi_credentials_spec s :
  wp (erase_wifi_credentials board) s (post (λ _ s' t,
    s_post_reset_state s' = s_post_reset_state s ∧ visible t = [])).
Proof.
  wp_unfold erase_wifi_credentials. unfold_idf.
  wp_apply ensure_spec. destruct H as (flash & n & b & -> & _ & Ht & _).
  wp_steps_frame.
  all: unfold post; eexists; (split; [reflexivity|]); split; [reflexivity|].
  all: rewrite ?visible_app, (Forall_nvs_visible _ Ht); reflexivity.
Qed.

Lemma clear_nvs_namespace_spec ns s :
  wp (clear_nvs_namespace board ns) s (post (λ _ s' t,
    s_post_reset_state s' = s_post_reset_state s ∧ visible t = [])).
Proof.
  wp_unfold clear_nvs_namespace. unfold_idf.
  wp_apply ensure_spec. destruct H as (flash & n & b & -> & _ & Ht & _).
  wp_steps_frame.
  all: unfold post; eexists; (split; [reflexivity|]); split; [reflexivity|].
  all: rewrite ?visible_app, (Forall_nvs_visible _ Ht); reflexivity.
Qed.

Lemma erase_nvs_partition_spec s :
  wp (erase_nvs_partition board) s (post (λ _ s' t,
    s_post_reset_state s' = s_post_reset_state s ∧
    visible t = [LogStep "erase_nvs_partition"] ∧
    (fault_free board → nvs_flash s' = ∅))).
Proof.
  wp_unfold erase_nvs_partition. unfold_idf.
  wp_steps.
  all: wp_close.
  all: split_and!.
  all: try done.
  all: intros Hff.
  all: fault_contra.
Qed.

Lemma find_first_Some type subtype p :
  esp_partition_find_first board type subtype = Some p →
  p ∈ partition_table board ∧ p_type p = type ∧ p_subtype p = subtype.
Proof.
  unfold esp_partition_find_first. intros H%head_Some_elem_of.
  apply list_elem_of_filter in H as [[? ?] ?]. done.
Qed.

Lemma erase_otadata_partition_spec s :
  wp (erase_otadata_partition board) s (post (λ _ s' t,
    s_post_reset_state s' = s_post_reset_state s ∧
    erases (is_otadata board) t)).
Proof.
  wp_unfold erase_otadata_partition. unfold_idf.
  wp_steps_frame.
  all: unfold post; eexists; (split; [reflexivity|]); split; [reflexivity|].
  - apply erases_one. by apply find_first_Some.
  - apply erases_nil.
Qed.

Lemma erase_ota_partition_loop_spec label it erased s :
  wp (erase_ota_partition_loop board label it erased) s (post (λ _ s' t,
    s_post_reset_state s' = s_post_reset_state s ∧
    erases (λ p, p ∈ it ∧
              ESP_PARTITION_SUBTYPE_APP_OTA_MIN board ≤ p_subtype p
                ≤ ESP_PARTITION_SUBTYPE_APP_OTA_MAX board ∧
              strncmp_eq (p_label p) label sizeof_label = true) t)).
Proof.
  revert erased s. induction it as [|part next IH]; intros erased s.
  - simpl. wp_steps. unfold post. eexists. split_and!; try done. apply erases_nil.
  - cbn [erase_ota_partition_loop]. unfold_idf.
    wp_steps_frame.
    all: (eapply wp_mono; [apply IH|]).
    all: intros oa s' t (? & -> & Hrtc & Ht); eexists; split_and!; [done|exact Hrtc|].
    all: repeat (apply erases_app; [first [apply erases_nil|apply erases_one]|]).
    all: try (eapply erases_mono; [|exact Ht]; intros p (? & ?); split;
              [by apply list_elem_of_further|done]).
    all: split_and!; [apply list_elem_of_here|lia|lia|done].
Qed.

Lemma erase_ota_partition_by_label_spec label s :
  wp (erase_ota_partition_by_label board label) s (post (λ _ s' t,
    s_post_reset_state s' = s_post_reset_state s ∧
    erases (is_ota_app board label) t)).
Proof.
  wp_unfold erase_ota_partition_by_label.
  eapply wp_mono; [apply erase_ota_partition_loop_spec|].
  intros oa s' t (? & -> & Hrtc & Ht). eexists. split_and!; [done..|].
  eapply erases_mono; [|exact Ht]. intros p (Hp & ? & ?).
  unfold esp_partition_find_any in Hp. apply list_elem_of_filter in Hp as [? ?].
  done.
Qed.

Lemma erase_ota_app_loop_spec labels any_erased s :
  wp (erase_ota_app_loop board labels any_erased) s (post (λ _ s' t,
    s_post_reset_state s' = s_post_reset_state s ∧
    erases (λ p, ∃ label, label ∈ labels ∧ is_ota_app board label p) t)).
Proof.
  revert any_erased s. induction labels as [|label rest IH]; intros any_erased s.
  - simpl. wp_steps. eexists. split_and!; try done. apply erases_nil.
  - cbn [erase_ota_app_loop].
    wp_apply erase_ota_partition_by_label_spec. destruct H as [Hrtc Ht].
    eapply wp_mono; [apply IH|].
    intros oa s' t' (? & -> & Hrtc' & Ht'). eexists. split_and!; [done|congruence|].
    apply erases_app.
    + eapply erases_mono; [|exact Ht]. intros p ?. exists label.
      split; [apply list_elem_of_here|done].
    + eapply erases_mono; [|exact Ht']. intros p (l & ? & ?). exists l.
      split; [by apply list_elem_of_further|done].
Qed.

Lemma erase_ota_app_partitions_spec s :
  wp (erase_ota_app_partitions board) s (post (λ _ s' t,
    s_post_reset_state s' = s_post_reset_state s ∧
    erases (λ p, ∃ label, label ∈ ota_labels ∧ is_ota_app board label p) t)).
Proof.
  wp_unfold erase_ota_app_partitions.
  wp_apply erase_ota_app_loop_spec. destruct H as [Hrtc Ht].
  wp_steps. eexists. split_and!; [done..|]. by rewrite app_nil_r.
Qed.

Lemma factory_reset_spec s :
  wp (lifecycle_factory_reset_and_reboot board) s (λ oa s' t,
    oa = None ∧
    restart_count (s_post_reset_state s') = 0 ∧
    (fault_free board → nvs_flash s' = ∅) ∧
    (∃ t0, t = t0 ++ [Do EspRestart]) ∧
    ∃ sel e1 e2,
      visible t = factory_reset_visible board sel e1 e2 ∧
      boot_selection "factory" sel ∧
      erases (is_otadata board) e1 ∧
      erases (λ p, ∃ label, label ∈ ota_labels ∧ is_ota_app board label p) e2).
Proof.
  wp_unfold lifecycle_factory_reset_and_reboot. wp_unfold lifecycle_mark_post_reset.
  wp_unfold clear_fwcfg_namespace. wp_unfold clear_lcm_namespace. unfold_idf.
  wp_step idtac.
  wp_apply reset_counter_spec. destruct H as (flash0 & n0 & b0 & -> & Ht0).
  apply wp_bind.
  apply (wp_mono _ _ (post (λ _ s' t,
    restart_count (s_post_reset_state s') = 0 ∧
    boot_selection "factory" (visible t) ))).
  { wp_steps_frame.
    all: eexists; split; [reflexivity|]; split; [reflexivity|].
    all: unfold boot_selection; cbn.
    all: first [by left | by right; left | by right; right]. }
  intros oa s1 t1 (? & -> & Hc1 & Hsel).
  wp_step idtac. wp_step idtac.
  wp_apply common_shutdown_spec. destruct H as [Hc2 Hv2].
  wp_step idtac.
  wp_apply erase_wifi_credentials_spec. destruct H as [Hc3 Hv3].
  wp_step idtac.
  wp_apply clear_nvs_namespace_spec. destruct H as [Hc4 Hv4].
  wp_step idtac.
  wp_apply clear_nvs_namespace_spec. destruct H as [Hc5 Hv5].
  wp_step idtac.
  wp_apply erase_otadata_partition_spec. destruct H as [Hc6 He1].
  wp_step idtac.
  wp_apply erase_ota_app_partitions_spec. destruct H as [Hc7 He2].
  wp_step idtac.
  wp_step ltac:(idtac; wp_call_frame).
  wp_apply erase_nvs_partition_spec. destruct H as (Hc8 & Hv8 & Hflash).
  wp_steps.
  split_and!.
  - done.
  - rewrite Hc8. cbn. rewrite Hc7, Hc6, Hc5, Hc4, Hc3, Hc2. done.
  - done.
  - rewrite !app_assoc. eexists. reflexivity.
  - match type of He1 with erases _ ?e1 =>
      match type of He2 with erases _ ?e2 => exists (visible t1), e1, e2 end end.
    split_and!; [|done..].
    rewrite !visible_app, Hv2, Hv3, Hv4, Hv5, Hv8, (erases_visible _ _ He1),
      (erases_visible _ _ He2), (Forall_nvs_visible _ Ht0).
    reflexivity.
Qed.

Lemma increment_run s :
  lifecycle_increment_restart_counter s =
    (Some (incremented (restart_count (s_post_reset_state s))),
     set_restart_count (incremented (restart_count (s_post_reset_state s))) s, []).
Proof.
  unfold lifecycle_increment_restart_counter, incremented, bind, gets, modify, pure.
  cbn. by destruct (decide (restart_count (s_post_reset_state s) = UINT32_MAX)).
Qed.

Lemma countdown_run s :
  for_down_to_zero 10 (λ i, emit (LogCountdown i);; vTaskDelay 1000) s
  = (Some tt, s, countdown).
Proof. reflexivity. Qed.

Lemma peek_frame s s' :
  magic (s_post_reset_state s') = magic (s_post_reset_state s) →
  reason (s_post_reset_state s') = reason (s_post_reset_state s) →
  lifecycle_peek_post_reset_reason s' =
    (result_of lifecycle_peek_post_reset_reason s, s', []).
Proof.
  unfold lifecycle_peek_post_reset_reason, result_of, bind, gets. cbn.
  intros -> ->. by repeat case_decide.
Qed.

Lemma peek_returns s :
  ∃ r, lifecycle_peek_post_reset_reason s = (Some r, s, []).
Proof.
  unfold lifecycle_peek_post_reset_reason, bind, gets. cbn.
  repeat case_decide; eauto.
Qed.

Lemma set_restart_count_same s :
  set_restart_count (restart_count (s_post_reset_state s)) s = s.
Proof. destruct s as [[]]. reflexivity. Qed.

Lemma wp_eq {A} (m : M A) s oa s' t (Q : option A → State → list event → Prop) :
  m s = (oa, s', t) → Q oa s' t → wp m s Q.
Proof. intros H HQ. apply wp_run. eauto. Qed.

Lemma boot_spec s :
  wp (lifecycle_log_post_reset_state board) s (λ oa s' t,
    ∃ load_err persisted s1 t1,
      load_restart_counter_from_nvs board s = (Some (load_err, persisted), s1, t1) ∧
      let n := incremented (reconciled load_err persisted
                              (restart_count (s_post_reset_state s))) in
      if decide (n >= 10) then
        oa = None ∧
        restart_count (s_post_reset_state s') = 0 ∧
        (fault_free board → nvs_flash s' = ∅) ∧
        (∃ t0, t = t0 ++ [Do EspRestart]) ∧
        ∃ sel e1 e2,
          visible t = [LogRestartCount n] ++ countdown ++
                      factory_reset_visible board sel e1 e2 ∧
          boot_selection "factory" sel ∧
          erases (is_otadata board) e1 ∧
          erases (λ p, ∃ label, label ∈ ota_labels ∧ is_ota_app board label p) e2
      else
        oa = Some tt ∧
        s_post_reset_state s' =
          {| magic := 0; reason := LIFECYCLE_POST_RESET_NONE; restart_count := n |} ∧
        (∃ r, result_of lifecycle_peek_post_reset_reason s = Some r ∧
              visible t = [LogRestartCount n; LogPostResetFlag (reason_string r)]) ∧
        (∀ lo hi, stored_in lo hi (nvs_flash s1) → lo ≤ n ≤ hi →
           stored_in lo hi (nvs_flash s')) ∧
        (fault_free board → durable_restart_count s' = Some (NvsU32 n))).
Proof.
  wp_unfold lifecycle_log_post_reset_state. unfold_idf.
  apply wp_bind_run. intros oa s1 t1 Hload.
  pose proof (load_spec board s) as Hspec. apply wp_run in Hspec.
  destruct Hspec as (oa' & s1' & t1' & Heq & ([load_err persisted] & -> & Hs1)).
  rewrite Heq in Hload. injection Hload as <- <- <-.
  destruct Hs1 as (flash1 & n1 & b1 & -> & Ht1 & _).
  set (c := restart_count (s_post_reset_state s)).
  set (m := reconciled load_err persisted c).
  apply wp_bind.
  apply (wp_mono _ _ (post (λ _ s' t,
    s' = platform flash1 n1 b1 (set_restart_count m s) ∧ t = []))).
  { wp_steps.
    all: eexists; split; [reflexivity|]; split; [|reflexivity].
    all: subst m c; unfold reconciled; cbn.
    all: repeat case_decide; try done.
    all: by rewrite set_restart_count_same. }
  intros ? s2 t2 (? & -> & -> & ->).
  apply wp_bind. eapply wp_eq; [apply increment_run|]. wp_simp.
  change (restart_count (s_post_reset_state
            (platform flash1 n1 b1 (set_restart_count m s)))) with m.
  set (n := incremented m).
  wp_apply save_spec.
  destruct H as (flash3 & n3 & b3 & -> & Ht3 & Hstored & Hentry & Hok).
  wp_step idtac.
  wp_apply schedule_spec. destruct H as (Hrtc4 & Hflash4 & Hv4).
  cbn in Hrtc4, Hflash4, Hstored.
  destruct (decide (n >= 10)) as [Hn|Hn].
  - apply wp_bind. eapply wp_eq; [apply countdown_run|]. wp_simp.
    wp_apply reset_counter_spec. destruct H as (flash5 & n5 & b5 & -> & Ht5).
    apply wp_bind. eapply wp_mono; [apply factory_reset_spec|].
    intros oa s' t' (-> & Hc & Hff & Hlast & sel & e1 & e2 & Hvis & Hsel & He1 & He2).
    exists load_err, persisted, (platform flash1 n1 b1 s), t1'.
    split; [exact Heq|]. fold c m n. cbv zeta.
    destruct (decide (n >= 10)); [|done].
    split_and!; [done..| |].
    + destruct Hlast as [t0' ->]. rewrite !app_assoc. eexists. reflexivity.
    + exists sel, e1, e2. split_and!; [|done..].
      rewrite !visible_app, Hvis, Hv4, (Forall_nvs_visible _ Ht1),
        (Forall_nvs_visible _ Ht3), (Forall_nvs_visible _ Ht5).
      reflexivity.
  - destruct (peek_returns s) as [r Hr].
    apply wp_bind. eapply wp_eq.
    { apply (peek_frame s); by rewrite Hrtc4. }
    unfold result_of at 1. rewrite Hr. cbn [fst]. wp_simp.
    wp_unfold lifecycle_clear_post_reset_state.
    wp_steps.
    exists load_err, persisted, (platform flash1 n1 b1 s), t1'.
    split; [exact Heq|]. fold c m n. cbv zeta.
    destruct (decide (n >= 10)); [done|].
    split_and!.
    + done.
    + cbn. by rewrite Hrtc4.
    + exists r. split; [by unfold result_of; rewrite Hr|].
      rewrite !visible_app, Hv4, (Forall_nvs_visible _ Ht1),
        (Forall_nvs_visible _ Ht3).
      reflexivity.
    + cbn. rewrite Hflash4. exact Hstored.
    + intros Hff. unfold durable_restart_count. cbn. rewrite Hflash4. auto.
Qed.
End Proofs.

Lemma idf_sem_open_ro ns flash r flash' :
  idf_sem (NvsOpen ns NVS_READONLY) flash = (r, flash') →
  flash' = flash ∧ (r = ESP_OK ∨ r = ESP_ERR_NVS_NOT_FOUND).
Proof. unfold idf_sem. destruct (flash !! ns); intros; simplify_eq; auto. Qed.

Lemma idf_sem_get_str_missing h k len flash r flash' :
  nvs_entry flash h k = None →
  idf_sem (NvsGetStr h k len) flash = (r, flash') →
  flash' = flash ∧ r = ESP_ERR_NVS_NOT_FOUND.
Proof. unfold idf_sem. intros ->. intros; by simplify_eq. Qed.

Section Proofs.
Context (board : Board).
Implicit Types s : State.

Lemma load_range s e d s1 t1 lo hi :
  load_restart_counter_from_nvs board s = (Some (e, d), s1, t1) →
  stored_in lo hi (nvs_flash s) → lo ≤ 0 ≤ hi →
  lo ≤ d ≤ hi ∧ stored_in lo hi (nvs_flash s1) ∧
  s_post_reset_state s1 = s_post_reset_state s.
Proof.
  intros Heq Hs Hlh.
  pose proof (load_spec board s) as H. apply wp_run in H.
  destruct H as (oa & s' & t & Heq' & (r & -> & flash & n & b & -> & _ & Hr)).
  rewrite Heq in Heq'. injection Heq' as <- -> ->.
  destruct (Hr lo hi Hs Hlh) as [? ?]. done.
Qed.

Lemma nvs_open_readonly_spec ns s :
  wp (nvs_open board ns NVS_READONLY) s (post (λ r s' t,
    s' = called (nvs_flash s) s ∧ t = [Call (NvsOpen ns NVS_READONLY) r] ∧
    (fault_free board → r = ESP_OK ∨ r = ESP_ERR_NVS_NOT_FOUND))).
Proof.
  unfold nvs_open. wp_call_cases.
  - eexists. split_and!; [done..|]. intros Hff. fault_contra.
  - apply idf_sem_open_ro in Hsem as [-> ?]. eexists. split_and!; done.
Qed.

Lemma nvs_get_str_size_missing h k len s :
  nvs_entry (nvs_flash s) h k = None →
  wp (nvs_get_str_size board h k len) s (post (λ r s' t,
    r.1 ≠ ESP_OK ∧ r.2 = len ∧
    s' = called (nvs_flash s) s ∧ t = [Call (NvsGetStr h k None) r.1] ∧
    (fault_free board → r.1 = ESP_ERR_NVS_NOT_FOUND))).
Proof.
  intros Hnone. wp_unfold nvs_get_str_size.
  wp_step ltac:(idtac; wp_call_cases).
  - wp_steps. eexists. split; [done|]. cbn.
    destruct (decide (r = ESP_OK)); [done|].
    split_and!; [done..|]. intros Hff. fault_contra.
  - apply (idf_sem_get_str_missing _ _ _ _ _ _ Hnone) in Hsem as [-> ->].
    wp_steps. eexists. split; [done|]. cbn. split_and!; done.
Qed.

Lemma nvs_load_wifi_missing out_ssid out_pass s :
  nvs_entry (nvs_flash s) "wifi_cfg" "wifi_ssid" = None →
  wp (nvs_load_wifi board out_ssid out_pass) s (post (λ r s' t,
    ∃ flash n b, s' = platform flash n b s ∧
      r.1.1 ≠ ESP_OK ∧ r.1.2 = out_ssid ∧ r.2 = out_pass ∧
      Forall (λ e, nvs_event e = true) t ∧
      (flash = nvs_flash s ∨ flash = ∅) ∧
      (flash ≠ nvs_flash s → Call NvsFlashErase ESP_OK ∈ t) ∧
      (fault_free board → r.1.1 = ESP_ERR_NVS_NOT_FOUND ∧ flash = nvs_flash s))).
Proof.
  intros Hmissing.
  wp_unfold nvs_load_wifi.
  wp_apply ensure_spec.
  destruct H as (flash & n & b & -> & Hflash & Ht & _ & Hok & Herase).
  assert (Hnone : nvs_entry flash "wifi_cfg" "wifi_ssid" = None).
  { destruct Hflash as [->| ->]; [done|apply nvs_entry_empty]. }
  wp_step idtac.
  { wp_step idtac. eexists. split; [done|]. do 3 eexists.
    split; [reflexivity|]. cbn. split_and!; [done..|Forall_nvs|exact Hflash| |].
    { intros Hne. apply elem_of_app. left. exact (Herase Hne). }
    intros Hff. destruct (Hok Hff). done. }
  wp_let.
  wp_apply nvs_open_readonly_spec. destruct H as (-> & -> & Hopen).
  wp_step idtac.
  { wp_step idtac. eexists. split; [done|]. do 3 eexists.
    split; [reflexivity|]. cbn. split_and!; [done..|Forall_nvs|exact Hflash| |].
    { intros Hne. apply elem_of_app. left. exact (Herase Hne). }
    intros Hff. destruct (Hok Hff) as [_ ->]. destruct (Hopen Hff); [done|]. done. }
  wp_apply_by nvs_get_str_size_missing ltac:(exact Hnone).
  destruct a1 as [err len]. cbn in H. destruct H as (Herr & -> & -> & -> & Hnf).
  wp_step idtac; [|done].
  unfold_idf. wp_steps.
  eexists. split; [done|]. do 3 eexists.
  split; [reflexivity|]. cbn. split_and!; [done..|Forall_nvs|exact Hflash| |].
  { intros Hne. apply elem_of_app. left. exact (Herase Hne). }
  intros Hff. destruct (Hok Hff) as [_ ->]. auto.
Qed.

Lemma request_update_spec s :
  wp (lifecycle_request_update_and_reboot board) s (λ oa s' t,
    oa = None ∧
    (∃ t0, t = t0 ++ [Do EspRestart]) ∧
    ∃ sel,
      boot_selection "update" sel ∧
      visible t = sel ++ shutdown_steps board false ++ reboot_steps ∧
      s_post_reset_state s' =
        (if decide (LogStep "set_post_reset_flag=update" ∈ sel)
         then marked LIFECYCLE_POST_RESET_REASON_UPDATE (s_post_reset_state s)
         else s_post_reset_state s)).
Proof.
  wp_unfold lifecycle_request_update_and_reboot.
  wp_unfold lifecycle_mark_post_reset. unfold_idf.
  wp_let. wp_step ltac:(idtac; wp_call_frame).
  apply wp_bind.
  apply (wp_mono _ _ (post (λ _ s' t,
    s_post_reset_state s' = s_post_reset_state s ∧ visible t = []))).
  { wp_steps_frame. all: eexists; split_and!; reflexivity. }
  intros ? s1 t1 (? & -> & Hc1 & Hv1).
  apply wp_bind.
  apply (wp_mono _ _ (post (λ _ s' t,
    boot_selection "update" (visible t) ∧
    s_post_reset_state s' =
      (if decide (LogStep "set_post_reset_flag=update" ∈ visible t)
       then marked LIFECYCLE_POST_RESET_REASON_UPDATE (s_post_reset_state s)
       else s_post_reset_state s)))).
  { wp_steps_frame.
    all: eexists; split; [reflexivity|]; cbn; rewrite ?Hc1.
    all: split; [unfold boot_selection; cbn; first [by left|by right; left|by right; right]|].
    all: case_decide as Hin; try reflexivity.
    all: exfalso; revert Hin; rewrite ?elem_of_cons, ?elem_of_nil.
    all: first [solve [intuition discriminate] | solve [intros Hin; apply Hin; auto]]. }
  intros ? s2 t2 (? & -> & Hsel & Hc2).
  wp_apply common_shutdown_spec. destruct H as [Hc3 Hv3].
  wp_steps.
  split_and!.
  - done.
  - rewrite !app_assoc. eexists. reflexivity.
  - exists (visible t2). split_and!; [done| |by rewrite Hc3].
    rewrite !visible_app, Hv1, Hv3. reflexivity.
Qed.

Lemma reset_homekit_spec s :
  wp (lifecycle_reset_homekit_and_reboot board) s (λ oa s' t,
    oa = None ∧
    (∃ t0, t = t0 ++ [Do EspRestart]) ∧
    visible t =
      match running_partition board with
      | Some _ => [LogStep "set_boot=current"]
      | None => []
      end ++
      [LogStep "set_post_reset_flag=homekit"] ++
      shutdown_steps board true ++ reboot_steps ∧
    s_post_reset_state s' =
      marked LIFECYCLE_POST_RESET_REASON_HOMEKIT (s_post_reset_state s)).
Proof.
  wp_unfold lifecycle_reset_homekit_and_reboot.
  wp_unfold lifecycle_mark_post_reset. unfold_idf.
  unfold esp_ota_get_running_partition.
  apply wp_bind.
  apply (wp_mono _ _ (post (λ _ s' t,
    s_post_reset_state s' = s_post_reset_state s ∧
    visible t = match running_partition board with
                | Some _ => [LogStep "set_boot=current"]
                | None => []
                end))).
  { wp_steps_frame. all: eexists; split_and!; reflexivity. }
  intros ? s1 t1 (? & -> & Hc1 & Hv1).
  wp_step idtac. wp_step idtac.
  wp_apply common_shutdown_spec. destruct H as [Hc3 Hv3].
  wp_steps.
  split_and!.
  - done.
  - rewrite !app_assoc. eexists. reflexivity.
  - rewrite !visible_app, Hv1, Hv3. reflexivity.
  - rewrite Hc3. cbn. by rewrite Hc1.
Qed.
End Proofs.

(** ** Runs in which the board fails no call *)

Lemma fault_free_no_fault_for board n s : fault_free board → no_fault_for board n s.
Proof. intros Hff k _. apply Hff. Qed.

Lemma wp_call_ok board c s (Q : option esp_err_t → State → list event → Prop) :
  idf_fault board (idf_calls s) = ESP_OK →
  (∀ r flash, idf_sem c (nvs_flash s) = (r, flash) →
     Q (Some r) (called flash s) [Call c r]) →
  wp (call board c) s Q.
Proof.
  intros Hf H. apply wp_call. intros r s' [(Hf' & _)|(_ & flash & Hsem & ->)].
  - done.
  - by apply H.
Qed.

(** The call that runs first is not failed, by [tac]. *)
Ltac wp_call_ok tac :=
  idtac; apply wp_call_ok; [tac|];
  let r := fresh "r" in let flash := fresh "flash" in let Hsem := fresh "Hsem" in
  intros r flash Hsem; sem_simpl Hsem.

Ltac no_fault :=
  idtac; match goal with
  | H : no_fault_for _ _ _ |- _ => apply H; cbn; lia
  end.

Section Proofs.
Context (board : Board).
Implicit Types s : State.

Lemma ensure_not_failed s :
  idf_fault board (idf_calls s) = ESP_OK →
  wp (lifecycle_ensure_nvs_initialized board) s (post (λ r s' t,
    r = ESP_OK ∧
    ∃ n, s' = platform (nvs_flash s) n true s ∧
      (idf_calls s ≤ n ≤ S (idf_calls s))%nat ∧
      Forall (λ e, nvs_event e = true) t)).
Proof.
  intros Hf.
  wp_unfold lifecycle_ensure_nvs_initialized. unfold_idf.
  wp_step idtac. wp_step idtac.
  - wp_step idtac. eexists. split; [done|]. split; [done|].
    exists (idf_calls s). split_and!; [|lia..|constructor].
    rewrite <- Heqb. apply platform_eta.
  - wp_let. wp_step ltac:(idtac; wp_call_ok ltac:(exact Hf)).
    wp_step idtac; [intuition discriminate|].
    wp_step idtac; [done|]. wp_steps.
    eexists. split; [done|]. split; [done|].
    exists (S (idf_calls s)). split_and!; [done|lia..|repeat constructor].
Qed.

(** What the read of the durable counter yields when none of its calls
    is failed: the stored value, 0 when none is stored. *)
Lemma load_not_failed s :
  no_fault_for board 3 s →
  wp (load_restart_counter_from_nvs board) s (post (λ r s' t,
    r = match durable_restart_count s with
        | Some (NvsU32 v) => (ESP_OK, v)
        | Some _ => (ESP_ERR_NVS_TYPE_MISMATCH, 0)
        | None => (ESP_OK, 0)
        end)).
Proof.
  intros Hnf.
  wp_unfold load_restart_counter_from_nvs. unfold_idf.
  wp_let.
  wp_apply_by ensure_not_failed ltac:(no_fault).
  destruct H as (-> & n & -> & Hn & Ht).
  wp_step idtac; [done|].
  wp_let.
  wp_step ltac:(idtac; wp_call_ok ltac:(no_fault)).
  cbn [nvs_flash platform] in Hsem.
  pose proof (idf_sem_open_rw _ _ _ _ Hsem) as ->.
  pose proof (nvs_entry_open _ _ _ _ _ k_restart_counter_namespace
                k_restart_counter_key Hsem) as Hentry.
  wp_step idtac; [done|].
  wp_step ltac:(idtac; wp_call_ok ltac:(no_fault)).
  cbn [nvs_flash called] in Hsem0.
  subst handle. unfold idf_sem in Hsem0. rewrite Hentry in Hsem0.
  wp_steps.
  all: eexists; split; [reflexivity|].
  all: unfold durable_restart_count, nvs_u32_value in *; cbn [nvs_flash called] in *.
  all: destruct (nvs_entry (nvs_flash s) _ _) as [[]|] eqn:E; simplify_eq.
  all: try rewrite Hentry; try done.
  all: by case_decide.
Qed.

(** Loading the credentials when no SSID is stored and none of the
    calls is failed: the error is [ESP_ERR_NVS_NOT_FOUND], and nothing is
    written. *)
Lemma nvs_load_wifi_not_failed out_ssid out_pass s :
  nvs_entry (nvs_flash s) "wifi_cfg" "wifi_ssid" = None →
  no_fault_for board 3 s →
  wp (nvs_load_wifi board out_ssid out_pass) s (post (λ r s' t,
    r.1.1 = ESP_ERR_NVS_NOT_FOUND ∧
    nvs_flash s' = nvs_flash s ∧ s_nvs_initialized s' = true)).
Proof.
  intros Hnone Hnf.
  wp_unfold nvs_load_wifi. unfold_idf.
  wp_apply_by ensure_not_failed ltac:(no_fault).
  destruct H as (-> & n & -> & Hn & Ht).
  wp_step idtac; [done|].
  wp_let.
  wp_step ltac:(idtac; wp_call_ok ltac:(no_fault)).
  cbn [nvs_flash platform] in Hsem.
  apply idf_sem_open_ro in Hsem as [-> Hr].
  wp_step idtac.
  { wp_step idtac. eexists. split; [done|]. cbn.
    destruct Hr; [done|]. done. }
  wp_step ltac:(idtac; wp_call_ok ltac:(no_fault)).
  cbn [nvs_flash called] in Hsem. subst handle.
  apply (idf_sem_get_str_missing _ _ _ _ _ _ Hnone) in Hsem as [-> ->].
  wp_step idtac. wp_step idtac. wp_step idtac; [|exfalso; intuition congruence].
  wp_steps. eexists. split; [done|]. done.
Qed.
End Proofs.

(** ** The outline of a factory reset *)

(** A call whatever it reports; when the board fails every call, it
    reports [ESP_FAIL]. *)
Lemma wp_call_outline board c s (Q : option esp_err_t → State → list event → Prop) :
  (∀ r flash, (all_fail board → r = ESP_FAIL) →
     Q (Some r) (called flash s) [Call c r]) →
  wp (call board c) s Q.
Proof.
  intros H. unfold wp, result_of, state_after, trace_of, call.
  destruct (decide (idf_fault board (idf_calls s) = ESP_OK)) as [Hf|Hf].
  - destruct (idf_sem c (nvs_flash s)) as [r flash] eqn:E. simpl.
    apply H. intros Hall. rewrite Hall in Hf. discriminate.
  - simpl. apply H. intros Hall. apply Hall.
Qed.

Ltac wp_call_outline :=
  idtac; apply wp_call_outline;
  let r := fresh "r" in let flash := fresh "flash" in let Hr := fresh "Hr" in
  intros r flash Hr.

Ltac wp_steps_outline := repeat (wp_step ltac:(idtac; wp_call_outline)).

(** Every call has failed. *)
Ltac all_failed Hall :=
  repeat match goal with
  | H : all_fail _ → _ |- _ => specialize (H Hall)
  end;
  subst.



Lemma erases_in_turn_nil : erases_in_turn [] [].
Proof. constructor. Qed.

Lemma erases_in_turn_one p r : erases_in_turn [p] [whole_erase p r].
Proof. repeat constructor. by exists r. Qed.

Lemma erases_in_turn_app ps1 ps2 t1 t2 :
  erases_in_turn ps1 t1 → erases_in_turn ps2 t2 →
  erases_in_turn (ps1 ++ ps2) (t1 ++ t2).
Proof. apply Forall2_app. Qed.


Section Proofs.
Context (board : Board).
Implicit Types s : State.










Lemma erase_ota_partition_loop_outline label it erased s :
  wp (erase_ota_partition_loop board label it erased) s (post (λ _ s' t,
    s_nvs_initialized s' = s_nvs_initialized s ∧
    erases_in_turn
      (filter (λ p, strncmp_eq (p_label p) label sizeof_label = true ∧
                    ESP_PARTITION_SUBTYPE_APP_OTA_MIN board ≤ p_subtype p
                      ≤ ESP_PARTITION_SUBTYPE_APP_OTA_MAX board) it) t ∧
    (all_fail board →
       t = (λ p, whole_erase p ESP_FAIL) <$>
             filter (λ p, strncmp_eq (p_label p) label sizeof_label = true ∧
                          ESP_PARTITION_SUBTYPE_APP_OTA_MIN board ≤ p_subtype p
                            ≤ ESP_PARTITION_SUBTYPE_APP_OTA_MAX board) it))).
Proof.
  revert erased s. induction it as [|part next IH]; intros erased s.
  - simpl. wp_steps. eexists. split_and!; try done. apply erases_in_turn_nil.
  - cbn [erase_ota_partition_loop]. unfold_idf.
    wp_steps_outline.
    all: (eapply wp_mono; [apply IH|]).
    all: intros oa s' t (? & -> & Hinit & Ht & Hfail); eexists.
    all: split; [reflexivity|]; split; [exact Hinit|].
    all: rewrite filter_cons; case_decide as HP;
      try (exfalso; first [apply HP; split; [done|lia] | destruct HP; first [congruence|lia]]).
    all: split;
      [ first [ apply (erases_in_turn_app [_] _ [_] _); [apply erases_in_turn_one|exact Ht]
              | exact Ht ]
      | intros Hall; rewrite (Hfail Hall); all_failed Hall; reflexivity ].
Qed.

Lemma erase_ota_partition_by_label_outline label s :
  wp (erase_ota_partition_by_label board label) s (post (λ _ s' t,
    s_nvs_initialized s' = s_nvs_initialized s ∧
    erases_in_turn (ota_partitions_labelled board label) t ∧
    (all_fail board →
       t = (λ p, whole_erase p ESP_FAIL) <$> ota_partitions_labelled board label))).
Proof. apply erase_ota_partition_loop_outline. Qed.

Lemma erase_ota_app_partitions_outline s :
  wp (erase_ota_app_partitions board) s (post (λ _ s' t,
    s_nvs_initialized s' = s_nvs_initialized s ∧
    erases_in_turn (ota_app_partitions board) t ∧
    (all_fail board →
       t = (λ p, whole_erase p ESP_FAIL) <$> ota_app_partitions board))).
Proof.
  wp_unfold erase_ota_app_partitions. unfold ota_labels.
  cbn [erase_ota_app_loop].
  wp_apply erase_ota_partition_by_label_outline. destruct H as (Hi1 & Ht1 & Hf1).
  wp_apply erase_ota_partition_by_label_outline. destruct H as (Hi2 & Ht2 & Hf2).
  wp_apply erase_ota_partition_by_label_outline. destruct H as (Hi3 & Ht3 & Hf3).
  wp_steps. eexists. split; [reflexivity|].
  rewrite !app_nil_r. unfold ota_app_partitions. split_and!.
  - congruence.
  - by repeat apply erases_in_turn_app.
  - intros Hall. rewrite (Hf1 Hall), (Hf2 Hall), (Hf3 Hall), !fmap_app. reflexivity.
Qed.



End Proofs.

(** * The claims of the specification *)

(** C3: incrementing the restart counter at [UINT32_MAX] yields 1 (the
    counter is set to 0 first), below [UINT32_MAX] it yields the value plus
    one, and the result never leaves the range of a [uint32_t]. *)
Theorem increment_restart_counter_saturates (s : State) :
  0 ≤ restart_count (s_post_reset_state s) ≤ UINT32_MAX →
  ∃ n,
    lifecycle_increment_restart_counter s = (Some n, set_restart_count n s, []) ∧
    (restart_count (s_post_reset_state s) = UINT32_MAX → n = 1) ∧
    (restart_count (s_post_reset_state s) < UINT32_MAX →
       n = restart_count (s_post_reset_state s) + 1) ∧
    1 ≤ n ≤ UINT32_MAX.
Proof.
  intros Hrange. eexists. split; [apply increment_run|].
  unfold incremented, UINT32_MAX in *.
  case_decide as Hmax.
  - rewrite Hmax. split_and!; [done|lia|done|done].
  - rewrite Z.mod_small by lia. split_and!; lia.
Qed.

Lemma increment_restart_counter_saturates_witness :
  0 ≤ restart_count
        (s_post_reset_state (set_restart_count UINT32_MAX (power_on devkit ∅)))
    ≤ UINT32_MAX ∧
  ∃ n,
    lifecycle_increment_restart_counter
      (set_restart_count UINT32_MAX (power_on devkit ∅))
    = (Some n, set_restart_count n (set_restart_count UINT32_MAX (power_on devkit ∅)), []) ∧
    (restart_count
       (s_post_reset_state (set_restart_count UINT32_MAX (power_on devkit ∅)))
     = UINT32_MAX → n = 1) ∧
    (restart_count
       (s_post_reset_state (set_restart_count UINT32_MAX (power_on devkit ∅)))
     < UINT32_MAX →
     n = restart_count
           (s_post_reset_state (set_restart_count UINT32_MAX (power_on devkit ∅))) + 1) ∧
    1 ≤ n ≤ UINT32_MAX.
Proof.
  split; [cbn; unfold UINT32_MAX; lia|].
  apply (increment_restart_counter_saturates
           (set_restart_count UINT32_MAX (power_on devkit ∅))).
  cbn. unfold UINT32_MAX. lia.
Defined.

(** C5: the post-reset reason round-trips through RTC memory.  After
    marking UPDATE and a warm reset the reason read is UPDATE (reading
    changes nothing); after the clear step it is NONE; a state whose magic
    is not [k_post_reset_magic], or whose reason code is out of range,
    reads as NONE. *)
Theorem post_reset_reason_round_trip (board : Board) (s : State) :
  lifecycle_peek_post_reset_reason
    (reboot_marked board LIFECYCLE_POST_RESET_REASON_UPDATE s)
  = (Some LIFECYCLE_POST_RESET_REASON_UPDATE,
     reboot_marked board LIFECYCLE_POST_RESET_REASON_UPDATE s, []) ∧
  result_of lifecycle_peek_post_reset_reason
    (state_after lifecycle_clear_post_reset_state
       (reboot_marked board LIFECYCLE_POST_RESET_REASON_UPDATE s))
  = Some LIFECYCLE_POST_RESET_NONE ∧
  (∀ s' : State,
     magic (s_post_reset_state s') ≠ k_post_reset_magic →
     result_of lifecycle_peek_post_reset_reason s' = Some LIFECYCLE_POST_RESET_NONE) ∧
  (∀ s' : State,
     reason (s_post_reset_state s') < LIFECYCLE_POST_RESET_NONE ∨
     reason (s_post_reset_state s') > LIFECYCLE_POST_RESET_REASON_UPDATE →
     result_of lifecycle_peek_post_reset_reason s' = Some LIFECYCLE_POST_RESET_NONE).
Proof.
  split_and!.
  - reflexivity.
  - reflexivity.
  - intros s' Hmagic.
    unfold result_of, lifecycle_peek_post_reset_reason, bind, gets. cbn.
    by case_decide.
  - intros s' Hreason.
    unfold result_of, lifecycle_peek_post_reset_reason, bind, gets. cbn.
    by repeat case_decide.
Qed.

(** C7: when Wi-Fi is already started, [wifi_start] stores the new ready
    callback and returns [ESP_OK]; it makes no call at all (no credential
    load, no handler registration, no radio start) and changes nothing
    else, so the manager stays started. *)
Theorem wifi_start_when_started (board : Board) (on_ready : option callback)
    (s : State) :
  s_wifi_started s = true →
  wifi_start board on_ready s = (Some ESP_OK, set_wifi_on_ready_cb on_ready s, []).
Proof.
  intros Hstarted. unfold wifi_start, bind, gets. cbn. rewrite Hstarted. reflexivity.
Qed.

Lemma wifi_start_when_started_witness :
  s_wifi_started (set_wifi_started true (power_on devkit ∅)) = true ∧
  wifi_start devkit (Some cb_on_wifi_ready) (set_wifi_started true (power_on devkit ∅))
  = (Some ESP_OK,
     set_wifi_on_ready_cb (Some cb_on_wifi_ready)
       (set_wifi_started true (power_on devkit ∅)), []).
Proof.
  split; [reflexivity|].
  apply (wifi_start_when_started devkit (Some cb_on_wifi_ready)
           (set_wifi_started true (power_on devkit ∅))).
  reflexivity.
Defined.

Lemma on_wifi_ready_started s :
  homekit_started s = true → on_wifi_ready s = (Some tt, s, []).
Proof. intros H. unfold on_wifi_ready, bind, gets. cbn. by rewrite H. Qed.

Lemma on_wifi_ready_first s :
  homekit_started s = false →
  on_wifi_ready s = (Some tt, set_homekit_started true s, [Do HomekitServerInit]).
Proof. intros H. unfold on_wifi_ready, bind, gets. cbn. by rewrite H. Qed.

Lemma on_wifi_ready_times_started n s :
  homekit_started s = true → on_wifi_ready_times n s = (Some tt, s, []).
Proof.
  intros H. induction n as [|n IH]; [done|].
  cbn [on_wifi_ready_times]. unfold bind. by rewrite on_wifi_ready_started, IH.
Qed.

(** What one event does to the number of server initialisations and to
    the flag. *)
Lemma wifi_event_handler_init board ev s :
  ∃ oa s' t,
    wifi_event_handler board ev s = (Some oa, s', t) ∧
    s_wifi_on_ready_cb s' = s_wifi_on_ready_cb s ∧
    ((homekit_started s' = homekit_started s ∧
      count_event (Do HomekitServerInit) t = 0%nat) ∨
     (homekit_started s = false ∧ homekit_started s' = true ∧
      count_event (Do HomekitServerInit) t = 1%nat)).
Proof.
  destruct ev as [[| |]|[|]]; cbn [wifi_event_handler].
  1,2: unfold bind, esp_wifi_connect, call;
       destruct (decide _); [destruct (idf_sem _ _)|]; cbn; eauto 10.
  1,3: cbn; eauto 10.
  cbv beta iota zeta delta [bind gets].
  destruct (s_wifi_on_ready_cb s) as [[|id]|] eqn:Hcb; cbn [invoke].
  - destruct (homekit_started s) eqn:Hs.
    + rewrite (on_wifi_ready_started _ Hs). eauto 10.
    + rewrite (on_wifi_ready_first _ Hs). cbn. eauto 10.
  - cbn. eauto 10.
  - cbn. eauto 10.
Qed.

Lemma dispatch_events_init board evs s :
  (count_event (Do HomekitServerInit) (trace_of (dispatch_events board evs) s) ≤ 1)%nat ∧
  (homekit_started s = true →
   count_event (Do HomekitServerInit) (trace_of (dispatch_events board evs) s) = 0%nat).
Proof.
  revert s. induction evs as [|ev evs IH]; intros s; [by split; [cbn; lia|]|].
  cbn [dispatch_events]. unfold trace_of, bind.
  destruct (wifi_event_handler_init board ev s) as (oa & s' & t & -> & _ & Hcount).
  destruct (IH s') as [Hle Hzero]. unfold trace_of in Hle, Hzero.
  destruct (dispatch_events board evs s') as [[ob s2] t2]. cbn [snd] in *.
  rewrite count_event_app.
  destruct Hcount as [(Hsame & ->)|(Hfalse & Htrue & ->)].
  - split; [lia|]. intros Hs. rewrite Hsame in Hzero. rewrite Hzero; [lia|done].
  - rewrite (Hzero Htrue). split; [lia|]. congruence.
Qed.

(** C10: the HomeKit server is initialised at most once per power cycle.
    The first call of [on_wifi_ready] after a reset calls
    [homekit_server_init], every later call does nothing; and whatever
    events the Wi-Fi event handler is given, with whatever callback
    installed, [homekit_server_init] is called at most once, and never
    once the server has been started. *)
Theorem homekit_server_initialised_once (board : Board) (s : State) :
  (∀ n : nat,
     on_wifi_ready_times (S n) (warm_reboot board s)
     = (Some tt, set_homekit_started true (warm_reboot board s),
        [Do HomekitServerInit])) ∧
  (∀ n : nat,
     on_wifi_ready_times n (set_homekit_started true s)
     = (Some tt, set_homekit_started true s, [])) ∧
  (∀ evs : list esp_event,
     (count_event (Do HomekitServerInit) (trace_of (dispatch_events board evs) s)
      ≤ 1)%nat) ∧
  (∀ evs : list esp_event,
     count_event (Do HomekitServerInit)
       (trace_of (dispatch_events board evs) (set_homekit_started true s)) = 0%nat).
Proof.
  split_and!.
  - intros n. cbn [on_wifi_ready_times]. unfold bind.
    rewrite on_wifi_ready_first by done.
    by rewrite on_wifi_ready_times_started.
  - intros n. by apply on_wifi_ready_times_started.
  - intros evs. apply dispatch_events_init.
  - intros evs. by apply dispatch_events_init.
Qed.

Section Claims.
Context (board : Board).

(** C6: when the restart-counter timer fires, the counter in RTC memory
    is set to 0 and 0 is written to the durable store: the run is that of
    [save_restart_counter_to_nvs 0] from the state with the RTC counter
    cleared, and whenever that write reports success (as it does on a
    board without faults) the durable counter is 0 as well. *)
Theorem restart_counter_timeout_clears_both_tiers (s : State) :
  ∃ err s' t,
    save_restart_counter_to_nvs board 0 (set_restart_count 0 s) = (Some err, s', t) ∧
    lifecycle_restart_counter_timeout board s = (Some tt, s', t) ∧
    restart_count (s_post_reset_state s') = 0 ∧
    (err = ESP_OK → durable_restart_count s' = Some (NvsU32 0)) ∧
    (fault_free board → err = ESP_OK).
Proof.
  pose proof (save_spec board 0 (set_restart_count 0 s)) as H.
  apply wp_run in H.
  destruct H as (oa & s' & t & Heq & (err & -> & flash & n & b & -> & _ & _ & Hdur & Hok)).
  exists err, (platform flash n b (set_restart_count 0 s)), t.
  split_and!; [exact Heq| |done|exact Hdur|exact Hok].
  unfold lifecycle_restart_counter_timeout, lifecycle_reset_restart_counter,
    bind, modify, pure.
  rewrite Heq. by rewrite app_nil_r.
Qed.


Lemma erases_count P t e :
  (∀ p o sz r, e ≠ Call (EspPartitionEraseRange p o sz) r) →
  erases P t → count_event e t = 0%nat.
Proof.
  intros He. induction 1 as [|e' t (p & o & sz & r & -> & _) _ IH]; [done|].
  unfold count_event in *. cbn. case_bool_decide as Heq; [|exact IH].
  by destruct (He p o sz r).
Qed.




Lemma erased_factory_reset_visible kind sel e1 e2 :
  boot_selection kind sel →
  erased_partitions (factory_reset_visible board sel e1 e2)
  = erased_partitions e1 ++ erased_partitions e2.
Proof.
  intros Hsel. unfold factory_reset_visible, shutdown_steps.
  rewrite !erased_partitions_app.
  destruct Hsel as [->|[->| ->]], (wifi_config_shutdown_linked board);
    cbn; by rewrite app_nil_r.
Qed.

(** What a factory reset erases: the OTA data partition and OTA
    application partitions with one of the three labels. *)
Lemma factory_reset_erased s q :
  q ∈ erased_partitions (trace_of (lifecycle_factory_reset_and_reboot board) s) →
  is_otadata board q ∨ ∃ label, label ∈ ota_labels ∧ is_ota_app board label q.
Proof.
  pose proof (factory_reset_spec board s) as H. unfold wp in H.
  destruct H as (_ & _ & _ & _ & sel & e1 & e2 & Hvis & Hsel & He1 & He2).
  rewrite <- erased_partitions_visible, Hvis, (erased_factory_reset_visible _ _ _ _ Hsel).
  intros [Hq|Hq]%elem_of_app.
  - left. by eapply erases_erased.
  - right. by eapply (erases_erased _ _ _ He2).
Qed.

Lemma boot_erased s q :
  q ∈ erased_partitions (trace_of (lifecycle_log_post_reset_state board) s) →
  is_otadata board q ∨ ∃ label, label ∈ ota_labels ∧ is_ota_app board label q.
Proof.
  pose proof (boot_spec board s) as H. unfold wp in H.
  destruct H as (load_err & persisted & s1 & t1 & _ & H). cbv zeta in H.
  rewrite <- erased_partitions_visible.
  case_decide.
  - destruct H as (_ & _ & _ & _ & sel & e1 & e2 & -> & Hsel & He1 & He2).
    rewrite !erased_partitions_app, (erased_factory_reset_visible _ _ _ _ Hsel).
    change (erased_partitions [LogRestartCount _]) with (@nil esp_partition_t).
    change (erased_partitions countdown) with (@nil esp_partition_t).
    cbn [app]. intros [Hq|Hq]%elem_of_app.
    + left. by eapply erases_erased.
    + right. by eapply (erases_erased _ _ _ He2).
  - destruct H as (_ & _ & (r & _ & ->) & _). by intros ?%elem_of_nil.
Qed.

Lemma request_update_erased s :
  erased_partitions (trace_of (lifecycle_request_update_and_reboot board) s) = [].
Proof.
  pose proof (request_update_spec board s) as H. unfold wp in H.
  destruct H as (_ & _ & sel & Hsel & Hvis & _).
  rewrite <- erased_partitions_visible, Hvis. unfold shutdown_steps.
  destruct Hsel as [->|[->| ->]], (wifi_config_shutdown_linked board); reflexivity.
Qed.

Lemma reset_homekit_erased s :
  erased_partitions (trace_of (lifecycle_reset_homekit_and_reboot board) s) = [].
Proof.
  pose proof (reset_homekit_spec board s) as H. unfold wp in H.
  destruct H as (_ & _ & Hvis & _).
  rewrite <- erased_partitions_visible, Hvis. unfold shutdown_steps.
  destruct (running_partition board), (wifi_config_shutdown_linked board); reflexivity.
Qed.

(** C9: no lifecycle sequence erases a factory application partition.
    [erase_ota_partition_by_label] erases only application partitions of
    the table whose subtype lies in the OTA range and whose label is the
    one asked for, and [erase_ota_app_partitions] asks for "ota_1",
    "ota_2" and "ota_0" only.  So, the factory subtype lying outside the
    OTA range (as it does in ESP-IDF), a partition of type app and subtype
    factory is erased neither by the two helpers, nor by a factory reset,
    an update request, a HomeKit reset or the boot protocol, whatever the
    partition table and the labels in it. *)
Theorem factory_app_partition_never_erased (s : State) :
  (∀ label q,
     q ∈ erased_partitions (trace_of (erase_ota_partition_by_label board label) s) →
     is_ota_app board label q) ∧
  (∀ q,
     q ∈ erased_partitions (trace_of (erase_ota_app_partitions board) s) →
     ∃ label, label ∈ ["ota_1"; "ota_2"; "ota_0"] ∧ is_ota_app board label q) ∧
  (¬ (ESP_PARTITION_SUBTYPE_APP_OTA_MIN board
        ≤ ESP_PARTITION_SUBTYPE_APP_FACTORY board
        ≤ ESP_PARTITION_SUBTYPE_APP_OTA_MAX board) →
   ∀ p, is_factory_app board p →
     (∀ label,
        p ∉ erased_partitions (trace_of (erase_ota_partition_by_label board label) s)) ∧
     (p ∉ erased_partitions (trace_of (erase_ota_app_partitions board) s)) ∧
     (p ∉ erased_partitions (trace_of (lifecycle_factory_reset_and_reboot board) s)) ∧
     (p ∉ erased_partitions (trace_of (lifecycle_request_update_and_reboot board) s)) ∧
     (p ∉ erased_partitions (trace_of (lifecycle_reset_homekit_and_reboot board) s)) ∧
     (p ∉ erased_partitions (trace_of (lifecycle_log_post_reset_state board) s))).
Proof.
  assert (Hlabel : ∀ label q,
    q ∈ erased_partitions (trace_of (erase_ota_partition_by_label board label) s) →
    is_ota_app board label q).
  { intros label q.
    pose proof (erase_ota_partition_by_label_spec board label s) as H. unfold wp in H.
    destruct H as (? & _ & _ & He). by eapply erases_erased. }
  assert (Hall : ∀ q,
    q ∈ erased_partitions (trace_of (erase_ota_app_partitions board) s) →
    ∃ label, label ∈ ota_labels ∧ is_ota_app board label q).
  { intros q.
    pose proof (erase_ota_app_partitions_spec board s) as H. unfold wp in H.
    destruct H as (? & _ & _ & He). by eapply (erases_erased _ _ _ He). }
  split_and!; [exact Hlabel|exact Hall|].
  intros Hrange p [Htype Hsub].
  assert (Hota : ∀ label, ¬ is_ota_app board label p).
  { intros label (_ & _ & ? & _). apply Hrange. by rewrite <- Hsub. }
  assert (Hdata : ¬ is_otadata board p).
  { intros (_ & Hty & _). congruence. }
  split_and!.
  - intros label Hp. by apply (Hota label), Hlabel.
  - intros Hp. apply Hall in Hp as (label & _ & Hp). by apply (Hota label).
  - intros [Hp|(label & _ & Hp)]%factory_reset_erased; [done|by apply (Hota label)].
  - rewrite request_update_erased. by intros ?%elem_of_nil.
  - rewrite reset_homekit_erased. by intros ?%elem_of_nil.
  - intros [Hp|(label & _ & Hp)]%boot_erased; [done|by apply (Hota label)].
Qed.

(** C8: [wifi_start] while the manager is stopped and no SSID is stored
    under "wifi_cfg".  Whatever the board makes of the calls, it returns an
    error and makes NVS calls only: no interface is initialised, no
    handler is registered, the callback is not stored and the manager
    stays stopped.  The only statics that may change are those of the NVS
    helpers, and the NVS partition is left as it was unless the call
    erased it with a successful [nvs_flash_erase] (the recovery of
    [lifecycle_ensure_nvs_initialized] when [nvs_flash_init] reports no
    free pages or a new version).  When none of the three calls
    of the load ([nvs_flash_init], [nvs_open], [nvs_get_str]) is failed,
    the error is [ESP_ERR_NVS_NOT_FOUND], the NVS partition is as before
    and NVS is initialised. *)
Theorem wifi_start_not_provisioned (on_ready : option callback) (s : State) :
  s_wifi_started s = false →
  nvs_entry (nvs_flash s) "wifi_cfg" "wifi_ssid" = None →
  ∃ err flash n initialized t,
    wifi_start board on_ready s = (Some err, platform flash n initialized s, t) ∧
    err ≠ ESP_OK ∧
    Forall (λ e, nvs_event e = true) t ∧
    (flash = nvs_flash s ∨ flash = ∅) ∧
    (flash ≠ nvs_flash s → Call NvsFlashErase ESP_OK ∈ t) ∧
    (no_fault_for board 3 s →
       err = ESP_ERR_NVS_NOT_FOUND ∧ flash = nvs_flash s ∧ initialized = true).
Proof.
  intros Hstopped Hmissing.
  assert (Hload : ∀ r s' t, nvs_load_wifi board "" "" s = (Some r, s', t) →
    wifi_start board on_ready s = (Some r.1.1, s', t) ∨ r.1.1 = ESP_OK).
  { intros [[err ssid] pass] s' t Heq.
    destruct (decide (err = ESP_OK)) as [->|Herr]; [by right|left].
    unfold wifi_start, bind, gets. rewrite Hstopped, Heq. cbn.
    repeat case_decide; try done; unfold pure; cbn; by rewrite app_nil_r. }
  pose proof (nvs_load_wifi_missing board "" "" s Hmissing) as H. apply wp_run in H.
  destruct H as (oa & s' & t & Heq & r & -> & flash & n & b & -> & Herr & _ & _ &
                 Ht & Hflash & Herase & _).
  destruct (Hload _ _ _ Heq) as [Hrun|?]; [|done].
  exists r.1.1, flash, n, b, t. split_and!; [done..|].
  intros Hnf.
  pose proof (nvs_load_wifi_not_failed board "" "" s Hmissing Hnf) as H.
  apply wp_run in H.
  destruct H as (oa & s' & t' & Heq' & r' & -> & Hr & Hfl & Hinit).
  rewrite Heq in Heq'. injection Heq' as <- <- <-. done.
Qed.
End Claims.


Lemma factory_app_partition_never_erased_witness :
  ¬ (ESP_PARTITION_SUBTYPE_APP_OTA_MIN devkit
       ≤ ESP_PARTITION_SUBTYPE_APP_FACTORY devkit
       ≤ ESP_PARTITION_SUBTYPE_APP_OTA_MAX devkit) ∧
  is_factory_app devkit
    (partition ESP_PARTITION_TYPE_APP 0x00 0x20000 0x100000 "factory") ∧
  (partition ESP_PARTITION_TYPE_APP 0x00 0x20000 0x100000 "factory"
     ∉ erased_partitions
         (trace_of (lifecycle_factory_reset_and_reboot devkit) (power_on devkit ∅))).
Proof.
  assert (Hrange : ¬ (ESP_PARTITION_SUBTYPE_APP_OTA_MIN devkit
       ≤ ESP_PARTITION_SUBTYPE_APP_FACTORY devkit
       ≤ ESP_PARTITION_SUBTYPE_APP_OTA_MAX devkit)) by (cbn; lia).
  assert (Hfactory : is_factory_app devkit
    (partition ESP_PARTITION_TYPE_APP 0x00 0x20000 0x100000 "factory"))
    by (split; reflexivity).
  split_and!; [exact Hrange|exact Hfactory|].
  exact (proj1 (proj2 (proj2
    (proj2 (proj2 (factory_app_partition_never_erased devkit (power_on devkit ∅)))
       Hrange _ Hfactory)))).
Defined.


Lemma wifi_start_not_provisioned_witness :
  s_wifi_started (power_on devkit ∅) = false ∧
  nvs_entry (nvs_flash (power_on devkit ∅)) "wifi_cfg" "wifi_ssid" = None ∧
  ∃ err flash n initialized t,
    wifi_start devkit (Some cb_on_wifi_ready) (power_on devkit ∅)
    = (Some err, platform flash n initialized (power_on devkit ∅), t) ∧
    err ≠ ESP_OK ∧
    Forall (λ e, nvs_event e = true) t ∧
    (flash = nvs_flash (power_on devkit ∅) ∨ flash = ∅) ∧
    (flash ≠ nvs_flash (power_on devkit ∅) → Call NvsFlashErase ESP_OK ∈ t) ∧
    (no_fault_for devkit 3 (power_on devkit ∅) →
       err = ESP_ERR_NVS_NOT_FOUND ∧ flash = nvs_flash (power_on devkit ∅) ∧
       initialized = true).
Proof.
  split_and!; [reflexivity|exact (nvs_entry_empty _ _)|].
  exact (wifi_start_not_provisioned devkit (Some cb_on_wifi_ready) (power_on devkit ∅)
           eq_refl (nvs_entry_empty _ _)).
Defined.

(** A not-provisioned start is not without side effects, and its error is
    not always the not-provisioned one.  With the manager stopped and no
    credentials stored, on a board whose NVS partition has no free page
    [wifi_start] returns [ESP_ERR_NVS_NOT_FOUND] after erasing the NVS
    partition, restart counter included; and on a board that fails every
    call it returns [ESP_FAIL]. *)
Lemma wifi_start_not_provisioned_erases_nvs :
  s_wifi_started
    (power_on devkit_nvs_full
       {[ k_restart_counter_namespace := {[ k_restart_counter_key := NvsU32 3 ]} ]})
  = false ∧
  nvs_entry
    (nvs_flash
       (power_on devkit_nvs_full
          {[ k_restart_counter_namespace := {[ k_restart_counter_key := NvsU32 3 ]} ]}))
    "wifi_cfg" "wifi_ssid" = None ∧
  result_of (wifi_start devkit_nvs_full (Some cb_on_wifi_ready))
    (power_on devkit_nvs_full
       {[ k_restart_counter_namespace := {[ k_restart_counter_key := NvsU32 3 ]} ]})
  = Some ESP_ERR_NVS_NOT_FOUND ∧
  durable_restart_count
    (power_on devkit_nvs_full
       {[ k_restart_counter_namespace := {[ k_restart_counter_key := NvsU32 3 ]} ]})
  = Some (NvsU32 3) ∧
  durable_restart_count
    (state_after (wifi_start devkit_nvs_full (Some cb_on_wifi_ready))
       (power_on devkit_nvs_full
          {[ k_restart_counter_namespace := {[ k_restart_counter_key := NvsU32 3 ]} ]}))
  = None ∧
  Call NvsFlashErase ESP_OK
    ∈ trace_of (wifi_start devkit_nvs_full (Some cb_on_wifi_ready))
        (power_on devkit_nvs_full
           {[ k_restart_counter_namespace := {[ k_restart_counter_key := NvsU32 3 ]} ]}) ∧
  s_wifi_started (power_on (failing devkit) ∅) = false ∧
  nvs_entry (nvs_flash (power_on (failing devkit) ∅)) "wifi_cfg" "wifi_ssid" = None ∧
  result_of (wifi_start (failing devkit) (Some cb_on_wifi_ready))
    (power_on (failing devkit) ∅) = Some ESP_FAIL.
Proof.
  split_and!; try (vm_compute; reflexivity).
  vm_compute. apply list_elem_of_further, list_elem_of_here.
Qed.

Lemma stored_in_mono lo hi lo' hi' flash :
  stored_in lo hi flash → lo' ≤ lo → hi ≤ hi' → stored_in lo' hi' flash.
Proof.
  unfold stored_in. destruct (nvs_entry _ _ _) as [[]|]; auto. lia.
Qed.

Lemma incremented_small m : 0 ≤ m < UINT32_MAX → incremented m = m + 1.
Proof.
  unfold incremented, UINT32_MAX. intros Hm.
  case_decide; [lia|]. apply Z.mod_small. lia.
Qed.

Lemma incremented_max : incremented UINT32_MAX = 1.
Proof. reflexivity. Qed.

Lemma reconciled_max d c : reconciled ESP_OK d c = Z.max c d.
Proof. unfold reconciled. repeat case_decide; try lia; congruence. Qed.

Lemma reconciled_bounded e d c : d ≤ c → reconciled e d c = c.
Proof. unfold reconciled. intros. repeat case_decide; lia. Qed.

Lemma counts_cons c k :
  (c + 1) :: ((λ i, c + 1 + Z.of_nat i) <$> seq 1 k)
  = (λ i, c + Z.of_nat i) <$> seq 1 (S k).
Proof.
  change (seq 1 (S k)) with (1%nat :: seq 2 k).
  rewrite fmap_cons. f_equal.
  rewrite <- (fmap_S_seq 1), <- list_fmap_compose.
  apply list_fmap_ext. intros ? i _. cbn. lia.
Qed.

Section Boots.
Context (board : Board).
Implicit Types s : State.

Lemma restart_counts_factory_reset_visible P1 P2 kind sel e1 e2 :
  boot_selection kind sel → erases P1 e1 → erases P2 e2 →
  restart_counts (factory_reset_visible board sel e1 e2) = [] ∧
  reported_reasons (factory_reset_visible board sel e1 e2) = [] ∧
  countdown_values (factory_reset_visible board sel e1 e2) = [] ∧
  count_event LogFactoryReset (factory_reset_visible board sel e1 e2) = 1%nat.
Proof.
  intros Hsel He1 He2.
  rewrite <- (erases_visible _ _ He1), <- (erases_visible _ _ He2).
  assert (Hne : ∀ p o sz r,
    LogFactoryReset ≠ Call (EspPartitionEraseRange p o sz) r) by done.
  pose proof (erases_count _ _ _ Hne He1) as Hc1.
  pose proof (erases_count _ _ _ Hne He2) as Hc2.
  rewrite <- (count_event_visible _ e1) in Hc1 by done.
  rewrite <- (count_event_visible _ e2) in Hc2 by done.
  unfold factory_reset_visible, shutdown_steps.
  rewrite !restart_counts_app, !reported_reasons_app, !countdown_values_app,
    !count_event_app, Hc1, Hc2.
  rewrite !restart_counts_visible, !reported_reasons_visible, !countdown_values_visible.
  assert (He : ∀ P e, erases P e →
    restart_counts e = [] ∧ reported_reasons e = [] ∧ countdown_values e = []).
  { intros P e. induction 1 as [|? ? (p & o & sz & r & -> & _) _ IH]; [done|exact IH]. }
  destruct (He _ _ He1) as (-> & -> & ->), (He _ _ He2) as (-> & -> & ->).
  destruct Hsel as [->|[->| ->]], (wifi_config_shutdown_linked board); done.
Qed.

(** What one run of the boot protocol reports and leaves, in terms of
    the counter [n] it arrives at. *)
Lemma boot_summary s :
  ∃ load_err persisted s1 t1,
    load_restart_counter_from_nvs board s = (Some (load_err, persisted), s1, t1) ∧
    let n := incremented (reconciled load_err persisted
                            (restart_count (s_post_reset_state s))) in
    let t := trace_of (lifecycle_log_post_reset_state board) s in
    let s' := state_after (lifecycle_log_post_reset_state board) s in
    restart_counts t = [n] ∧
    (n >= 10 →
       result_of (lifecycle_log_post_reset_state board) s = None ∧
       restart_count (s_post_reset_state s') = 0 ∧
       (fault_free board → nvs_flash s' = ∅) ∧
       (∃ t0, t = t0 ++ [Do EspRestart]) ∧
       reported_reasons t = [] ∧
       countdown_values t = [10; 9; 8; 7; 6; 5; 4; 3; 2; 1; 0] ∧
       count_event LogFactoryReset t = 1%nat ∧
       ∃ sel e1 e2,
         visible t = [LogRestartCount n] ++ countdown ++
                     factory_reset_visible board sel e1 e2 ∧
         boot_selection "factory" sel ∧
         erases (is_otadata board) e1 ∧
         erases (λ p, ∃ label, label ∈ ota_labels ∧ is_ota_app board label p) e2) ∧
    (n < 10 →
       result_of (lifecycle_log_post_reset_state board) s = Some tt ∧
       s_post_reset_state s' =
         {| magic := 0; reason := LIFECYCLE_POST_RESET_NONE; restart_count := n |} ∧
       (∃ r, result_of lifecycle_peek_post_reset_reason s = Some r ∧
             visible t = [LogRestartCount n; LogPostResetFlag (reason_string r)]) ∧
       countdown_values t = [] ∧
       count_event LogFactoryReset t = 0%nat ∧
       (∀ lo hi, stored_in lo hi (nvs_flash s1) → lo ≤ n ≤ hi →
          stored_in lo hi (nvs_flash s')) ∧
       (fault_free board → durable_restart_count s' = Some (NvsU32 n))).
Proof.
  pose proof (boot_spec board s) as H. unfold wp in H.
  destruct H as (load_err & persisted & s1 & t1 & Heq & H).
  exists load_err, persisted, s1, t1. split; [exact Heq|].
  cbv zeta in *.
  set (n := incremented _) in *.
  set (t := trace_of _ s) in *. set (s' := state_after _ s) in *.
  destruct (decide (n >= 10)) as [Hn|Hn].
  - destruct H as (Hres & Hc & Hff & Hlast & sel & e1 & e2 & Hvis & Hsel & He1 & He2).
    destruct (restart_counts_factory_reset_visible _ _ _ _ _ _ Hsel He1 He2)
      as (Hrc & Hrr & Hcv & Hcf).
    split_and!.
    + rewrite <- restart_counts_visible, Hvis, !restart_counts_app, Hrc. reflexivity.
    + intros _. split_and!; [done..| | | |by eauto 8].
      * rewrite <- reported_reasons_visible, Hvis, !reported_reasons_app, Hrr.
        reflexivity.
      * rewrite <- countdown_values_visible, Hvis, !countdown_values_app, Hcv.
        reflexivity.
      * rewrite <- count_event_visible, Hvis, !count_event_app, Hcf by done.
        reflexivity.
    + lia.
  - destruct H as (Hres & Hrtc & (r & Hr & Hvis) & Hst & Hdur).
    split_and!.
    + by rewrite <- restart_counts_visible, Hvis.
    + lia.
    + intros _. split_and!; [done|done|by eauto| | |done|done].
      * by rewrite <- countdown_values_visible, Hvis.
      * by rewrite <- count_event_visible, Hvis.
Qed.

(** C2: the counter reported at boot is the larger of the counter in RTC
    memory and the counter stored under "lcm"/"restart_count", incremented
    as [lifecycle_increment_restart_counter] does (plus one, or 1 from
    [UINT32_MAX]), on every boot on which the read of the durable store
    succeeds.  When none of the (at most three) calls of the read is
    failed, [load_restart_counter_from_nvs] returns [ESP_OK] with the
    stored value [v], or with 0 when no counter is stored, and the counter
    reported is the incremented maximum of the RTC counter and that value.
    Whenever the read returns [ESP_OK] with a value [d], the counter
    reported is the incremented maximum of the RTC counter and [d].  And
    when RTC memory holds 0 and the durable store holds no counter, the
    counter reported and left in RTC memory is 1, whatever the board makes
    of the calls; on a board without faults it is stored as well. *)
Theorem reported_counter_is_incremented_maximum (s : State) :
  0 ≤ restart_count (s_post_reset_state s) ≤ UINT32_MAX →
  (no_fault_for board 3 s →
     (∀ v, durable_restart_count s = Some (NvsU32 v) → 0 ≤ v ≤ UINT32_MAX →
        result_of (load_restart_counter_from_nvs board) s = Some (ESP_OK, v) ∧
        restart_counts (trace_of (lifecycle_log_post_reset_state board) s)
        = [if decide (Z.max (restart_count (s_post_reset_state s)) v = UINT32_MAX)
           then 1
           else Z.max (restart_count (s_post_reset_state s)) v + 1]) ∧
     (durable_restart_count s = None →
        result_of (load_restart_counter_from_nvs board) s = Some (ESP_OK, 0) ∧
        restart_counts (trace_of (lifecycle_log_post_reset_state board) s)
        = [if decide (restart_count (s_post_reset_state s) = UINT32_MAX)
           then 1
           else restart_count (s_post_reset_state s) + 1])) ∧
  (∀ d s1 t1,
     load_restart_counter_from_nvs board s = (Some (ESP_OK, d), s1, t1) →
     0 ≤ d ≤ UINT32_MAX →
     restart_counts (trace_of (lifecycle_log_post_reset_state board) s)
     = [if decide (Z.max (restart_count (s_post_reset_state s)) d = UINT32_MAX)
        then 1
        else Z.max (restart_count (s_post_reset_state s)) d + 1]) ∧
  (restart_count (s_post_reset_state s) = 0 →
   durable_restart_count s = None →
   restart_counts (trace_of (lifecycle_log_post_reset_state board) s) = [1] ∧
   restart_count
     (s_post_reset_state (state_after (lifecycle_log_post_reset_state board) s)) = 1 ∧
   (fault_free board →
      durable_restart_count (state_after (lifecycle_log_post_reset_state board) s)
      = Some (NvsU32 1))).
Proof.
  intros Hc.
  destruct (boot_summary s) as (load_err & persisted & s1' & t1' & Heq & H).
  cbv zeta in H. destruct H as (Hcounts & _ & Hnormal).
  assert (Hread : ∀ d s1 t1,
    load_restart_counter_from_nvs board s = (Some (ESP_OK, d), s1, t1) →
    0 ≤ d ≤ UINT32_MAX →
    restart_counts (trace_of (lifecycle_log_post_reset_state board) s)
    = [if decide (Z.max (restart_count (s_post_reset_state s)) d = UINT32_MAX)
       then 1
       else Z.max (restart_count (s_post_reset_state s)) d + 1]).
  { intros d s1 t1 Hload Hd. rewrite Hload in Heq.
    injection Heq as <- <- <- <-.
    rewrite Hcounts, reconciled_max. f_equal.
    case_decide as Hmax.
    + rewrite Hmax. reflexivity.
    + apply incremented_small. unfold UINT32_MAX in *. lia. }
  split_and!.
  - intros Hnf.
    pose proof (load_not_failed board s Hnf) as Hload. apply wp_run in Hload.
    destruct Hload as (oa & s1 & t1 & Hrun & r & -> & Hr).
    split.
    + intros v Hv Hrange. rewrite Hv in Hr. subst r.
      split; [by unfold result_of; rewrite Hrun|].
      by apply (Hread _ _ _ Hrun).
    + intros Hnone. rewrite Hnone in Hr. subst r.
      split; [by unfold result_of; rewrite Hrun|].
      rewrite (Hread _ _ _ Hrun) by (unfold UINT32_MAX; lia).
      by rewrite Z.max_l by lia.
  - exact Hread.
  - intros Hzero Hnone.
    assert (Hstored : stored_in 0 0 (nvs_flash s)).
    { unfold stored_in. unfold durable_restart_count in Hnone. by rewrite Hnone. }
    destruct (load_range board _ _ _ _ _ 0 0 Heq Hstored ltac:(lia)) as (Hd & _ & _).
    rewrite Hzero in *.
    rewrite reconciled_bounded in * by lia.
    change (incremented 0) with 1 in *.
    split; [exact Hcounts|].
    destruct (Hnormal ltac:(lia)) as (_ & -> & _ & _ & _ & _ & Hdur). done.
Qed.

(** The boot protocol when the durable counter does not exceed the one in
    RTC memory. *)
Lemma boot_counted c s :
  restart_count (s_post_reset_state s) = c → 0 ≤ c < UINT32_MAX →
  stored_in 0 c (nvs_flash s) →
  ∃ load_err persisted s1 t1,
    load_restart_counter_from_nvs board s = (Some (load_err, persisted), s1, t1) ∧
    stored_in 0 (c + 1) (nvs_flash s1) ∧
    incremented (reconciled load_err persisted (restart_count (s_post_reset_state s)))
    = c + 1.
Proof.
  intros Hc Hrange Hstored.
  destruct (boot_summary s) as (load_err & persisted & s1 & t1 & Heq & _).
  exists load_err, persisted, s1, t1. split; [exact Heq|].
  destruct (load_range board _ _ _ _ _ 0 c Heq Hstored ltac:(lia)) as (Hd & Hs1 & _).
  split; [eapply stored_in_mono; [exact Hs1|lia..]|].
  rewrite Hc, reconciled_bounded by lia. by apply incremented_small.
Qed.

(** Boots in a row from a counter [c] that reach 10 with the last one. *)
Lemma boots_until_reset k c s :
  restart_count (s_post_reset_state s) = c → 0 ≤ c →
  stored_in 0 c (nvs_flash s) →
  c + Z.of_nat (S k) = 10 →
  restart_counts (consecutive_boots board (S k) s).2
    = (λ i, c + Z.of_nat i) <$> seq 1 (S k) ∧
  count_event LogFactoryReset (consecutive_boots board (S k) s).2 = 1%nat ∧
  countdown_values (consecutive_boots board (S k) s).2
    = [10; 9; 8; 7; 6; 5; 4; 3; 2; 1; 0] ∧
  restart_count (s_post_reset_state (consecutive_boots board (S k) s).1) = 0 ∧
  (fault_free board → nvs_flash (consecutive_boots board (S k) s).1 = ∅).
Proof.
  revert c s. induction k as [|k IH]; intros c s Hc Hc0 Hstored Hten.
  - assert (c = 9) as -> by lia.
    assert (Hlt : 0 ≤ 9 < UINT32_MAX) by (unfold UINT32_MAX; lia).
    destruct (boot_counted 9 (warm_reboot board s) Hc Hlt Hstored) as
      (load_err & persisted & s1 & t1 & Heq & _ & Hn).
    destruct (boot_summary (warm_reboot board s))
      as (load_err' & persisted' & s1' & t1' & Heq' & H).
    rewrite Heq in Heq'. injection Heq' as <- <- <- <-.
    cbv zeta in H. rewrite Hn in H. destruct H as (Hcounts & Hcrash & _).
    destruct (Hcrash ltac:(lia)) as (_ & Hzero & Hff & _ & _ & Hcv & Hcf & _).
    unfold state_after, trace_of in *.
    cbn [consecutive_boots].
    destruct (lifecycle_log_post_reset_state board (warm_reboot board s))
      as [[oa s2] t2].
    cbn [fst snd] in *. rewrite app_nil_r. done.
  - assert (Hlt : 0 ≤ c < UINT32_MAX) by (unfold UINT32_MAX; lia).
    destruct (boot_counted c (warm_reboot board s) Hc Hlt Hstored) as
      (load_err & persisted & s1 & t1 & Heq & Hs1 & Hn).
    destruct (boot_summary (warm_reboot board s))
      as (load_err' & persisted' & s1' & t1' & Heq' & H).
    rewrite Heq in Heq'. injection Heq' as <- <- <- <-.
    cbv zeta in H. rewrite Hn in H. destruct H as (Hcounts & _ & Hnormal).
    destruct (Hnormal ltac:(lia)) as (_ & Hrtc & _ & Hcv & Hcf & Hst & _).
    unfold state_after, trace_of in *.
    change (consecutive_boots board (S (S k)) s) with
      (let '(_, s1, t1) := lifecycle_log_post_reset_state board (warm_reboot board s) in
       let '(s2, t2) := consecutive_boots board (S k) s1 in (s2, t1 ++ t2)).
    destruct (lifecycle_log_post_reset_state board (warm_reboot board s))
      as [[oa s2] t2].
    cbn [fst snd] in *.
    assert (Hc2 : restart_count (s_post_reset_state s2) = c + 1) by by rewrite Hrtc.
    assert (Hs2 : stored_in 0 (c + 1) (nvs_flash s2)) by (apply Hst; [done|lia]).
    destruct (IH (c + 1) s2 Hc2 ltac:(lia) Hs2 ltac:(lia))
      as (IHc & IHf & IHv & IHz & IHff).
    destruct (consecutive_boots board (S k) s2) as [s3 t3]. cbn [fst snd] in *.
    rewrite restart_counts_app, count_event_app, countdown_values_app,
      Hcounts, Hcf, Hcv, IHc, IHf, IHv.
    split_and!; try done.
    apply counts_cons.
Qed.

(** C1: a boot whose reconciled and incremented counter [n] is at least
    10 is treated as a crash loop.  Every boot reports one counter [n]; if
    [n >= 10] the protocol logs the countdown, which has the eleven lines
    10, 9, ..., 0, each followed by a delay of one second, then resets the
    counter and runs the factory reset, which ends in [esp_restart]: the
    protocol does not return, and the post-reset reason is never reported.
    If [n < 10] there is no countdown and no factory reset, and the reason
    is reported after the counter.  Ten boots in a row from a counter that
    is 0 in RTC memory and absent or 0 in the durable store, with no timer
    firing in between, invoke the factory reset exactly once, in the tenth
    boot; the counter in RTC memory is 0 afterwards, and on a board without
    faults the NVS partition is empty. *)
Theorem crash_loop_triggers_one_factory_reset (s : State) :
  (∃ n,
     restart_counts (trace_of (lifecycle_log_post_reset_state board) s) = [n] ∧
     (n >= 10 →
        result_of (lifecycle_log_post_reset_state board) s = None ∧
        (∃ sel e1 e2,
           visible (trace_of (lifecycle_log_post_reset_state board) s)
           = [LogRestartCount n] ++ countdown ++
             factory_reset_visible board sel e1 e2) ∧
        countdown_values (trace_of (lifecycle_log_post_reset_state board) s)
        = [10; 9; 8; 7; 6; 5; 4; 3; 2; 1; 0] ∧
        count_event LogFactoryReset
          (trace_of (lifecycle_log_post_reset_state board) s) = 1%nat ∧
        reported_reasons (trace_of (lifecycle_log_post_reset_state board) s) = [] ∧
        restart_count
          (s_post_reset_state
             (state_after (lifecycle_log_post_reset_state board) s)) = 0) ∧
     (n < 10 →
        result_of (lifecycle_log_post_reset_state board) s = Some tt ∧
        ∃ r, visible (trace_of (lifecycle_log_post_reset_state board) s)
             = [LogRestartCount n; LogPostResetFlag r])) ∧
  (restart_count (s_post_reset_state s) = 0 →
   stored_in 0 0 (nvs_flash s) →
   restart_counts (consecutive_boots board 10 s).2 = [1; 2; 3; 4; 5; 6; 7; 8; 9; 10] ∧
   count_event LogFactoryReset (consecutive_boots board 10 s).2 = 1%nat ∧
   countdown_values (consecutive_boots board 10 s).2
   = [10; 9; 8; 7; 6; 5; 4; 3; 2; 1; 0] ∧
   restart_count (s_post_reset_state (consecutive_boots board 10 s).1) = 0 ∧
   (fault_free board → nvs_flash (consecutive_boots board 10 s).1 = ∅)).
Proof.
  split.
  - destruct (boot_summary s) as (load_err & persisted & s1 & t1 & _ & H).
    cbv zeta in H. destruct H as (Hcounts & Hcrash & Hnormal).
    eexists. split; [exact Hcounts|]. split.
    + intros Hn. destruct (Hcrash Hn) as
        (? & ? & _ & _ & ? & ? & ? & sel & e1 & e2 & ? & _).
      split_and!; [done| |done..]. by exists sel, e1, e2.
    + intros Hn. destruct (Hnormal Hn) as (? & _ & (r & _ & ?) & _).
      split; [done|]. by eexists.
  - intros Hzero Hstored.
    destruct (boots_until_reset 9 0 s Hzero ltac:(lia) Hstored ltac:(lia))
      as (Hcounts & ? & ? & ? & ?).
    split_and!; [|done..]. rewrite Hcounts. reflexivity.
Qed.
End Boots.

Lemma reported_counter_is_incremented_maximum_witness :
  0 ≤ restart_count
        (s_post_reset_state
           (set_restart_count 3
              (power_on devkit
                 {[ k_restart_counter_namespace :=
                      {[ k_restart_counter_key := NvsU32 7 ]} ]}))) ≤ UINT32_MAX ∧
  no_fault_for devkit 3
    (set_restart_count 3
       (power_on devkit
          {[ k_restart_counter_namespace :=
               {[ k_restart_counter_key := NvsU32 7 ]} ]})) ∧
  durable_restart_count
    (set_restart_count 3
       (power_on devkit
          {[ k_restart_counter_namespace :=
               {[ k_restart_counter_key := NvsU32 7 ]} ]})) = Some (NvsU32 7) ∧
  restart_counts
    (trace_of (lifecycle_log_post_reset_state devkit)
       (set_restart_count 3
          (power_on devkit
             {[ k_restart_counter_namespace :=
                  {[ k_restart_counter_key := NvsU32 7 ]} ]})))
  = [8].
Proof.
  assert (Hrange : 0 ≤ restart_count
        (s_post_reset_state
           (set_restart_count 3
              (power_on devkit
                 {[ k_restart_counter_namespace :=
                      {[ k_restart_counter_key := NvsU32 7 ]} ]}))) ≤ UINT32_MAX)
    by (cbn; unfold UINT32_MAX; lia).
  assert (Hnf : no_fault_for devkit 3
    (set_restart_count 3
       (power_on devkit
          {[ k_restart_counter_namespace :=
               {[ k_restart_counter_key := NvsU32 7 ]} ]})))
    by (intros k _; reflexivity).
  assert (Hstored : durable_restart_count
    (set_restart_count 3
       (power_on devkit
          {[ k_restart_counter_namespace :=
               {[ k_restart_counter_key := NvsU32 7 ]} ]})) = Some (NvsU32 7))
    by (vm_compute; reflexivity).
  split; [exact Hrange|]. split; [exact Hnf|]. split; [exact Hstored|].
  exact (proj2 (proj1 (proj1 (reported_counter_is_incremented_maximum devkit
    (set_restart_count 3
       (power_on devkit
          {[ k_restart_counter_namespace :=
               {[ k_restart_counter_key := NvsU32 7 ]} ]})) Hrange) Hnf)
    7 Hstored (conj (proj1 (Z.leb_le 0 7) eq_refl)
                    (proj1 (Z.leb_le 7 UINT32_MAX) eq_refl)))).
Defined.

Lemma crash_loop_triggers_one_factory_reset_witness :
  count_event LogFactoryReset (consecutive_boots devkit 10 (power_on devkit ∅)).2
  = 1%nat ∧
  restart_count
    (s_post_reset_state (consecutive_boots devkit 10 (power_on devkit ∅)).1) = 0.
Proof.
  pose proof (proj2 (crash_loop_triggers_one_factory_reset devkit (power_on devkit ∅))
                eq_refl (stored_in_empty 0 0)) as H.
  exact (conj (proj1 (proj2 H)) (proj1 (proj2 (proj2 (proj2 H))))).
Defined.

(** The countdown of the crash-loop branch does not have ten steps: a boot
    that arrives at the counter 10 logs the eleven lines 10, 9, ..., 0. *)
Lemma crash_loop_countdown_has_eleven_lines :
  restart_counts
    (trace_of (lifecycle_log_post_reset_state devkit)
       (set_restart_count 9 (power_on devkit ∅))) = [10] ∧
  countdown_values
    (trace_of (lifecycle_log_post_reset_state devkit)
       (set_restart_count 9 (power_on devkit ∅)))
  = [10; 9; 8; 7; 6; 5; 4; 3; 2; 1; 0] ∧
  length (countdown_values
            (trace_of (lifecycle_log_post_reset_state devkit)
               (set_restart_count 9 (power_on devkit ∅)))) ≠ 10%nat ∧
  count_event (Do (VTaskDelay 1000))
    (trace_of (lifecycle_log_post_reset_state devkit)
       (set_restart_count 9 (power_on devkit ∅))) = 11%nat.
Proof. vm_compute. split_and!; try reflexivity. discriminate. Qed.

(** * Further properties of the code *)

(** A call that leaves the NVS partition alone: one case is enough. *)
Lemma wp_call_other board c s (Q : option esp_err_t → State → list event → Prop) :
  (∀ flash, idf_sem c flash = (ESP_OK, flash)) →
  (∀ r, (idf_fault board (idf_calls s) = ESP_OK → r = ESP_OK) →
        Q (Some r) (counted s) [Call c r]) →
  wp (call board c) s Q.
Proof.
  intros Hc H. apply wp_call. intros r s' [(Hf & _ & ->)|(Hf & flash & Hsem & ->)].
  - apply H. done.
  - rewrite Hc in Hsem. injection Hsem as <- <-. apply H. done.
Qed.

Ltac wp_call_other :=
  idtac; apply wp_call_other; [intros ?; reflexivity|];
  let r := fresh "r" in let Hr := fresh "Hr" in intros r Hr.

Ltac wp_steps_other := repeat (wp_step ltac:(idtac; wp_call_other)).

Lemma first_error_snoc results err tolerated :
  first_error (results ++ [(err, tolerated)])
  = if decide (first_error results = ESP_OK)
    then (if decide (err = ESP_OK ∨ err ∈ tolerated) then ESP_OK else err)
    else first_error results.
Proof. unfold first_error. by rewrite foldl_app. Qed.

Ltac tolerate :=
  intros; repeat case_decide; subst; try reflexivity; try congruence;
  exfalso; rewrite ?elem_of_cons, ?elem_of_nil in *; intuition congruence.

Lemma tolerated_one (e a res : esp_err_t) :
  (if decide (e ≠ ESP_OK ∧ e ≠ a)
   then (if decide (res = ESP_OK) then e else res) else res)
  = if decide (res = ESP_OK)
    then (if decide (e = ESP_OK ∨ e ∈ [a]) then ESP_OK else e)
    else res.
Proof. tolerate. Qed.

Lemma tolerated_two (e a b res : esp_err_t) :
  (if decide (e ≠ ESP_OK ∧ e ≠ a ∧ e ≠ b)
   then (if decide (res = ESP_OK) then e else res) else res)
  = if decide (res = ESP_OK)
    then (if decide (e = ESP_OK ∨ e ∈ [a; b]) then ESP_OK else e)
    else res.
Proof. tolerate. Qed.

Lemma first_error_ok results :
  Forall (λ x, x.1 = ESP_OK) results → first_error results = ESP_OK.
Proof.
  induction results as [|[e tol] results IH] using rev_ind; [done|].
  intros [H1 H2]%Forall_app. rewrite first_error_snoc, IH by done.
  inversion H2 as [|? ? He _]. cbn in He. subst. repeat case_decide; tauto.
Qed.

Lemma counted_fields s :
  s_post_reset_state (counted s) = s_post_reset_state s ∧
  s_wifi_netif (counted s) = s_wifi_netif s ∧
  nvs_flash (counted s) = nvs_flash s ∧
  idf_calls (counted s) = S (idf_calls s).
Proof. done. Qed.

Section Extras.
Context (board : Board).
Implicit Types s : State.

Lemma wifi_stop_run s :
  s_wifi_started s = true →
  wp (wifi_stop board) s (post (λ r s' t,
    ∃ r1 r2 r3 r4 r5,
      t = [Call EspWifiDisconnect r1; Call EspWifiStop r2;
           Call (EspEventHandlerUnregister WIFI_EVENT_ANY_ID) r3;
           Call (EspEventHandlerUnregister IP_EVENT_GOT_IP_ONLY) r4;
           Call EspWifiDeinit r5] ++
          (if s_wifi_netif s then [Do EspNetifDestroy] else []) ∧
      r = first_error
            [(r1, [ESP_ERR_WIFI_NOT_STARTED; ESP_ERR_WIFI_NOT_INIT]);
             (r2, [ESP_ERR_WIFI_NOT_INIT]);
             (r3, [ESP_ERR_INVALID_STATE]);
             (r4, [ESP_ERR_INVALID_STATE]);
             (r5, [ESP_ERR_WIFI_NOT_INIT])] ∧
      s' = wifi_stopped (calls_made 5 s) ∧
      (fault_free board → r = ESP_OK))).
Proof.
  intros Hstarted.
  wp_unfold wifi_stop. unfold_idf.
  wp_step idtac. rewrite Hstarted. change (negb true) with false. wp_simp.
  wp_steps_other.
  all: change (s_wifi_netif (counted (counted (counted (counted (counted s))))))
         with (s_wifi_netif s) in *.
  all: assert (Hresult : result4 = first_error
            [(r, [ESP_ERR_WIFI_NOT_STARTED; ESP_ERR_WIFI_NOT_INIT]);
             (r0, [ESP_ERR_WIFI_NOT_INIT]);
             (r1, [ESP_ERR_INVALID_STATE]);
             (r2, [ESP_ERR_INVALID_STATE]);
             (r3, [ESP_ERR_WIFI_NOT_INIT])])
    by (subst result4 result3 result2 result1 result0 result;
        rewrite tolerated_two, !tolerated_one; reflexivity).
  all: eexists; split; [reflexivity|]; exists r, r0, r1, r2, r3.
  all: rewrite Heqb; split_and!; [reflexivity|exact Hresult| |].
  all: try (intros Hff; rewrite Hresult; apply first_error_ok;
            repeat constructor; cbn; auto).
  - destruct s; reflexivity.
  - destruct s; cbn in *; subst; reflexivity.
Qed.

(** X1: [wifi_stop] always completes.  Whatever the five teardown calls
    report, it returns with the manager stopped, the callback cleared and
    the interface released; stopping again makes no call and returns
    [ESP_OK]; and on a board without faults the result is [ESP_OK]. *)
Theorem wifi_stop_completes (s : State) :
  ∃ r s' t,
    wifi_stop board s = (Some r, s', t) ∧
    s_wifi_started s' = false ∧
    (s_wifi_started s = true →
       s_wifi_on_ready_cb s' = None ∧ s_wifi_netif s' = false) ∧
    wifi_stop board s' = (Some ESP_OK, s', []) ∧
    (fault_free board → r = ESP_OK).
Proof.
  assert (Hstopped : ∀ s0, s_wifi_started s0 = false →
            wifi_stop board s0 = (Some ESP_OK, s0, [])).
  { intros s0 H0. unfold wifi_stop, bind, gets. by rewrite H0. }
  destruct (s_wifi_started s) eqn:Hstarted.
  - pose proof (wifi_stop_run s Hstarted) as H. apply wp_run in H.
    destruct H as (oa & s' & t & Heq & r & -> & r1 & r2 & r3 & r4 & r5 & _ & _ & -> & Hok).
    exists r, (wifi_stopped (calls_made 5 s)), t.
    split_and!; [exact Heq|done|done|by apply Hstopped|exact Hok].
  - exists ESP_OK, s, []. rewrite Hstopped by done. split_and!; done.
Qed.

(** X2: [wifi_stop] on a started manager makes its five teardown calls in
    order, destroys the interface if there is one, goes on after every
    failure, and returns the first error that is not tolerated for its
    call ([ESP_ERR_WIFI_NOT_STARTED] and [ESP_ERR_WIFI_NOT_INIT] for the
    disconnect, [ESP_ERR_WIFI_NOT_INIT] for stop and deinit,
    [ESP_ERR_INVALID_STATE] for the two unregistrations). *)
Theorem wifi_stop_reports_first_error (s : State) :
  s_wifi_started s = true →
  ∃ r1 r2 r3 r4 r5,
    wifi_stop board s =
      (Some (first_error
               [(r1, [ESP_ERR_WIFI_NOT_STARTED; ESP_ERR_WIFI_NOT_INIT]);
                (r2, [ESP_ERR_WIFI_NOT_INIT]);
                (r3, [ESP_ERR_INVALID_STATE]);
                (r4, [ESP_ERR_INVALID_STATE]);
                (r5, [ESP_ERR_WIFI_NOT_INIT])]),
       wifi_stopped (calls_made 5 s),
       [Call EspWifiDisconnect r1; Call EspWifiStop r2;
        Call (EspEventHandlerUnregister WIFI_EVENT_ANY_ID) r3;
        Call (EspEventHandlerUnregister IP_EVENT_GOT_IP_ONLY) r4;
        Call EspWifiDeinit r5] ++
       (if s_wifi_netif s then [Do EspNetifDestroy] else [])).
Proof.
  intros Hstarted.
  pose proof (wifi_stop_run s Hstarted) as H. apply wp_run in H.
  destruct H as (oa & s' & t & Heq & r & -> & r1 & r2 & r3 & r4 & r5 & -> & -> & -> & _).
  by exists r1, r2, r3, r4, r5.
Qed.
End Extras.

Lemma wifi_stop_reports_first_error_witness :
  s_wifi_started (set_wifi_started true (power_on (failing devkit) ∅)) = true ∧
  ∃ r1 r2 r3 r4 r5,
    wifi_stop (failing devkit) (set_wifi_started true (power_on (failing devkit) ∅)) =
      (Some (first_error
               [(r1, [ESP_ERR_WIFI_NOT_STARTED; ESP_ERR_WIFI_NOT_INIT]);
                (r2, [ESP_ERR_WIFI_NOT_INIT]);
                (r3, [ESP_ERR_INVALID_STATE]);
                (r4, [ESP_ERR_INVALID_STATE]);
                (r5, [ESP_ERR_WIFI_NOT_INIT])]),
       wifi_stopped (calls_made 5 (set_wifi_started true (power_on (failing devkit) ∅))),
       [Call EspWifiDisconnect r1; Call EspWifiStop r2;
        Call (EspEventHandlerUnregister WIFI_EVENT_ANY_ID) r3;
        Call (EspEventHandlerUnregister IP_EVENT_GOT_IP_ONLY) r4;
        Call EspWifiDeinit r5] ++
       (if s_wifi_netif (set_wifi_started true (power_on (failing devkit) ∅))
        then [Do EspNetifDestroy] else [])).
Proof.
  split; [reflexivity|].
  exact (wifi_stop_reports_first_error (failing devkit)
           (set_wifi_started true (power_on (failing devkit) ∅)) eq_refl).
Defined.

Lemma erases_in_turn_erased ps t : erases_in_turn ps t → erased_partitions t = ps.
Proof.
  induction 1 as [|p e ps t [r ->] _ IH]; [done|].
  unfold whole_erase. change (erased_partitions (Call (EspPartitionEraseRange p 0 (p_size p)) r :: t))
    with (p :: erased_partitions t). by rewrite IH.
Qed.

Section Extras.
Context (board : Board).
Implicit Types s : State.

Lemma ensure_initialized s :
  s_nvs_initialized s = true →
  lifecycle_ensure_nvs_initialized board s = (Some ESP_OK, s, []).
Proof. intros H. unfold lifecycle_ensure_nvs_initialized, bind, gets. by rewrite H. Qed.

(** X3: [lifecycle_nvs_init] sets [s_nvs_initialized] exactly when it
    succeeds, after which a further call makes no call at all; on failure
    the flag is as before.  The NVS partition is erased only on the
    recovery path: when the first [nvs_flash_init] reported
    [ESP_ERR_NVS_NO_FREE_PAGES] or [ESP_ERR_NVS_NEW_VERSION_FOUND], after
    which the erase is followed by a second [nvs_flash_init]. *)
Theorem nvs_init_sets_flag_and_recovers (s : State) :
  ∃ r s' t,
    lifecycle_nvs_init board s = (Some r, s', t) ∧
    (r = ESP_OK →
       s_nvs_initialized s' = true ∧
       lifecycle_nvs_init board s' = (Some ESP_OK, s', [])) ∧
    (r ≠ ESP_OK → s_nvs_initialized s' = s_nvs_initialized s) ∧
    (nvs_flash s' ≠ nvs_flash s →
       ∃ e r', (e = ESP_ERR_NVS_NO_FREE_PAGES ∨ e = ESP_ERR_NVS_NEW_VERSION_FOUND) ∧
               t = [Call NvsFlashInit e; Call NvsFlashErase ESP_OK;
                    Call NvsFlashInit r']).
Proof.
  assert (H : wp (lifecycle_ensure_nvs_initialized board) s (post (λ r s' t,
    (r = ESP_OK → s_nvs_initialized s' = true) ∧
    (r ≠ ESP_OK → s_nvs_initialized s' = s_nvs_initialized s) ∧
    (nvs_flash s' ≠ nvs_flash s →
       ∃ e r', (e = ESP_ERR_NVS_NO_FREE_PAGES ∨ e = ESP_ERR_NVS_NEW_VERSION_FOUND) ∧
               t = [Call NvsFlashInit e; Call NvsFlashErase ESP_OK;
                    Call NvsFlashInit r'])))).
  { wp_unfold lifecycle_ensure_nvs_initialized. unfold_idf.
    wp_steps.
    all: wp_close.
    all: split_and!; try done.
    all: try (intros []; done).
    all: intros _; eauto. }
  apply wp_run in H. destruct H as (oa & s' & t & Heq & r & -> & Hok & Hfail & Herase).
  exists r, s', t. unfold lifecycle_nvs_init.
  split_and!; [exact Heq| |exact Hfail|exact Herase].
  intros Hr. split; [auto|]. apply ensure_initialized. auto.
Qed.

Lemma elem_of_ota_partitions_labelled label q :
  q ∈ ota_partitions_labelled board label ↔ is_ota_app board label q.
Proof.
  unfold ota_partitions_labelled, esp_partition_find_any, is_ota_app.
  rewrite !list_elem_of_filter. tauto.
Qed.

(** X4: the erase of the OTA application partitions is complete and
    ordered.  [erase_ota_partition_by_label] erases exactly the
    application partitions of the table with an OTA subtype whose label
    compares equal to the one asked for, in the order of the table and
    whatever the earlier erases report; [erase_ota_app_partitions] does so
    for "ota_1", "ota_2" and "ota_0" in turn.  So a partition is erased if
    and only if it is such a partition. *)
Theorem ota_erase_is_complete (s : State) :
  (∀ label,
     erased_partitions (trace_of (erase_ota_partition_by_label board label) s)
     = ota_partitions_labelled board label) ∧
  erased_partitions (trace_of (erase_ota_app_partitions board) s)
  = ota_partitions_labelled board "ota_1" ++ ota_partitions_labelled board "ota_2" ++
    ota_partitions_labelled board "ota_0" ∧
  (∀ q,
     q ∈ erased_partitions (trace_of (erase_ota_app_partitions board) s) ↔
     ∃ label, label ∈ ["ota_1"; "ota_2"; "ota_0"] ∧ is_ota_app board label q).
Proof.
  assert (Hall : erased_partitions (trace_of (erase_ota_app_partitions board) s)
                 = ota_app_partitions board).
  { pose proof (erase_ota_app_partitions_outline board s) as H. unfold wp in H.
    destruct H as (? & _ & _ & He & _). by apply erases_in_turn_erased. }
  split_and!.
  - intros label.
    pose proof (erase_ota_partition_by_label_outline board label s) as H. unfold wp in H.
    destruct H as (? & _ & _ & He & _). by apply erases_in_turn_erased.
  - exact Hall.
  - intros q. rewrite Hall. unfold ota_app_partitions.
    rewrite !elem_of_app, !elem_of_ota_partitions_labelled. split.
    + intros [?|[?|?]]; eexists; (split; [|eassumption]);
        repeat first [apply list_elem_of_here|apply list_elem_of_further].
    + intros (label & Hl & Hq).
      rewrite !elem_of_cons, elem_of_nil in Hl.
      destruct Hl as [->|[->|[->|[]]]]; auto.
Qed.

(** A boot that is not a crash loop reports the reason left in RTC memory
    and clears it. *)
Lemma boot_reports_reason s n :
  restart_counts (trace_of (lifecycle_log_post_reset_state board) s) = [n] →
  n < 10 →
  ∃ r, result_of lifecycle_peek_post_reset_reason s = Some r ∧
    reported_reasons (trace_of (lifecycle_log_post_reset_state board) s)
    = [reason_string r] ∧
    s_post_reset_state (state_after (lifecycle_log_post_reset_state board) s)
    = {| magic := 0; reason := LIFECYCLE_POST_RESET_NONE; restart_count := n |}.
Proof.
  intros Hn Hlt.
  destruct (boot_summary board s) as (load_err & persisted & s1 & t1 & _ & H).
  cbv zeta in H. destruct H as (Hcounts & _ & Hnormal).
  rewrite Hcounts in Hn. injection Hn as Hn. rewrite Hn in Hnormal.
  destruct (Hnormal Hlt) as (_ & Hstate & (r & Hr & Hvis) & _).
  exists r. split_and!; [exact Hr| |exact Hstate].
  by rewrite <- reported_reasons_visible, Hvis.
Qed.

Lemma peek_marked st reason :
  0 ≤ reason ≤ LIFECYCLE_POST_RESET_REASON_UPDATE →
  ∀ s, s_post_reset_state s = marked reason st →
    result_of lifecycle_peek_post_reset_reason s = Some reason.
Proof.
  intros Hr s Hs.
  unfold result_of, lifecycle_peek_post_reset_reason, bind, gets. cbn.
  rewrite Hs. cbn. unfold LIFECYCLE_POST_RESET_NONE in *.
  repeat case_decide; try done; lia.
Qed.

(** X5: a HomeKit reset always marks its reason and reboots.  Whatever
    the calls report (the re-selection of the running partition
    included), [lifecycle_reset_homekit_and_reboot] does not return, ends
    in [esp_restart], logs its steps in order, erases no partition and
    leaves the reason HOMEKIT marked in RTC memory with the restart counter
    untouched; after the warm reset the reason read back is HOMEKIT, and a
    boot that is not a crash loop reports "homekit". *)
Theorem homekit_reset_marks_and_reboots (s : State) :
  ∃ s' t0,
    lifecycle_reset_homekit_and_reboot board s = (None, s', t0 ++ [Do EspRestart]) ∧
    log_steps (t0 ++ [Do EspRestart])
    = match running_partition board with
      | Some _ => ["set_boot=current"]
      | None => []
      end ++
      ["set_post_reset_flag=homekit"; "stop_homekit"; "wait_hap_clients"; "stop_mdns";
       "reset_homekit_store"] ++
      (if wifi_config_shutdown_linked board then ["stop_provisioning"] else []) ++
      ["stop_wifi"; "delay_before_reset"; "reboot"] ∧
    erased_partitions (t0 ++ [Do EspRestart]) = [] ∧
    s_post_reset_state s'
    = {| magic := k_post_reset_magic; reason := LIFECYCLE_POST_RESET_REASON_HOMEKIT;
         restart_count := restart_count (s_post_reset_state s) |} ∧
    result_of lifecycle_peek_post_reset_reason (warm_reboot board s')
    = Some LIFECYCLE_POST_RESET_REASON_HOMEKIT ∧
    (∀ n,
       restart_counts
         (trace_of (lifecycle_log_post_reset_state board) (warm_reboot board s')) = [n] →
       n < 10 →
       reported_reasons
         (trace_of (lifecycle_log_post_reset_state board) (warm_reboot board s'))
       = ["homekit"]).
Proof.
  pose proof (reset_homekit_spec board s) as H. apply wp_run in H.
  destruct H as (oa & s' & t & Heq & -> & (t0 & ->) & Hvis & Hstate).
  assert (Hpeek : result_of lifecycle_peek_post_reset_reason (warm_reboot board s')
                  = Some LIFECYCLE_POST_RESET_REASON_HOMEKIT).
  { apply (peek_marked (s_post_reset_state s)); [done|exact Hstate]. }
  exists s', t0. split_and!; [exact Heq| | |exact Hstate|exact Hpeek|].
  - rewrite <- log_steps_visible, Hvis. unfold shutdown_steps, reboot_steps.
    destruct (running_partition board), (wifi_config_shutdown_linked board);
      reflexivity.
  - rewrite <- erased_partitions_visible, Hvis. unfold shutdown_steps, reboot_steps.
    destruct (running_partition board), (wifi_config_shutdown_linked board);
      reflexivity.
  - intros n Hn Hlt.
    destruct (boot_reports_reason _ _ Hn Hlt) as (r & Hr & Hreported & _).
    rewrite Hpeek in Hr. injection Hr as <-. exact Hreported.
Qed.

(** X6: the post-reset reason is reported once.  A boot that is not a
    crash loop clears the marker in RTC memory, so the boot after it, if
    it is not a crash loop either, reports "none" whatever reason the
    first one reported. *)
Theorem post_reset_reason_reported_once (s : State) (n1 n2 : Z) :
  restart_counts (trace_of (lifecycle_log_post_reset_state board) s) = [n1] →
  n1 < 10 →
  restart_counts
    (trace_of (lifecycle_log_post_reset_state board)
       (warm_reboot board (state_after (lifecycle_log_post_reset_state board) s)))
  = [n2] →
  n2 < 10 →
  reported_reasons
    (trace_of (lifecycle_log_post_reset_state board)
       (warm_reboot board (state_after (lifecycle_log_post_reset_state board) s)))
  = ["none"].
Proof.
  intros Hn1 Hlt1 Hn2 Hlt2.
  destruct (boot_reports_reason _ _ Hn1 Hlt1) as (_ & _ & _ & Hstate).
  destruct (boot_reports_reason _ _ Hn2 Hlt2) as (r & Hr & Hreported & _).
  rewrite Hreported. f_equal.
  unfold result_of, lifecycle_peek_post_reset_reason, bind, gets in Hr. cbn in Hr.
  rewrite Hstate in Hr. cbn in Hr. by injection Hr as <-.
Qed.

Lemma relay_on_set_run b s :
  wp (relay_on_set board (HOMEKIT_BOOL b)) s (post (λ _ s' t,
    ∃ r1 r2,
      s' = counted (counted (set_relay_on b s)) ∧
      t = [Call (GpioSetLevel (CONFIG_ESP_RELAY_GPIO board) (level_of b)) r1;
           Call (GpioSetLevel (CONFIG_ESP_BLUE_LED_GPIO board) (level_of b)) r2])).
Proof.
  wp_unfold relay_on_set. wp_unfold relay_apply_state.
  wp_unfold relay_write. wp_unfold blue_led_write. unfold_idf.
  wp_step idtac; [done|].
  wp_steps_other. eexists. split; [reflexivity|]. by exists r, r0.
Qed.

(** X7: the relay follows the On characteristic.  [relay_on_set] ignores
    a value that is not a boolean (no call, no change); for a boolean it
    stores it in [relay_on] and writes its level to the relay pin and then
    to the LED pin, whatever the writes report, after which
    [relay_on_get] returns that boolean. *)
Theorem relay_follows_on_characteristic (v : homekit_value_t) (s : State) :
  (format v ≠ homekit_format_bool → relay_on_set board v s = (Some tt, s, [])) ∧
  (format v = homekit_format_bool →
     ∃ s' t,
       relay_on_set board v s = (Some tt, s', t) ∧
       relay_on s' = bool_value v ∧
       gpio_levels t = [(CONFIG_ESP_RELAY_GPIO board, level_of (bool_value v));
                        (CONFIG_ESP_BLUE_LED_GPIO board, level_of (bool_value v))] ∧
       length t = 2%nat ∧
       relay_on_get s' = (Some (HOMEKIT_BOOL (bool_value v)), s', [])).
Proof.
  split.
  - intros Hf. unfold relay_on_set. by case_decide.
  - intros Hf.
    assert (H : wp (relay_on_set board v) s (post (λ _ s' t,
      ∃ r1 r2,
        s' = counted (counted (set_relay_on (bool_value v) s)) ∧
        t = [Call (GpioSetLevel (CONFIG_ESP_RELAY_GPIO board) (level_of (bool_value v))) r1;
             Call (GpioSetLevel (CONFIG_ESP_BLUE_LED_GPIO board)
                     (level_of (bool_value v))) r2]))).
    { wp_unfold relay_on_set. wp_unfold relay_apply_state.
      wp_unfold relay_write. wp_unfold blue_led_write. unfold_idf.
      wp_step idtac; [done|].
      wp_steps_other. eexists. split; [reflexivity|]. by exists r, r0. }
    apply wp_run in H.
    destruct H as (oa & s' & t & Heq & [] & -> & r1 & r2 & -> & ->).
    eexists _, _. split_and!; [exact Heq|reflexivity..].
Qed.

(** X8: the button.  A single press toggles the relay: it writes the
    negated state to the relay pin and the LED pin, stores it in
    [relay_on] and then notifies HomeKit of the new value of the On
    characteristic, so two single presses restore the state; a double
    press and an unknown event do nothing; a long press is a factory
    reset, which does not return. *)
Theorem button_press_actions (s : State) :
  (∃ s' r1 r2,
     button_callback board button_event_single_press s =
       (Some tt, s',
        [Call (GpioSetLevel (CONFIG_ESP_RELAY_GPIO board) (level_of (negb (relay_on s)))) r1;
         Call (GpioSetLevel (CONFIG_ESP_BLUE_LED_GPIO board)
                 (level_of (negb (relay_on s)))) r2;
         Do (HomekitCharacteristicNotify addr_relay_on_characteristic
               (HOMEKIT_BOOL (negb (relay_on s))))]) ∧
     relay_on s' = negb (relay_on s) ∧
     relay_on (state_after (button_callback board button_event_single_press) s')
     = relay_on s) ∧
  button_callback board button_event_double_press s = (Some tt, s, []) ∧
  (∀ id, button_callback board (button_event_other id) s = (Some tt, s, [])) ∧
  button_callback board button_event_long_press s
  = lifecycle_factory_reset_and_reboot board s ∧
  result_of (button_callback board button_event_long_press) s = None.
Proof.
  assert (Hpress : ∀ s0, ∃ s' r1 r2,
     button_callback board button_event_single_press s0 =
       (Some tt, s',
        [Call (GpioSetLevel (CONFIG_ESP_RELAY_GPIO board)
                 (level_of (negb (relay_on s0)))) r1;
         Call (GpioSetLevel (CONFIG_ESP_BLUE_LED_GPIO board)
                 (level_of (negb (relay_on s0)))) r2;
         Do (HomekitCharacteristicNotify addr_relay_on_characteristic
               (HOMEKIT_BOOL (negb (relay_on s0))))]) ∧
     relay_on s' = negb (relay_on s0)).
  { intros s0.
    assert (H : wp (button_callback board button_event_single_press) s0 (post (λ _ s' t,
      ∃ r1 r2,
        s' = counted (counted (set_relay_on (negb (relay_on s0)) s0)) ∧
        t = [Call (GpioSetLevel (CONFIG_ESP_RELAY_GPIO board)
                     (level_of (negb (relay_on s0)))) r1;
             Call (GpioSetLevel (CONFIG_ESP_BLUE_LED_GPIO board)
                     (level_of (negb (relay_on s0)))) r2;
             Do (HomekitCharacteristicNotify addr_relay_on_characteristic
                   (HOMEKIT_BOOL (negb (relay_on s0))))]))).
    { wp_unfold button_callback. wp_simp. wp_step idtac.
      wp_apply relay_on_set_run. destruct H as (r1 & r2 & -> & ->).
      unfold_idf. wp_steps. eexists. split; [reflexivity|]. by exists r1, r2. }
    apply wp_run in H.
    destruct H as (oa & s' & t & Heq & [] & -> & r1 & r2 & -> & ->).
    eexists _, r1, r2. split; [exact Heq|reflexivity]. }
  split_and!; try reflexivity.
  - destruct (Hpress s) as (s' & r1 & r2 & Heq & Hon).
    exists s', r1, r2. split_and!; [exact Heq|exact Hon|].
    destruct (Hpress s') as (s'' & r1' & r2' & Heq' & Hon').
    unfold state_after. rewrite Heq'. cbn. rewrite Hon', Hon. apply negb_involutive.
  - pose proof (factory_reset_spec board s) as H. unfold wp in H.
    destruct H as [H _]. exact H.
Qed.

(** X9: identification blinks the LED and puts it back.
    [accessory_identify_task] switches the LED on and off twice, 100 ms
    each, and waits 250 ms, three times over; then it writes the relay
    state to the LED and deletes its task.  It writes to no other pin and
    leaves [relay_on] as it was, whatever the writes report. *)
Theorem identify_blinks_and_restores (s : State) :
  ∃ s' t,
    accessory_identify_task board s = (None, s', t) ∧
    relay_on s' = relay_on s ∧
    gpio_levels t =
      [(CONFIG_ESP_BLUE_LED_GPIO board, 1); (CONFIG_ESP_BLUE_LED_GPIO board, 0);
       (CONFIG_ESP_BLUE_LED_GPIO board, 1); (CONFIG_ESP_BLUE_LED_GPIO board, 0);
       (CONFIG_ESP_BLUE_LED_GPIO board, 1); (CONFIG_ESP_BLUE_LED_GPIO board, 0);
       (CONFIG_ESP_BLUE_LED_GPIO board, 1); (CONFIG_ESP_BLUE_LED_GPIO board, 0);
       (CONFIG_ESP_BLUE_LED_GPIO board, 1); (CONFIG_ESP_BLUE_LED_GPIO board, 0);
       (CONFIG_ESP_BLUE_LED_GPIO board, 1); (CONFIG_ESP_BLUE_LED_GPIO board, 0);
       (CONFIG_ESP_BLUE_LED_GPIO board, level_of (relay_on s))] ∧
    delays t = [100; 100; 100; 100; 250; 100; 100; 100; 100; 250;
                100; 100; 100; 100; 250] ∧
    last t = Some (Do VTaskDelete) ∧
    length t = 29%nat.
Proof.
  assert (H : wp (accessory_identify_task board) s (λ oa s' t,
    oa = None ∧ relay_on s' = relay_on s ∧
    gpio_levels t =
      [(CONFIG_ESP_BLUE_LED_GPIO board, 1); (CONFIG_ESP_BLUE_LED_GPIO board, 0);
       (CONFIG_ESP_BLUE_LED_GPIO board, 1); (CONFIG_ESP_BLUE_LED_GPIO board, 0);
       (CONFIG_ESP_BLUE_LED_GPIO board, 1); (CONFIG_ESP_BLUE_LED_GPIO board, 0);
       (CONFIG_ESP_BLUE_LED_GPIO board, 1); (CONFIG_ESP_BLUE_LED_GPIO board, 0);
       (CONFIG_ESP_BLUE_LED_GPIO board, 1); (CONFIG_ESP_BLUE_LED_GPIO board, 0);
       (CONFIG_ESP_BLUE_LED_GPIO board, 1); (CONFIG_ESP_BLUE_LED_GPIO board, 0);
       (CONFIG_ESP_BLUE_LED_GPIO board, level_of (relay_on s))] ∧
    delays t = [100; 100; 100; 100; 250; 100; 100; 100; 100; 250;
                100; 100; 100; 100; 250] ∧
    last t = Some (Do VTaskDelete) ∧
    length t = 29%nat)).
  { wp_unfold accessory_identify_task. cbn [repeat_times].
    wp_unfold blue_led_write. unfold_idf.
    wp_steps_other. split_and!; reflexivity. }
  apply wp_run in H. destruct H as (oa & s' & t & Heq & -> & H).
  by exists s', t.
Qed.

(** X10: [gpio_init] resets both pins, makes them outputs, and starts
    with the relay off: [relay_on] is false and level 0 is written to the
    relay pin and to the LED pin, whatever the calls report. *)
Theorem gpio_init_starts_with_relay_off (s : State) :
  ∃ s' r1 r2 r3 r4 r5 r6,
    gpio_init board s =
      (Some tt, s',
       [Call (GpioResetPin (CONFIG_ESP_RELAY_GPIO board)) r1;
        Call (GpioSetDirection (CONFIG_ESP_RELAY_GPIO board) GPIO_MODE_OUTPUT) r2;
        Call (GpioResetPin (CONFIG_ESP_BLUE_LED_GPIO board)) r3;
        Call (GpioSetDirection (CONFIG_ESP_BLUE_LED_GPIO board) GPIO_MODE_OUTPUT) r4;
        Call (GpioSetLevel (CONFIG_ESP_RELAY_GPIO board) 0) r5;
        Call (GpioSetLevel (CONFIG_ESP_BLUE_LED_GPIO board) 0) r6]) ∧
    relay_on s' = false ∧
    relay_on_get s' = (Some (HOMEKIT_BOOL false), s', []).
Proof.
  assert (H : wp (gpio_init board) s (post (λ _ s' t,
    ∃ r1 r2 r3 r4 r5 r6,
      t = [Call (GpioResetPin (CONFIG_ESP_RELAY_GPIO board)) r1;
           Call (GpioSetDirection (CONFIG_ESP_RELAY_GPIO board) GPIO_MODE_OUTPUT) r2;
           Call (GpioResetPin (CONFIG_ESP_BLUE_LED_GPIO board)) r3;
           Call (GpioSetDirection (CONFIG_ESP_BLUE_LED_GPIO board) GPIO_MODE_OUTPUT) r4;
           Call (GpioSetLevel (CONFIG_ESP_RELAY_GPIO board) 0) r5;
           Call (GpioSetLevel (CONFIG_ESP_BLUE_LED_GPIO board) 0) r6] ∧
      relay_on s' = false))).
  { wp_unfold gpio_init. wp_unfold relay_apply_state.
    wp_unfold relay_write. wp_unfold blue_led_write. unfold_idf.
    wp_steps_other. eexists. split; [reflexivity|].
    exists r, r0, r1, r2, r3, r4. split; reflexivity. }
  apply wp_run in H.
  destruct H as (oa & s' & t & Heq & [] & -> & r1 & r2 & r3 & r4 & r5 & r6 & -> & Hoff).
  exists s', r1, r2, r3, r4, r5, r6. split_and!; [exact Heq|exact Hoff|].
  unfold relay_on_get, bind, gets, pure. cbn. by rewrite Hoff.
Qed.

(** X11: the restart-counter timer is armed for
    [k_restart_counter_timeout_us], 5000000 us with the default
    [CONFIG_LCM_RESTART_COUNTER_TIMEOUT_MS] of 5000.  If the timer exists,
    [lifecycle_schedule_restart_counter_timeout] stops it and starts it
    once with that timeout, whatever the stop reports; if not, it creates
    it first, and gives up when the creation fails.  The restart counter and the NVS partition are not touched.  On
    a board without faults the timer exists afterwards and has been
    started. *)
Theorem restart_counter_timer_is_armed (s : State) :
  ∃ s' t,
    lifecycle_schedule_restart_counter_timeout board s = (Some tt, s', t) ∧
    s_post_reset_state s' = s_post_reset_state s ∧
    nvs_flash s' = nvs_flash s ∧
    (if s_restart_counter_timer s then
       s_restart_counter_timer s' = true ∧
       ∃ r1 r2, t = [Call EspTimerStop r1; Call (EspTimerStartOnce 5000000) r2]
     else
       ∃ r0,
         (r0 ≠ ESP_OK ∧ s_restart_counter_timer s' = false ∧
          t = [Call EspTimerCreate r0]) ∨
         (r0 = ESP_OK ∧ s_restart_counter_timer s' = true ∧
          ∃ r1 r2, t = [Call EspTimerCreate r0; Call EspTimerStop r1;
                        Call (EspTimerStartOnce 5000000) r2])) ∧
    (fault_free board →
       s_restart_counter_timer s' = true ∧
       Call (EspTimerStartOnce 5000000) ESP_OK ∈ t).
Proof.
  assert (H : wp (lifecycle_schedule_restart_counter_timeout board) s (post (λ _ s' t,
    s_post_reset_state s' = s_post_reset_state s ∧
    nvs_flash s' = nvs_flash s ∧
    (if s_restart_counter_timer s then
       s_restart_counter_timer s' = true ∧
       ∃ r1 r2, t = [Call EspTimerStop r1; Call (EspTimerStartOnce 5000000) r2]
     else
       ∃ r0,
         (r0 ≠ ESP_OK ∧ s_restart_counter_timer s' = false ∧
          t = [Call EspTimerCreate r0]) ∨
         (r0 = ESP_OK ∧ s_restart_counter_timer s' = true ∧
          ∃ r1 r2, t = [Call EspTimerCreate r0; Call EspTimerStop r1;
                        Call (EspTimerStartOnce 5000000) r2])) ∧
    (fault_free board →
       s_restart_counter_timer s' = true ∧
       Call (EspTimerStartOnce 5000000) ESP_OK ∈ t)))).
  { wp_unfold lifecycle_schedule_restart_counter_timeout. unfold_idf.
    wp_let. wp_step idtac.
    destruct (s_restart_counter_timer s) eqn:Htimer; wp_simp.
    - subst arm. wp_steps_other. eexists. split; [reflexivity|].
      split; [reflexivity|]. split; [reflexivity|]. split.
      + split; [exact Htimer|]. by eexists _, _.
      + intros Hff. split; [exact Htimer|].
        rewrite (Hr0 (Hff _)). set_solver.
    - wp_step ltac:(idtac; wp_call_other).
      wp_step idtac.
      + wp_step idtac. eexists. split; [reflexivity|].
        split; [reflexivity|]. split; [reflexivity|]. split.
        * exists r. left. split_and!; [done|exact Htimer|reflexivity].
        * intros Hff. exfalso. apply n, Hr, Hff.
      + subst arm. wp_steps_other. eexists. split; [reflexivity|].
        split; [reflexivity|]. split; [reflexivity|]. split.
        * exists r. right.
          split_and!; [by destruct (decide (r = ESP_OK)); [|tauto]
                      |reflexivity|by eexists _, _].
        * intros Hff. split; [reflexivity|].
          rewrite (Hr1 (Hff _)). set_solver. }
  apply wp_run in H. destruct H as (oa & s' & t & Heq & [] & -> & H).
  by exists s', t.
Qed.

(** X12: what is saved is read back.  After
    [save_restart_counter_to_nvs v] has returned [ESP_OK], a read none of
    whose calls is failed returns [ESP_OK] and [v]. *)
Theorem saved_counter_is_read_back (v : Z) (s s1 : State) (t1 : list event) :
  save_restart_counter_to_nvs board v s = (Some ESP_OK, s1, t1) →
  no_fault_for board 3 s1 →
  durable_restart_count s1 = Some (NvsU32 v) ∧
  result_of (load_restart_counter_from_nvs board) s1 = Some (ESP_OK, v).
Proof.
  intros Hsave Hnf.
  pose proof (save_spec board v s) as H. apply wp_run in H.
  destruct H as (oa & s' & t & Heq & r & -> & flash & n & b & -> & _ & _ & Hentry & _).
  rewrite Hsave in Heq. injection Heq as ? ? ?; subst.
  assert (Hdur : durable_restart_count (platform flash n b s) = Some (NvsU32 v))
    by (apply Hentry; reflexivity).
  split; [exact Hdur|].
  pose proof (load_not_failed board _ Hnf) as H. apply wp_run in H.
  destruct H as (oa & s2 & t2 & Heq & r & -> & Hr).
  unfold result_of. rewrite Heq. cbn. rewrite Hr, Hdur. reflexivity.
Qed.

(** X13: [app_main] does not start without NVS.  When
    [lifecycle_nvs_init] fails, [ESP_ERROR_CHECK] aborts at once (unless
    it is compiled out with [NDEBUG]): nothing else is called, and the
    boot is not counted.  Otherwise the boot protocol runs next. *)
Theorem app_main_checks_nvs (s s1 : State) (r : esp_err_t) (t1 : list event) :
  lifecycle_nvs_init board s = (Some r, s1, t1) →
  (NDEBUG board = false → r ≠ ESP_OK →
     app_main board s = (None, s1, t1 ++ [Do Abort])) ∧
  (NDEBUG board = true ∨ r = ESP_OK →
     ∃ rest,
       trace_of (app_main board) s
       = t1 ++ trace_of (lifecycle_log_post_reset_state board) s1 ++ rest).
Proof.
  intros Hinit. split.
  - intros Hdebug Hr.
    unfold app_main, ESP_ERROR_CHECK. unfold bind at 1 2. rewrite Hinit, Hdebug.
    by case_decide.
  - intros Hgo.
    unfold trace_of, app_main, ESP_ERROR_CHECK. unfold bind at 1 2 3.
    rewrite Hinit.
    assert (Hcheck : (if NDEBUG board then pure tt
                      else if decide (r ≠ ESP_OK) then abort else pure tt) s1
                     = (Some tt, s1, [])).
    { destruct Hgo as [-> | ->]; [done|]. destruct (NDEBUG board); [done|].
      by case_decide. }
    rewrite Hcheck.
    destruct (lifecycle_log_post_reset_state board s1) as [[[[]|] s2] t2]; cbn.
    + match goal with
      | |- context [bind ?m ?k s2] => destruct (bind m k s2) as [[ob s3] t3]
      end.
      cbn. exists t3. by rewrite app_nil_r.
    + exists []. by rewrite !app_nil_r.
Qed.




(** Loading the credentials touches nothing but NVS. *)
Lemma nvs_load_wifi_frame out_ssid out_pass s :
  wp (nvs_load_wifi board out_ssid out_pass) s (post (λ _ s' t,
    ∃ flash n b, s' = platform flash n b s)).
Proof.
  wp_unfold nvs_load_wifi. unfold_idf.
  wp_apply ensure_spec. destruct H as (flash & n & b & -> & _).
  wp_steps_frame.
  all: eexists; split; [reflexivity|]; by eexists _, _, _.
Qed.

(** X16: [wifi_start] succeeds exactly when it has started the station.
    From a stopped manager, whatever the calls report: if it returns an
    error the manager is still stopped and the ready callback is not
    stored; if it returns [ESP_OK] the manager is started, the callback is
    stored, the interface exists, both event handlers were registered and
    [esp_wifi_start] was the last call and succeeded. *)
Theorem wifi_start_succeeds_iff_started (on_ready : option callback) (s : State) :
  s_wifi_started s = false →
  ∃ err s' t,
    wifi_start board on_ready s = (Some err, s', t) ∧
    (err ≠ ESP_OK →
       s_wifi_started s' = false ∧ s_wifi_on_ready_cb s' = s_wifi_on_ready_cb s) ∧
    (err = ESP_OK →
       s_wifi_started s' = true ∧ s_wifi_on_ready_cb s' = on_ready ∧
       s_wifi_netif s' = true ∧
       Call (EspEventHandlerRegister WIFI_EVENT_ANY_ID) ESP_OK ∈ t ∧
       Call (EspEventHandlerRegister IP_EVENT_GOT_IP_ONLY) ESP_OK ∈ t ∧
       last t = Some (Call EspWifiStart ESP_OK)).
Proof.
  intros Hstopped.
  assert (H : wp (wifi_start board on_ready) s (post (λ err s' t,
    (err ≠ ESP_OK →
       s_wifi_started s' = false ∧ s_wifi_on_ready_cb s' = s_wifi_on_ready_cb s) ∧
    (err = ESP_OK →
       s_wifi_started s' = true ∧ s_wifi_on_ready_cb s' = on_ready ∧
       s_wifi_netif s' = true ∧
       Call (EspEventHandlerRegister WIFI_EVENT_ANY_ID) ESP_OK ∈ t ∧
       Call (EspEventHandlerRegister IP_EVENT_GOT_IP_ONLY) ESP_OK ∈ t ∧
       last t = Some (Call EspWifiStart ESP_OK))))).
  { wp_unfold wifi_start. wp_unfold WIFI_CHECK.
    wp_step idtac. rewrite Hstopped. wp_simp.
    wp_apply nvs_load_wifi_frame. destruct H as (flash & n & b & ->).
    destruct a as [[err ssid] pass]. wp_simp. unfold_idf.
    wp_steps_frame.
    all: eexists; split; [reflexivity|]; split; intros Herr; try done.
    all: try (split; [exact Hstopped|reflexivity]).
    all: try (exfalso; congruence).
    all: try (exfalso; match goal with H : _ ≠ _ ∧ _ |- _ => destruct H; congruence end).
    all: repeat match goal with
         | H : ¬ (?r ≠ ESP_OK) |- _ =>
             assert (r = ESP_OK)
               by (destruct (decide (r = ESP_OK)); [done|by destruct H]);
             clear H; subst r
         end.
    all: cbn [app].
    all: split; [reflexivity|]; split; [reflexivity|].
    all: split;
      [first [reflexivity|match goal with H : s_wifi_netif _ = true |- _ => exact H end]|].
    all: split_and!.
    all: try (apply elem_of_app; right; cbn [app];
              repeat first [apply list_elem_of_here|apply list_elem_of_further]).
    all: rewrite last_app; reflexivity. }
  apply wp_run in H. destruct H as (oa & s' & t & Heq & err & -> & H).
  by exists err, s', t.
Qed.
End Extras.

Lemma post_reset_reason_reported_once_witness :
  reported_reasons
    (trace_of (lifecycle_log_post_reset_state devkit)
       (reboot_marked devkit LIFECYCLE_POST_RESET_REASON_UPDATE (power_on devkit ∅)))
  = ["update"] ∧
  reported_reasons
    (trace_of (lifecycle_log_post_reset_state devkit)
       (warm_reboot devkit
          (state_after (lifecycle_log_post_reset_state devkit)
             (reboot_marked devkit LIFECYCLE_POST_RESET_REASON_UPDATE
                (power_on devkit ∅)))))
  = ["none"].
Proof.
  split; [vm_compute; reflexivity|].
  refine (post_reset_reason_reported_once devkit
            (reboot_marked devkit LIFECYCLE_POST_RESET_REASON_UPDATE (power_on devkit ∅))
            1 2 _ _ _ _).
  - vm_compute. reflexivity.
  - lia.
  - vm_compute. reflexivity.
  - lia.
Defined.

Lemma saved_counter_is_read_back_witness :
  result_of (save_restart_counter_to_nvs devkit 5) (power_on devkit ∅) = Some ESP_OK ∧
  durable_restart_count
    (state_after (save_restart_counter_to_nvs devkit 5) (power_on devkit ∅))
  = Some (NvsU32 5) ∧
  result_of (load_restart_counter_from_nvs devkit)
    (state_after (save_restart_counter_to_nvs devkit 5) (power_on devkit ∅))
  = Some (ESP_OK, 5).
Proof.
  split; [vm_compute; reflexivity|].
  refine (saved_counter_is_read_back devkit 5 (power_on devkit ∅)
            (state_after (save_restart_counter_to_nvs devkit 5) (power_on devkit ∅))
            (trace_of (save_restart_counter_to_nvs devkit 5) (power_on devkit ∅)) _ _).
  - vm_compute. reflexivity.
  - intros k _. reflexivity.
Defined.

Lemma app_main_checks_nvs_witness :
  NDEBUG (failing devkit) = false ∧
  app_main (failing devkit) (power_on (failing devkit) ∅)
  = (None, called ∅ (power_on (failing devkit) ∅),
     [Call NvsFlashInit ESP_FAIL; Do Abort]).
Proof.
  split; [reflexivity|].
  refine (proj1 (app_main_checks_nvs (failing devkit) (power_on (failing devkit) ∅)
                   (called ∅ (power_on (failing devkit) ∅)) ESP_FAIL
                   [Call NvsFlashInit ESP_FAIL] _) _ _).
  - vm_compute. reflexivity.
  - reflexivity.
  - discriminate.
Defined.

Lemma wifi_start_succeeds_iff_started_witness :
  s_wifi_started
    (power_on devkit {[ "wifi_cfg" := {[ "wifi_ssid" := NvsStr "home" ]} ]}) = false ∧
  ∃ err s' t,
    wifi_start devkit (Some cb_on_wifi_ready)
      (power_on devkit {[ "wifi_cfg" := {[ "wifi_ssid" := NvsStr "home" ]} ]})
    = (Some err, s', t) ∧
    (err ≠ ESP_OK →
       s_wifi_started s' = false ∧
       s_wifi_on_ready_cb s'
       = s_wifi_on_ready_cb
           (power_on devkit {[ "wifi_cfg" := {[ "wifi_ssid" := NvsStr "home" ]} ]})) ∧
    (err = ESP_OK →
       s_wifi_started s' = true ∧ s_wifi_on_ready_cb s' = Some cb_on_wifi_ready ∧
       s_wifi_netif s' = true ∧
       Call (EspEventHandlerRegister WIFI_EVENT_ANY_ID) ESP_OK ∈ t ∧
       Call (EspEventHandlerRegister IP_EVENT_GOT_IP_ONLY) ESP_OK ∈ t ∧
       last t = Some (Call EspWifiStart ESP_OK)).
Proof.
  split; [reflexivity|].
  exact (wifi_start_succeeds_iff_started devkit (Some cb_on_wifi_ready)
           (power_on devkit {[ "wifi_cfg" := {[ "wifi_ssid" := NvsStr "home" ]} ]})
           eq_refl).
Defined.
